(** * LiteageOS installer (main.py): a shallow embedding and its properties

    The development follows the layout of [main.py]:

    - [PyText]: the Python string operations the script relies on
      ([str.strip], [str.split], [str.splitlines], [str.lower], [in],
      [int(...)], [str(int)], [str.isdigit]).
    - [Profile]: the device profiler and the version predictor, as functions
      of the values that [run_command] hands back.
    - [Installer]: the effectful part (command runner, capability probe,
      package identifier, asset download, install and uninstall
      orchestrators), written in a small state-and-exception monad over a
      world made of the local file system, the [aapt_available] flag and the
      trace of external events.  The outside world (sub-processes, HTTP
      server, console input) is an oracle that may answer differently
      depending on everything that happened before.
    - [Fixtures]: sample oracles and worlds on which the model is run.
    - [PyTextFacts], [ProfileFacts], [InstallerFacts]: the properties.
    - [ProfileExtras], [InstallerExtras]: further properties of the
      same functions and of the ones around them.
    - [InstallerGating]: the selection of the components to install.

    Modelling choices:

    - Text is a string over the code points U+0000..U+00FF, one [ascii] per
      code point; the character classes are those of Python on that range.
    - A [float] is represented by the decimal it was rounded from (see
      [Profile.mem_gb_of_kb]).
    - Paths follow the POSIX flavour of [os.path].
    - Local file operations ([os.makedirs], [open], [write]) succeed; only
      sub-processes and transfers can fail.
    - In [Profile] the logging calls are left out: they do not bear on the
      values returned.  In [Installer] every logging call is an event of
      the trace. *)

From Stdlib Require Import ZArith QArith Ascii String.
From stdpp Require Import base decidable list strings pretty gmap.

Local Open Scope Z_scope.

(** ** Python outcomes *)

Inductive pyexn : Type :=
  | ValueError
  | IndexError
  | TypeError
  | AttributeError
  | OverflowError
  | SystemExit (code : Z).

(** [except Exception] catches everything but [SystemExit]. *)
Definition is_Exception (e : pyexn) : bool :=
  match e with SystemExit _ => false | _ => true end.

Inductive result (A : Type) : Type :=
  | Ok (a : A)
  | Raise (e : pyexn).
Arguments Ok {A} a.
Arguments Raise {A} e.

(** What [run_command] returns: the stripped standard output (a [str]) when
    [check_output] is set and the command succeeds, otherwise a [bool]. *)
Inductive cmd_val : Type :=
  | CStr (s : string)
  | CBool (b : bool).

(** Python truthiness of such a value. *)
Definition truthy (v : cmd_val) : bool :=
  match v with
  | CStr EmptyString => false
  | CStr _ => true
  | CBool b => b
  end.

Module PyText.

Definition code (c : ascii) : N := N_of_ascii c.

(** [str.isspace] on one code point below U+0100. *)
Definition is_space (c : ascii) : bool :=
  let n := code c in
  ((9 <=? n) && (n <=? 13) || (28 <=? n) && (n <=? 32)
   || (n =? 133) || (n =? 160))%N.

(** Line boundaries of [str.splitlines] below U+0100; CR LF counts once. *)
Definition is_linebreak (c : ascii) : bool :=
  let n := code c in
  ((10 <=? n) && (n <=? 13) || (28 <=? n) && (n <=? 30) || (n =? 133))%N.

Definition digit_val (c : ascii) : option N :=
  let n := code c in
  if ((48 <=? n) && (n <=? 57))%N then Some (n - 48)%N else None.

(** [str.isdigit] on one code point: the ASCII digits and the superscripts
    U+00B2, U+00B3, U+00B9. *)
Definition is_digit_char (c : ascii) : bool :=
  let n := code c in
  ((48 <=? n) && (n <=? 57) || (n =? 178) || (n =? 179) || (n =? 185))%N.

Definition lower_char (c : ascii) : ascii :=
  let n := code c in
  if ((65 <=? n) && (n <=? 90)
      || (192 <=? n) && (n <=? 222) && negb (n =? 215))%N
  then ascii_of_N (n + 32) else c.

Fixpoint lower (s : string) : string :=
  match s with
  | EmptyString => EmptyString
  | String c r => String (lower_char c) (lower r)
  end.

Fixpoint isdigit_go (s : string) : bool :=
  match s with
  | EmptyString => true
  | String c r => is_digit_char c && isdigit_go r
  end.

(** [s.isdigit()]: non-empty and made of digit characters. *)
Definition isdigit (s : string) : bool :=
  match s with
  | EmptyString => false
  | _ => isdigit_go s
  end.

Fixpoint lstrip (s : string) : string :=
  match s with
  | String c r => if is_space c then lstrip r else s
  | EmptyString => EmptyString
  end.

(** [rstrip] keeps a character when it is not white space or when
    something is kept after it. *)
Fixpoint rstrip (s : string) : string :=
  match s with
  | EmptyString => EmptyString
  | String c r =>
      match rstrip r with
      | EmptyString => if is_space c then EmptyString else String c EmptyString
      | r' => String c r'
      end
  end.

Definition strip (s : string) : string := rstrip (lstrip s).

Fixpoint prefix (p s : string) : bool :=
  match p, s with
  | EmptyString, _ => true
  | String a p', String b s' => if ascii_dec a b then prefix p' s' else false
  | String _ _, EmptyString => false
  end.

(** [needle in hay]. *)
Fixpoint contains (needle hay : string) : bool :=
  prefix needle hay
  || match hay with
     | EmptyString => false
     | String _ r => contains needle r
     end.

Fixpoint drop (n : nat) (s : string) : string :=
  match n, s with
  | O, _ => s
  | S n', String _ r => drop n' r
  | S _, EmptyString => EmptyString
  end.

(** [s.split(sep)] cut at the first occurrence of a non-empty [sep]:
    what stands before it and what follows it, or [None] when [sep] does
    not occur (the list returned by [split] then has one element). *)
Fixpoint cut (sep s : string) : option (string * string) :=
  if prefix sep s then Some (EmptyString, drop (String.length sep) s)
  else match s with
       | EmptyString => None
       | String c r =>
           match cut sep r with
           | Some (a, b) => Some (String c a, b)
           | None => None
           end
       end.

(** [s.split()]: the maximal runs of characters that are not white space.
    [cur] is the run being read, in reverse. *)
Fixpoint split_go (cur : option string) (s : string) : list string :=
  match s with
  | EmptyString => option_list (String.rev <$> cur)
  | String c r =>
      if is_space c
      then option_list (String.rev <$> cur) ++ split_go None r
      else split_go (Some (String c (default EmptyString cur))) r
  end.

Definition split (s : string) : list string := split_go None s.

(** [s.splitlines()]: [cur] is the current line in reverse; a line
    terminator at the very end does not open a new line. *)
Fixpoint splitlines_go (cur : string) (s : string) : list string :=
  match s with
  | EmptyString =>
      match cur with EmptyString => [] | _ => [String.rev cur] end
  | String c r =>
      if is_linebreak c then
        let r' := match r with
                  | String c2 r2 =>
                      if ((code c =? 13) && (code c2 =? 10))%N then r2 else r
                  | EmptyString => r
                  end in
        String.rev cur :: splitlines_go EmptyString r'
      else splitlines_go (String c cur) r
  end.

Definition splitlines (s : string) : list string :=
  splitlines_go EmptyString s.

(** The digits of an [int] literal: decimal digits, single underscores
    allowed between two digits.  [prev] tells whether the previous
    character was a digit. *)
Fixpoint int_digits (acc : N) (prev : bool) (s : string) : option N :=
  match s with
  | EmptyString => if prev then Some acc else None
  | String c r =>
      match digit_val c with
      | Some d => int_digits (10 * acc + d)%N true r
      | None =>
          if (code c =? 95)%N && prev then int_digits acc false r else None
      end
  end.

(** White space that [int] itself skips around the literal. *)
Definition is_int_space (c : ascii) : bool :=
  let n := code c in
  ((9 <=? n) && (n <=? 13) || (n =? 32) || (n =? 133) || (n =? 160))%N.

Fixpoint int_lstrip (s : string) : string :=
  match s with
  | String c r => if is_int_space c then int_lstrip r else s
  | EmptyString => EmptyString
  end.

Fixpoint int_rstrip (s : string) : string :=
  match s with
  | EmptyString => EmptyString
  | String c r =>
      match int_rstrip r with
      | EmptyString =>
          if is_int_space c then EmptyString else String c EmptyString
      | r' => String c r'
      end
  end.

(** [int(s)]; [None] stands for [ValueError].  The length limit that
    CPython 3.11 and later put on the conversion (4300 digits unless
    reconfigured) is not modelled. *)
Definition int (s : string) : option Z :=
  match int_rstrip (int_lstrip s) with
  | String c r =>
      if (code c =? 43)%N then Z.of_N <$> int_digits 0 false r
      else if (code c =? 45)%N
           then (fun n => - Z.of_N n) <$> int_digits 0 false r
           else Z.of_N <$> int_digits 0 false (String c r)
  | EmptyString => None
  end.

(** [str(n)] for an [int]. *)
Definition str (n : Z) : string := pretty n.

(** [sep.join(l)]. *)
Fixpoint join (sep : string) (l : list string) : string :=
  match l with
  | [] => EmptyString
  | [x] => x
  | x :: r => x +:+ sep +:+ join sep r
  end.

End PyText.

(** ** Device profiler and version predictor *)

Module Profile.

(** Round [n/d] ([0 < d]) to the nearest integer, ties to the even one. *)
Definition round_half_even (n d : Z) : Z :=
  let q := n `div` d in
  let r := n `mod` d in
  match Z.compare (2 * r) d with
  | Lt => q
  | Gt => q + 1
  | Eq => if Z.even q then q else q + 1
  end.

(** The integer [k] rounded to 53 significant bits, as the conversion of
    the quotient to a [float] does. *)
Definition rn53 (k : Z) : Z :=
  if Z.abs k <? 2 ^ 53 then k
  else
    let sh := Z.log2 (Z.abs k) - 52 in
    Z.sgn k * (round_half_even (Z.abs k) (2 ^ sh) * 2 ^ sh).

(** [round(mem_kb / (1024 * 1024), 2)].  The quotient is the double
    [rn53 mem_kb / 2^20]; the division raises [OverflowError] when that
    leaves the range of doubles.  [round] yields the double nearest to
    [h/100], for [h] the quotient in hundredths rounded half to even; the
    model keeps the decimal [h/100] itself.  Comparing that decimal with
    100 gives what comparing the double gives, 100 being a double. *)
Definition mem_gb_of_kb (mem_kb : Z) : result Q :=
  let x := rn53 mem_kb in
  if 2 ^ 1044 <=? Z.abs x then Raise OverflowError
  else Ok (round_half_even (100 * x) (2 ^ 20) # 100).

(** The loop of [get_device_ram_gb] over the lines of the blob. *)
Fixpoint scan_meminfo (lines : list string) : result (option Q) :=
  match lines with
  | [] => Ok None
  | line :: rest =>
      if PyText.contains "MemTotal:" line then
        match PyText.split line !! 1%nat with
        | None => Ok None                       (* IndexError *)
        | Some tok =>
            match PyText.int tok with
            | None => Ok None                   (* ValueError *)
            | Some mem_kb =>
                match mem_gb_of_kb mem_kb with
                | Ok mem_gb => Ok (Some mem_gb)
                | Raise e => Raise e
                end
            end
        end
      else scan_meminfo rest
  end.

(** [get_device_ram_gb], as a function of the value [run_command] returned
    for [cat /proc/meminfo]. *)
Definition get_device_ram_gb (meminfo_output : cmd_val)
  : result (option Q) :=
  match meminfo_output with
  | CStr s =>
      if truthy meminfo_output then scan_meminfo (PyText.splitlines s)
      else Ok None
  | CBool true => Raise AttributeError
  | CBool false => Ok None
  end.

(** The API-level branch of [get_android_os_version]. *)
Definition version_of_api_level (api_level : Z) : Z :=
  if api_level >=? 34 then 14
  else if api_level =? 33 then 13
  else if api_level =? 32 then 12
  else if api_level =? 31 then 12
  else if api_level =? 30 then 11
  else if api_level =? 29 then 10
  else if api_level =? 28 then 9
  else if api_level =? 27 then 8
  else if api_level =? 26 then 8
  else api_level.

Definition os_version_from_sdk (sdk_version_str : cmd_val)
  : result (option Z) :=
  match sdk_version_str with
  | CStr s =>
      if truthy sdk_version_str && PyText.isdigit (PyText.strip s) then
        match PyText.int (PyText.strip s) with
        | Some api_level => Ok (Some (version_of_api_level api_level))
        | None => Raise ValueError
        end
      else Ok None
  | CBool true => Raise AttributeError
  | CBool false => Ok None
  end.

(** [get_android_os_version], as a function of the values [run_command]
    returned for the two [getprop] queries; the second is looked at only
    when the first gave no number. *)
Definition get_android_os_version (release_version_str sdk_version_str : cmd_val)
  : result (option Z) :=
  match release_version_str with
  | CStr s =>
      if truthy release_version_str then
        match PyText.int (PyText.strip s) with
        | Some v => Ok (Some v)
        | None => os_version_from_sdk sdk_version_str
        end
      else os_version_from_sdk sdk_version_str
  | CBool true => Raise AttributeError
  | CBool false => os_version_from_sdk sdk_version_str
  end.

Definition calculate_liteageos_version
    (android_version_num : option Z) (has_arm8 : bool)
    (is_memory_less_than_100gb : bool) : string :=
  let version := EmptyString in
  let version :=
    match android_version_num with
    | Some n => version +:+ PyText.str (n + 10)
    | None => version +:+ "???"
    end in
  let version := if has_arm8 then version +:+ "+" else version in
  let version :=
    if is_memory_less_than_100gb then version +:+ "S" else version in
  version.

(** [total_ram_gb < 100] *)
Definition lt_100 (total_ram_gb : Q) : bool :=
  if Qlt_le_dec total_ram_gb 100 then true else false.

(** The prediction step of the menu loop in [main]. *)
Definition predict (android_os_version : option Z)
    (has_arm8_support : bool) (total_ram_gb : option Q) : string :=
  let is_memory_less_than_100gb :=
    match total_ram_gb with
    | Some r => lt_100 r
    | None => false
    end in
  calculate_liteageos_version android_os_version has_arm8_support
    is_memory_less_than_100gb.

(** The release property gives no number: the query failed, printed
    nothing, or printed something [int] rejects. *)
Definition release_fails (release : cmd_val) : Prop :=
  release = CBool false ∨ release = CStr EmptyString
  ∨ ∃ s, release = CStr s ∧ PyText.int (PyText.strip s) = None.

(** The API-level property gives no number: the query failed, printed
    nothing, or printed something that is not made of digits. *)
Definition sdk_fails (sdk : cmd_val) : Prop :=
  sdk = CBool false
  ∨ ∃ s, sdk = CStr s
         ∧ (s = EmptyString ∨ PyText.isdigit (PyText.strip s) = false).

(** The line does not carry the [MemTotal:] marker. *)
Definition no_marker (line : string) : Prop :=
  PyText.contains "MemTotal:" line = false.

(** [abi_output and "arm64-v8a" in abi_output.lower()], one operand of the
    test in [check_arm8_support_on_device]. *)
Definition abi_has_arm64 (abi_output : cmd_val) : result bool :=
  match abi_output with
  | CStr s =>
      Ok (truthy abi_output && PyText.contains "arm64-v8a" (PyText.lower s))
  | CBool true => Raise AttributeError
  | CBool false => Ok false
  end.

(** [check_arm8_support_on_device], as a function of the values
    [run_command] returned for [ro.product.cpu.abi] and
    [ro.product.cpu.abi2]; [or] looks at the second operand only when the
    first is false. *)
Definition check_arm8_support_on_device (abi_output abi2_output : cmd_val)
  : result bool :=
  match abi_has_arm64 abi_output with
  | Raise e => Raise e
  | Ok true => Ok true
  | Ok false =>
      match abi_has_arm64 abi2_output with
      | Raise e => Raise e
      | Ok b => Ok b
      end
  end.

(** A character of the base of a label: a digit, a sign, or the question
    mark of an unknown version. *)
Definition base_char (c : ascii) : Prop :=
  is_Some (PyText.digit_val c) ∨ c = "-"%char ∨ c = "?"%char.

Definition chars (s : string) : list ascii := String.list_ascii_of_string s.

(** A value [run_command] returns when it captures the output: the
    stripped output, or [False]. *)
Definition captured (v : cmd_val) : Prop :=
  v = CBool false ∨ ∃ s, v = CStr s.

(** The prediction step of the menu loop in [main], from the values
    [run_command] returned for the five device queries. *)
Definition predict_from_outputs
    (release_version_str sdk_version_str abi_output abi2_output
       meminfo_output : cmd_val) : result string :=
  match get_android_os_version release_version_str sdk_version_str with
  | Raise e => Raise e
  | Ok android_os_version =>
      match check_arm8_support_on_device abi_output abi2_output with
      | Raise e => Raise e
      | Ok has_arm8_support =>
          match get_device_ram_gb meminfo_output with
          | Raise e => Raise e
          | Ok total_ram_gb =>
              Ok (predict android_os_version has_arm8_support total_ram_gb)
          end
      end
  end.

End Profile.

(** ** The installer: world, oracle and monad *)

Module Installer.

Inductive level : Type := INFO | WARNING | ERROR | CRITICAL.

(** What the script does to the outside world, in the order it happens. *)
Inductive event : Type :=
  | Log (lvl : level) (msg : string)      (* logging.info, .warning, ... *)
  | Input (prompt : string)               (* input(prompt) *)
  | Run (argv : list string)              (* subprocess.run(argv, ...) *)
  | Get (url : string).                   (* requests.get(url, stream=True) *)

(** How a sub-process ends. *)
Inductive proc_outcome : Type :=
  | Completed (stdout stderr : string)
  | CalledProcessError (msg stdout stderr : string)
  | FileNotFoundError.

(** How a transfer ends: the request itself fails, the status is bad, or
    the body arrives in chunks, maybe cut short by a transport error. *)
Inductive http_outcome : Type :=
  | RequestFailed (msg : string)
  | BadStatus (msg : string)
  | Body (chunks : list string) (broken : option string).

(** The outside world.  Each answer may depend on the whole history.
    [set_order] is the order in which the interpreter iterates over
    [set(l)]. *)
Record oracle : Type := Oracle {
  subprocess_run : list event → list string → proc_outcome;
  requests_get : list event → string → http_outcome;
  console_input : list event → string → string;
  set_order : list string → list string
}.

Inductive node : Type :=
  | Dir
  | File (content : string).

Record world : Type := World {
  fs : gmap string node;
  aapt_available : bool;
  trace : list event
}.

Definition M (A : Type) : Type := world → result A * world.

Global Instance M_ret : MRet M := λ A a w, (Ok a, w).
Global Instance M_bind : MBind M := λ A B k m w,
  match m w with
  | (Ok a, w') => k a w'
  | (Raise e, w') => (Raise e, w')
  end.

Definition raise {A} (e : pyexn) : M A := λ w, (Raise e, w).

(** [try: m  except Exception as e: h e] *)
Definition try_except_Exception {A} (m : M A) (h : pyexn → M A) : M A :=
  λ w, match m w with
       | (Raise e, w') => if is_Exception e then h e w' else (Raise e, w')
       | r => r
       end.

Definition emit (e : event) : M unit :=
  λ w, (Ok (), World (fs w) (aapt_available w) (trace w ++ [e])).

Definition logging (lvl : level) (msg : string) : M unit := emit (Log lvl msg).

Definition get_aapt_available : M bool := λ w, (Ok (aapt_available w), w).
Definition set_aapt_available (b : bool) : M unit :=
  λ w, (Ok (), World (fs w) b (trace w)).

(** [os.path.exists], [os.makedirs], [open(p, 'wb')] and [f.write]. *)
Definition path_exists (p : string) : M bool :=
  λ w, (Ok (bool_decide (is_Some (fs w !! p))), w).
Definition makedirs (p : string) : M unit :=
  λ w, (Ok (), World (<[p := Dir]> (fs w)) (aapt_available w) (trace w)).
Definition open_wb (p : string) : M unit :=
  λ w, (Ok (), World (<[p := File EmptyString]> (fs w)) (aapt_available w) (trace w)).
Definition write (p chunk : string) : M unit :=
  λ w, let old := match fs w !! p with Some (File c) => c | _ => EmptyString end in
       (Ok (), World (<[p := File (old +:+ chunk)]> (fs w))
                 (aapt_available w) (trace w)).

Fixpoint write_chunks (p : string) (chunks : list string) : M unit :=
  match chunks with
  | [] => mret ()
  | c :: r => write p c ;; write_chunks p r
  end.

(** [os.path.join] and [os.path.basename], POSIX flavour. *)
Fixpoint ends_with_slash (s : string) : bool :=
  match s with
  | EmptyString => false
  | String c EmptyString => bool_decide (c = "/"%char)
  | String _ r => ends_with_slash r
  end.

Definition path_join (a b : string) : string :=
  if PyText.prefix "/" b then b
  else match a with
       | EmptyString => b
       | _ => if ends_with_slash a then a +:+ b else a +:+ "/" +:+ b
       end.

Fixpoint basename (p : string) : string :=
  match p with
  | EmptyString => EmptyString
  | String c r =>
      if PyText.contains "/" p
      then basename r
      else p
  end.

Section WithOracle.

Variable O : oracle.

Definition subprocess (argv : list string) : M proc_outcome :=
  λ w, (Ok (subprocess_run O (trace w) argv),
        World (fs w) (aapt_available w) (trace w ++ [Run argv])).

Definition http_get (url : string) : M http_outcome :=
  λ w, (Ok (requests_get O (trace w) url),
        World (fs w) (aapt_available w) (trace w ++ [Get url])).

Definition input (prompt : string) : M string :=
  λ w, (Ok (console_input O (trace w) prompt),
        World (fs w) (aapt_available w) (trace w ++ [Input prompt])).

Definition when (b : bool) (m : M unit) : M unit :=
  if b then m else mret ().

Definition nonempty (s : string) : bool :=
  match s with EmptyString => false | _ => true end.

(** ** --- PROJECT CONFIGURATION --- *)

Definition BASE_APK_RELEASE_URL : string :=
  "https://github.com/AleXDE54/liteageOS/releases/download/APKS/".

(** A dict keeps its insertion order: an association list. *)
Definition LINEAGEOS_COMPONENTS : list (string * (string * bool)) :=
  [ ("Music.apk", ("Music Player", false));
    ("Phone.apk", ("Phone App", false));
    ("Files.apk", ("File Manager", false));
    ("Browser.apk", ("Web Browser", false));
    ("Calc.apk", ("Calculator", false));
    ("Recorder.apk", ("Audio Recorder", false));
    ("Calender.apk", ("Calendar", false));
    ("Gallery.apk", ("Gallery Viewer", false));
    ("Aurora.apk", ("Aurora Store (App Store)", true)) ].

Definition LAUNCHERS : list (string * string) :=
  [ ("Litechair.apk", "Litechair (Modern Lawnchair Fork)");
    ("Litechair_legacy.apk", "Litechair Legacy (Android 5.0 Design)") ].

Definition WALLPAPER_FILENAME : string := "wallpaper.jpg".
Definition ADB_PATH : string := "adb".
Definition AAPT_PATH : string := "aapt".
Definition TEMP_DIR : string := "apks".

(** ** --- FUNCTIONS --- *)

Definition print_step (message : string) : M unit :=
  logging INFO ("
--- " +:+ message +:+ " ---").

Definition run_command (command : list string)
    (check_output suppress_error : bool) (tool_name : string) : M cmd_val :=
  logging INFO ("Executing " +:+ tool_name +:+ " command: "
                +:+ PyText.join " " command) ;;
  out ← subprocess command ;
  match out with
  | Completed stdout stderr =>
      if check_output then
        when (nonempty stdout)
          (logging INFO (tool_name +:+ " Output (stdout): "
                         +:+ PyText.strip stdout)) ;;
        (if nonempty stderr then
           logging WARNING (tool_name +:+ " Error (stderr): "
                            +:+ PyText.strip stderr)
         else
           when (negb suppress_error && negb (nonempty stdout))
             (logging WARNING
                (tool_name +:+ " Error (stdout/stderr): (empty)"))) ;;
        mret (CStr (PyText.strip stdout))
      else mret (CBool true)
  | CalledProcessError msg stdout stderr =>
      (* without capture_output the error carries no output *)
      let e_stdout := if check_output then stdout else EmptyString in
      let e_stderr := if check_output then stderr else EmptyString in
      logging ERROR ("Error executing " +:+ tool_name +:+ " command: "
                     +:+ msg) ;;
      when (nonempty e_stdout)
        (logging ERROR ("Stdout: " +:+ PyText.strip e_stdout)) ;;
      when (nonempty e_stderr)
        (logging ERROR ("Stderr: " +:+ PyText.strip e_stderr)) ;;
      when (negb (nonempty e_stdout) && negb (nonempty e_stderr))
        (logging ERROR
           "Error output (stdout/stderr) is empty or unavailable.") ;;
      mret (CBool false)
  | FileNotFoundError =>
      logging CRITICAL ("Error: Command '" +:+ hd EmptyString command +:+ "' ("
                        +:+ tool_name +:+ ") not found.") ;;
      (if bool_decide (tool_name = "AAPT") then
         logging CRITICAL
           "Automatic package name detection is not possible without AAPT." ;;
         logging CRITICAL
           "Please install Android SDK Build-Tools and ensure 'aapt' is available in your system PATH."
       else
         logging CRITICAL
           "Ensure ADB is installed and added to your system PATH.") ;;
      raise (SystemExit 1)
  end.

Definition check_aapt_availability : M bool :=
  print_step "Checking AAPT Availability" ;;
  v ← run_command [AAPT_PATH; "version"] true true "AAPT" ;
  (if truthy v then
     set_aapt_available true ;;
     logging INFO "AAPT found. Automatic package name detection will work."
   else
     set_aapt_available false ;;
     logging WARNING
       "AAPT not found. Automatic package name detection will be unavailable." ;;
     logging WARNING
       "You might need to manually set the default launcher and verify package names for uninstallation." ;;
     logging WARNING
       "To install AAPT: download Android SDK Command-line Tools from developer.android.com/studio/releases/platform-tools" ;;
     logging WARNING
       "Unzip and add the path to the 'build-tools' folder to your system PATH.") ;;
  get_aapt_available.

(** [str(e)] for the exceptions an [except Exception as e] can see; in
    [get_package_name_from_apk] these are [IndexError] and, were the
    command runner to return [True], [AttributeError]. *)
Definition exn_str (e : pyexn) : string :=
  match e with
  | IndexError => "list index out of range"
  | AttributeError => "'bool' object has no attribute 'splitlines'"
  | ValueError => "ValueError"
  | TypeError => "TypeError"
  | OverflowError => "OverflowError"
  | SystemExit _ => "1"
  end.

(** Truthiness of a value that is a [str] or [None]. *)
Definition str_truthy (o : option string) : bool :=
  match o with
  | Some s => nonempty s
  | None => false
  end.

(** [line.split("name='")[1].split("'")[0]]: the piece between the first
    two occurrences of [name='], up to its first quote. *)
Definition quoted_name (line : string) : result string :=
  match PyText.cut "name='" line with
  | None => Raise IndexError
  | Some (_, after) =>
      let piece := match PyText.cut "name='" after with
                   | Some (a, _) => a
                   | None => after
                   end in
      Ok (match PyText.cut "'" piece with
          | Some (a, _) => a
          | None => piece
          end)
  end.

(** The [for line in output.splitlines()] loop of
    [get_package_name_from_apk]; [None] when it ends without [return]. *)
Fixpoint scan_badging (apk_path : string) (lines : list string)
  : M (option (option string)) :=
  match lines with
  | [] => mret None
  | line :: rest =>
      if PyText.contains "package: name=" line then
        match quoted_name line with
        | Raise e => raise e
        | Ok package_name =>
            logging INFO ("Package name for " +:+ basename apk_path
                          +:+ ": " +:+ package_name) ;;
            mret (Some (Some package_name))
        end
      else scan_badging apk_path rest
  end.

Definition get_package_name_from_apk (apk_path : string)
  : M (option string) :=
  available ← get_aapt_available ;
  if negb available then
    logging WARNING
      "AAPT is unavailable. Cannot automatically determine package name." ;;
    mret None
  else
    logging INFO ("Determining package name for " +:+ basename apk_path
                  +:+ " using aapt...") ;;
    try_except_Exception
      (output ← run_command [AAPT_PATH; "dump"; "badging"; apk_path]
                  true true "AAPT" ;
       found ← (if truthy output then
                  match output with
                  | CStr s => scan_badging apk_path (PyText.splitlines s)
                  | CBool _ => raise AttributeError
                  end
                else mret None) ;
       match found with
       | Some package_name => mret package_name
       | None =>
           logging WARNING ("Failed to determine package name for "
                            +:+ basename apk_path
                            +:+ ". Please check the APK file.") ;;
           mret None
       end)
      (λ e,
         logging ERROR ("Error extracting package name from " +:+ apk_path
                        +:+ ": " +:+ exn_str e) ;;
         mret None).

Definition download_file (url filename target_dir : string)
  : M (option string) :=
  dir_exists ← path_exists target_dir ;
  when (negb dir_exists)
    (makedirs target_dir ;;
     logging INFO ("Created directory: " +:+ target_dir)) ;;
  let filepath := path_join target_dir filename in
  file_exists ← path_exists filepath ;
  if (file_exists : bool) then
    logging INFO ("File '" +:+ filename +:+ "' already exists in '"
                  +:+ target_dir +:+ "'. Skipping download.") ;;
    mret (Some filepath)
  else
    logging INFO ("Downloading " +:+ filename +:+ " from " +:+ url
                  +:+ " to " +:+ target_dir +:+ "...") ;;
    response ← http_get url ;
    let failed (msg : string) : M (option string) :=
      logging ERROR ("Error downloading " +:+ filename +:+ ": " +:+ msg) ;;
      mret None in
    match response with
    | RequestFailed msg => failed msg
    | BadStatus msg => failed msg
    | Body chunks broken =>
        open_wb filepath ;;
        write_chunks filepath chunks ;;
        match broken with
        | Some msg => failed msg
        | None =>
            logging INFO ("Successfully downloaded " +:+ filename +:+ ".") ;;
            mret (Some filepath)
        end
    end.

Definition push_and_install_apk (local_path : string) : M bool :=
  let remote_path := "/data/local/tmp/" in
  let filename := basename local_path in
  let remote_apk_path := path_join remote_path filename in
  logging INFO ("Pushing " +:+ filename +:+ " to device...") ;;
  pushed ← run_command [ADB_PATH; "push"; local_path; remote_apk_path]
             false false "ADB" ;
  if negb (truthy pushed) then
    logging ERROR ("Failed to push " +:+ filename +:+ " to device.") ;;
    mret false
  else
    logging INFO ("Installing " +:+ filename +:+ "...") ;;
    installed ← run_command
                  [ADB_PATH; "shell"; "pm"; "install"; "-r"; remote_apk_path]
                  false false "ADB" ;
    if negb (truthy installed) then
      logging ERROR ("Error installing " +:+ filename
        +:+ ". It might require manual installation, or the app is already installed with a different signature, or it's a split-APK.") ;;
      logging ERROR
        "Try to find a 'universal' APK for this app or install it manually." ;;
      mret false
    else
      logging INFO ("Successfully installed " +:+ filename +:+ ".") ;;
      mret true.

Definition set_default_launcher (package_name : option string) : M bool :=
  match package_name with
  | Some name =>
      if nonempty name then
        logging INFO ("Attempting to set " +:+ name
                      +:+ " as default launcher...") ;;
        done ← run_command
                 [ADB_PATH; "shell"; "cmd"; "package"; "set-home-activity"; name]
                 false false "ADB" ;
        if truthy done then
          logging INFO ("Successfully set " +:+ name
                        +:+ " as default launcher.") ;;
          mret true
        else
          logging ERROR ("Failed to set " +:+ name
                         +:+ " as default launcher automatically.") ;;
          logging INFO
            "You might need to do this manually: Settings -> Apps -> Default apps -> Home app -> {Your Launcher Name}." ;;
          mret false
      else
        logging ERROR
          "Cannot set default launcher: package name not determined." ;;
        logging INFO
          "Please set the default launcher manually: Settings -> Apps -> Default apps -> Home app -> {Your Launcher Name}." ;;
        mret false
  | None =>
      logging ERROR
        "Cannot set default launcher: package name not determined." ;;
      logging INFO
        "Please set the default launcher manually: Settings -> Apps -> Default apps -> Home app -> {Your Launcher Name}." ;;
      mret false
  end.

Definition set_wallpaper (local_image_path : string) : M bool :=
  let remote_wallpaper_path :=
    "/sdcard/Download/" +:+ basename local_image_path in
  logging INFO ("Pushing wallpaper " +:+ basename local_image_path
                +:+ " to device at " +:+ remote_wallpaper_path +:+ "...") ;;
  pushed ← run_command
             [ADB_PATH; "push"; local_image_path; remote_wallpaper_path]
             false false "ADB" ;
  if negb (truthy pushed) then
    logging ERROR ("Failed to push wallpaper " +:+ basename local_image_path
                   +:+ " to device.") ;;
    mret false
  else
    logging INFO ("Attempting to set wallpaper from "
                  +:+ remote_wallpaper_path +:+ "...") ;;
    done ← run_command
             [ADB_PATH; "shell"; "cmd"; "wallpaper"; "set"; remote_wallpaper_path]
             false false "ADB" ;
    if truthy done then
      logging INFO "Wallpaper successfully set." ;;
      mret true
    else
      logging ERROR "Failed to set wallpaper automatically." ;;
      logging INFO ("Please set the wallpaper manually: open 'Gallery' or 'Files' app on your phone, find '"
        +:+ basename local_image_path
        +:+ "' in 'Download' folder and set it as wallpaper.") ;;
      mret false.

Fixpoint for_each {A} (l : list A) (body : A → M unit) : M unit :=
  match l with
  | [] => mret ()
  | x :: r => body x ;; for_each r body
  end.

(** A [for] loop that carries a local variable. *)
Fixpoint for_fold {A S} (l : list A) (s : S) (body : A → S → M S) : M S :=
  match l with
  | [] => mret s
  | x :: r => s' ← body x s ; for_fold r s' body
  end.

(** *** install_liteageos_components *)

(** The block under [if install_launcher_action:]. *)
Definition install_launcher (chosen_launcher_apk : option string) : M unit :=
  logging INFO ("Selected launcher: " +:+ default "None" chosen_launcher_apk) ;;
  match chosen_launcher_apk with
  | None => raise TypeError          (* BASE_APK_RELEASE_URL + None *)
  | Some apk =>
      let launcher_url := BASE_APK_RELEASE_URL +:+ apk in
      downloaded_path ← download_file launcher_url apk TEMP_DIR ;
      match downloaded_path with
      | Some path =>
          if nonempty path then
            launcher_package_name ← get_package_name_from_apk path ;
            if str_truthy launcher_package_name then
              let name := default EmptyString launcher_package_name in
              is_installed_on_device ←
                run_command [ADB_PATH; "shell"; "pm"; "path"; name]
                  true true "ADB" ;
              present ← (if truthy is_installed_on_device then
                           match is_installed_on_device with
                           | CStr s => mret (PyText.contains "package:" s)
                           | CBool _ => raise TypeError
                           end
                         else mret false) ;
              if (present : bool) then
                logging INFO ("
Detected already installed launcher with package name '" +:+ name +:+ "'.") ;;
                answer ← input
                  "It is already installed. Do you want to set it as the default launcher (y/n)? " ;
                let make_default := PyText.lower answer in
                if bool_decide (make_default = "y") then
                  set_default_launcher launcher_package_name ;; mret ()
                else
                  logging INFO
                    "Skipping setting default launcher as it's already installed and you chose not to make it primary."
              else
                logging INFO ("Launcher '" +:+ name
                  +:+ "' not found on device. Proceeding with installation.") ;;
                installed ← push_and_install_apk path ;
                if (installed : bool) then
                  logging INFO
                    "Launcher installed. Now attempting to set it as the default launcher." ;;
                  set_default_launcher launcher_package_name ;; mret ()
                else
                  logging ERROR
                    "Failed to install launcher. Check messages above. It might be a split-APK requiring full build, or a signature conflict." ;;
                  logging INFO
                    "Try to find a 'universal' APK for this launcher or install it manually."
            else
              logging ERROR ("ERROR: Failed to determine package name for "
                +:+ apk +:+ ". Setting default launcher might not work.") ;;
              logging INFO
                "Please ensure your selected launcher APK is a valid APK file and that AAPT is working correctly."
          else
            logging ERROR ("Failed to download launcher '" +:+ apk
              +:+ "'. Check URL or internet connection.") ;;
            logging INFO "Skipping launcher installation."
      | None =>
          logging ERROR ("Failed to download launcher '" +:+ apk
            +:+ "'. Check URL or internet connection.") ;;
          logging INFO "Skipping launcher installation."
      end
  end.

(** The value of [install_app] once the two tests on [optional] ran. *)
Definition install_app_of (optional : bool)
    (install_optional_apps_config : string) : string :=
  let install_app := "n" in
  if negb optional then "y"
  else if optional && bool_decide (install_optional_apps_config = "y")
       then "y"
       else install_app.

(** The body of the loop over [LINEAGEOS_COMPONENTS.items()]. *)
Definition install_component (install_optional_apps_config : string)
    (item : string * (string * bool)) : M unit :=
  let '(apk_filename, (description, optional)) := item in
  if bool_decide (apk_filename ∈ LAUNCHERS.*1) then mret ()   (* continue *)
  else
    let install_app := install_app_of optional install_optional_apps_config in
    if bool_decide (install_app = "y") then
      logging INFO ("
Installing " +:+ description +:+ " (" +:+ apk_filename +:+ ")...") ;;
      let app_url := BASE_APK_RELEASE_URL +:+ apk_filename in
      local_path ← download_file app_url apk_filename TEMP_DIR ;
      if str_truthy local_path then
        let path := default EmptyString local_path in
        package_name_for_app ← get_package_name_from_apk path ;
        installed ← push_and_install_apk path ;
        when installed
          (logging INFO (description +:+ " successfully installed."))
      else
        logging ERROR ("Failed to download " +:+ description
                       +:+ ". Check URL.")
    else
      logging INFO ("Skipping installation of " +:+ description +:+ ".").

Definition install_applications (install_optional_apps_config : string)
  : M unit :=
  print_step "Installing LineageOS Applications" ;;
  for_each LINEAGEOS_COMPONENTS
    (install_component install_optional_apps_config).

Definition install_wallpaper : M unit :=
  print_step "Installing Wallpaper" ;;
  let wallpaper_url := BASE_APK_RELEASE_URL +:+ WALLPAPER_FILENAME in
  local_wallpaper_path ← download_file wallpaper_url WALLPAPER_FILENAME TEMP_DIR ;
  if str_truthy local_wallpaper_path then
    set_wallpaper (default EmptyString local_wallpaper_path) ;; mret ()
  else
    logging ERROR
      "Failed to download wallpaper file. Wallpaper will not be set.".

Definition install_liteageos_components (install_launcher_action : bool)
    (chosen_launcher_apk : option string)
    (install_optional_apps_config : string) : M unit :=
  print_step "Installing Launcher" ;;
  (if install_launcher_action then install_launcher chosen_launcher_apk
   else logging INFO "Skipping launcher installation as per user choice.") ;;
  install_applications install_optional_apps_config ;;
  install_wallpaper ;;
  logging INFO "
--- LiteageOS Installation Complete! ---" ;;
  logging INFO
    "Please check your phone. Additional manual launcher setup might be required.".

(** *** wipe_liteageos_components *)

Definition wipe_prompt : string :=
  "Are you sure you want to uninstall all LiteageOS components (launchers, apps)? This action is irreversible (y/n)? ".

(** The body of the loop over [LINEAGEOS_COMPONENTS.keys()];
    [packages_to_uninstall] is the list built so far. *)
Definition collect_package (apk_filename : string)
    (packages_to_uninstall : list string) : M (list string) :=
  let local_path := path_join TEMP_DIR apk_filename in
  cached ← path_exists local_path ;
  when (negb cached)
    (download_file (BASE_APK_RELEASE_URL +:+ apk_filename)
       apk_filename TEMP_DIR ;; mret ()) ;;
  present ← path_exists local_path ;
  if (present : bool) then
    package_name ← get_package_name_from_apk local_path ;
    if str_truthy package_name then
      mret (packages_to_uninstall ++ [default EmptyString package_name])
    else
      logging WARNING ("Failed to determine package name for "
        +:+ apk_filename +:+ ". Skipping uninstallation.") ;;
      mret packages_to_uninstall
  else
    logging WARNING ("File " +:+ apk_filename
      +:+ " not found locally to determine package name. Skipping uninstallation.") ;;
    mret packages_to_uninstall.

Definition uninstall_command (package : string) : list string :=
  [ADB_PATH; "shell"; "pm"; "uninstall"; "--user"; "0"; package].

(** The body of the loop over [set(packages_to_uninstall)]. *)
Definition uninstall_package (package : string) : M unit :=
  logging INFO ("Attempting to uninstall package: " +:+ package) ;;
  removed ← run_command (uninstall_command package) false true "ADB" ;
  if truthy removed then
    logging INFO ("Package " +:+ package
                  +:+ " successfully uninstalled (for current user).")
  else
    logging WARNING ("Failed to uninstall package " +:+ package
      +:+ ". It might not be installed or is a system app.").

(** The part of [wipe_liteageos_components] that builds
    [packages_to_uninstall]. *)
Definition collect_packages : M (list string) :=
  let packages_to_uninstall := [] in
  let packages_to_uninstall :=
    packages_to_uninstall ++ ["app.lawnchair.nightly"] in
  let packages_to_uninstall :=
    packages_to_uninstall ++ ["ch.deletescape.lawnchair"] in
  packages_to_uninstall ←
    for_fold (LINEAGEOS_COMPONENTS.*1) packages_to_uninstall collect_package ;
  let packages_to_uninstall :=
    packages_to_uninstall ++ ["org.lineageos.etar"] in
  let packages_to_uninstall :=
    packages_to_uninstall ++ ["org.lineageos.aperture.dev"] in
  let packages_to_uninstall :=
    packages_to_uninstall ++ ["com.android.deskclock"] in
  mret packages_to_uninstall.

(** What the user answers to the confirmation prompt of
    [wipe_liteageos_components] started in [w]. *)
Definition wipe_answer (w : world) : string :=
  match (print_step "Starting LiteageOS Uninstallation Function" ;;
         input wipe_prompt) w with
  | (Ok answer, _) => answer
  | (Raise _, _) => EmptyString
  end.

(** The world in which [wipe_liteageos_components], started in [w], goes
    on once the prompt is answered. *)
Definition after_prompt (w : world) : world :=
  ((print_step "Starting LiteageOS Uninstallation Function" ;;
    input wipe_prompt) w).2.

(** What the server answers when [download_file], started in [w] where
    the asset is not cached, sends its request. *)
Definition download_response (url filename target_dir : string)
    (w : world) : http_outcome :=
  let w1 := (dir_exists ← path_exists target_dir ;
             when (negb dir_exists)
               (makedirs target_dir ;;
                logging INFO ("Created directory: " +:+ target_dir)) ;;
             logging INFO ("Downloading " +:+ filename +:+ " from " +:+ url
                           +:+ " to " +:+ target_dir +:+ "...")) w in
  requests_get O (trace w1.2) url.

Definition wipe_liteageos_components : M unit :=
  print_step "Starting LiteageOS Uninstallation Function" ;;
  answer ← input wipe_prompt ;
  let confirm := PyText.lower answer in
  if negb (bool_decide (confirm = "y")) then
    logging INFO "Uninstallation cancelled by user."
  else
    packages_to_uninstall ← collect_packages ;
    print_step "Uninstalling LiteageOS components..." ;;
    for_each (set_order O packages_to_uninstall) uninstall_package ;;
    logging INFO "LiteageOS uninstallation process complete.".

(** *** setup_temp_dir and check_adb_connection *)

Definition setup_temp_dir : M unit :=
  dir_exists ← path_exists TEMP_DIR ;
  if negb dir_exists then
    makedirs TEMP_DIR ;;
    logging INFO ("Created directory: " +:+ TEMP_DIR)
  else
    logging INFO ("Temporary directory '" +:+ TEMP_DIR
                  +:+ "' already exists.").

(** [check_adb_connection] calls itself after every refused attempt.
    [depth] is the number of nested calls that may still be made; the
    result is [None] when they are used up, where the interpreter would
    give up with its recursion limit. *)
Fixpoint check_adb_connection (depth : nat) : M (option bool) :=
  match depth with
  | 0%nat => mret None
  | S depth' =>
      print_step "Checking ADB Connection" ;;
      output ← run_command [ADB_PATH; "devices"] true false "ADB" ;
      refused ← (if negb (truthy output) then mret true
                 else match output with
                      | CStr s =>
                          mret (negb (PyText.contains "device" s)
                                || PyText.contains "unauthorized" s)
                      | CBool _ => raise TypeError
                      end) ;
      if (refused : bool) then
        logging ERROR "
ERROR: Device not connected or unauthorized." ;;
        logging ERROR "Ensure that:" ;;
        logging ERROR
          "1. 'USB Debugging' is enabled on your phone in 'Developer Options'." ;;
        logging ERROR "2. Your phone is connected to the PC via USB." ;;
        logging ERROR
          "3. You have allowed 'Allow USB debugging' on your phone screen when prompted." ;;
        logging ERROR
          "4. ADB is installed and available in your system PATH (try 'adb devices' in command prompt)." ;;
        input "Press Enter after resolving the issue and try again..." ;;
        check_adb_connection depth'
      else
        logging INFO "ADB device connected and authorized." ;;
        mret (Some true)
  end.

End WithOracle.

(** ** What a trace shows *)

Definition commands (tr : list event) : list (list string) :=
  omap (λ e, match e with Run argv => Some argv | _ => None end) tr.

Definition transfers (tr : list event) : list string :=
  omap (λ e, match e with Get url => Some url | _ => None end) tr.

(** The package an event tries to uninstall, when it is an uninstall
    command. *)
Definition uninstall_target (e : event) : option string :=
  match e with
  | Run ["adb"; "shell"; "pm"; "uninstall"; "--user"; "0"; p] => Some p
  | _ => None
  end.

(** The packages for which an uninstall was attempted, in order. *)
Definition uninstalls (tr : list event) : list string :=
  omap uninstall_target tr.

Definition is_log (e : event) : bool :=
  match e with Log _ _ => true | _ => false end.

(** The bytes a sequence of chunks amounts to. *)
Definition received (chunks : list string) : string :=
  foldr String.append EmptyString chunks.


(** [w'] continues [w] with events that all satisfy [φ]. *)
Definition extends (φ : event → Prop) (w w' : world) : Prop :=
  ∃ d, trace w' = trace w ++ d ∧ Forall φ d.

(** Log records, and the events listed in [allowed]. *)
Definition only (allowed : list event) (e : event) : Prop :=
  is_log e = true ∨ e ∈ allowed.

(** Whatever the start and the outcome, [m] only adds events in [φ]. *)
Definition footprint {A} (φ : event → Prop) (m : M A) : Prop :=
  ∀ w, extends φ w (m w).2.

(** [m] never ends the process: it returns or raises an [Exception]. *)
Definition no_exit {A} (m : M A) : Prop :=
  ∀ w e, (m w).1 = Raise e → is_Exception e = true.

(** [m] returns normally from every world. *)
Definition returns {A} (m : M A) : Prop :=
  ∀ w, ∃ a, (m w).1 = Ok a.

(** Every value [m] can return satisfies [P]. *)
Definition post {A} (m : M A) (P : A → Prop) : Prop :=
  ∀ w a, (m w).1 = Ok a → P a.

(** The tool binaries are on the execution path throughout. *)
Definition binaries_present (O : oracle) : Prop :=
  ∀ h argv, subprocess_run O h argv ≠ FileNotFoundError.

(** The [aapt] executable is not on the execution path. *)
Definition aapt_missing (O : oracle) : Prop :=
  ∀ h args, subprocess_run O h (AAPT_PATH :: args) = FileNotFoundError.

(** [set(l)] iterates once over each distinct element of [l]. *)
Definition set_order_ok (O : oracle) : Prop :=
  ∀ l, NoDup (set_order O l) ∧ ∀ x, x ∈ set_order O l ↔ x ∈ l.

(** The external events of installing the asset [apk] as an application. *)
Definition component_events (apk : string) : list event :=
  let path := path_join TEMP_DIR apk in
  let remote := path_join "/data/local/tmp/" (basename path) in
  [ Get (BASE_APK_RELEASE_URL +:+ apk);
    Run [AAPT_PATH; "dump"; "badging"; path];
    Run [ADB_PATH; "push"; path; remote];
    Run [ADB_PATH; "shell"; "pm"; "install"; "-r"; remote] ].

(** The number of times the user was prompted. *)
Definition prompts (tr : list event) : nat :=
  length (omap (λ e, match e with Input p => Some p | _ => None end) tr).

(** [adb devices] ended normally and its output names a device and no
    unauthorized one. *)
Definition device_accepted (out : proc_outcome) : bool :=
  match out with
  | Completed stdout _ =>
      PyText.contains "device" (PyText.strip stdout)
      && negb (PyText.contains "unauthorized" (PyText.strip stdout))
  | _ => false
  end.

(** The sub-process ended, normally or not, without succeeding as
    [device_accepted] asks. *)
Definition device_refused (out : proc_outcome) : bool :=
  match out with
  | FileNotFoundError => false
  | _ => negb (device_accepted out)
  end.

(** Every entry of the file system [m] is still in [m'], unchanged. *)
Definition keeps (m m' : gmap string node) : Prop :=
  ∀ p n, m !! p = Some n → m' !! p = Some n.

(** [m] never removes or alters an entry of the file system. *)
Definition keeps_files {A} (m : M A) : Prop :=
  ∀ w, keeps (fs w) (fs (m w).2).

(** [m] changes neither the file system nor the capability flag. *)
Definition keeps_state {A} (m : M A) : Prop :=
  ∀ w, fs (m w).2 = fs w ∧ aapt_available (m w).2 = aapt_available w.

(** The commands that installing a launcher of package [name] from the
    asset [apk] may issue. *)
Definition launcher_identify (apk : string) : list string :=
  [AAPT_PATH; "dump"; "badging"; path_join TEMP_DIR apk].
Definition launcher_query (name : string) : list string :=
  [ADB_PATH; "shell"; "pm"; "path"; name].
Definition launcher_push (apk : string) : list string :=
  [ADB_PATH; "push"; path_join TEMP_DIR apk;
   "/data/local/tmp/" +:+ basename (path_join TEMP_DIR apk)].
Definition launcher_install (apk : string) : list string :=
  [ADB_PATH; "shell"; "pm"; "install"; "-r";
   "/data/local/tmp/" +:+ basename (path_join TEMP_DIR apk)].
Definition launcher_set_home (name : string) : list string :=
  [ADB_PATH; "shell"; "cmd"; "package"; "set-home-activity"; name].

(** ** Frames and outcomes used by the properties *)

(** [w'] continues [w] with the commands [d] and nothing else: same file
    system, same capability flag, no transfer, no question. *)
Definition quiet_step (w w' : world) (d : list (list string)) : Prop :=
  fs w' = fs w ∧ aapt_available w' = aapt_available w
  ∧ commands (trace w') = commands (trace w) ++ d
  ∧ transfers (trace w') = transfers (trace w)
  ∧ prompts (trace w') = prompts (trace w).

(** [w'] continues [w] with the commands [d] and [n] questions, and
    without any transfer; the capability flag is the same. *)
Definition device_step (w w' : world) (d : list (list string)) (n : nat)
  : Prop :=
  aapt_available w' = aapt_available w
  ∧ commands (trace w') = commands (trace w) ++ d
  ∧ transfers (trace w') = transfers (trace w)
  ∧ prompts (trace w') = (prompts (trace w) + n)%nat.

(** A package name that [aapt] can print between quotes. *)
Definition clean_name (pkg : string) : Prop :=
  Forall (λ c, c ≠ "'"%char ∧ c ≠ "="%char) (String.list_ascii_of_string pkg).

(** The line does not carry the [package: name=] marker. *)
Definition no_package_marker (line : string) : Prop :=
  PyText.contains "package: name=" line = false.

(** The command ended with exit status zero. *)
Definition accepted (out : proc_outcome) : bool :=
  match out with Completed _ _ => true | _ => false end.

(** [pm path] ended without naming an installed package. *)
Definition launcher_absent (out : proc_outcome) : bool :=
  match out with
  | Completed stdout _ =>
      negb (PyText.contains "package:" (PyText.strip stdout))
  | CalledProcessError _ _ _ => true
  | FileNotFoundError => false
  end.

(** [pm path] named an installed package. *)
Definition launcher_found (out : proc_outcome) : bool :=
  match out with
  | Completed stdout _ => PyText.contains "package:" (PyText.strip stdout)
  | _ => false
  end.

(** The request gave no complete body. *)
Definition download_failed (out : http_outcome) : bool :=
  match out with
  | Body _ None => false
  | _ => true
  end.

(** The question [install_liteageos_components] asks about a launcher
    that is already on the device. *)
Definition launcher_prompt : string :=
  "It is already installed. Do you want to set it as the default launcher (y/n)? ".

(** An event of an installation run: never an uninstall command, and the
    only question is the one about a launcher already installed. *)
Definition install_event (e : event) : Prop :=
  match e with
  | Input p => p = launcher_prompt
  | _ => uninstall_target e = None
  end.

(** An event of an uninstallation run: the confirmation question, the
    transfer of a component, the identification of a component, or an
    uninstall command. *)
Definition wipe_event (e : event) : Prop :=
  match e with
  | Log _ _ => True
  | Input p => p = wipe_prompt
  | Get url =>
      ∃ apk, apk ∈ LINEAGEOS_COMPONENTS.*1 ∧ url = BASE_APK_RELEASE_URL +:+ apk
  | Run argv =>
      (∃ apk, apk ∈ LINEAGEOS_COMPONENTS.*1
              ∧ argv = [AAPT_PATH; "dump"; "badging"; path_join TEMP_DIR apk])
      ∨ (∃ package, argv = uninstall_command package)
  end.

(** Anything but a transfer. *)
Definition no_transfer (e : event) : Prop :=
  match e with Get _ => False | _ => True end.

(** The test the application loop makes on a component under the flag
    [config]: not a launcher, and [install_app] is [y]. *)
Definition selects (config : string) (item : string * (string * bool))
  : bool :=
  negb (bool_decide (item.1 ∈ LAUNCHERS.*1))
  && bool_decide (install_app_of item.2.2 config = "y").

(** The components the application loop installs under the flag
    [config], in the order of [LINEAGEOS_COMPONENTS]. *)
Definition selected (config : string) : list string :=
  (List.filter (selects config) LINEAGEOS_COMPONENTS).*1.

Definition asset_url (apk : string) : string := BASE_APK_RELEASE_URL +:+ apk.

(** The cache paths of the components [l] are pairwise distinct, differ
    from the cache directory and are all absent from the file system [m]. *)
Definition uncached (l : list (string * (string * bool)))
    (m : gmap string node) : Prop :=
  NoDup (map (λ item, path_join TEMP_DIR item.1) l)
  ∧ Forall (λ item, path_join TEMP_DIR item.1 ≠ TEMP_DIR
                    ∧ m !! path_join TEMP_DIR item.1 = None) l.



End Installer.

(** ** Sample worlds and oracles, to run the model on *)

Module Fixtures.
Import Installer.

(** Every tool works, [aapt] reports [com.example.<asset>], downloads
    succeed in two chunks, the user answers [y]. *)
Definition friendly : oracle := Oracle
  (λ _ argv,
     match argv with
     | "aapt" :: "dump" :: "badging" :: p :: _ =>
         Completed ("package: name='com.example." +:+ basename p
                    +:+ "' versionCode='1'") EmptyString
     | _ => Completed "Success" EmptyString
     end)
  (λ _ _, Body ["PK"; "data"] None)
  (λ _ _, "y")
  remove_dups.

(** Two assets carry the same package identity as fixed entries of the
    uninstall list; every uninstall fails. *)
Definition clashing : oracle := Oracle
  (λ _ argv,
     match argv with
     | ["aapt"; "dump"; "badging"; "apks/Calender.apk"] =>
         Completed "package: name='org.lineageos.etar'" EmptyString
     | ["aapt"; "dump"; "badging"; "apks/Music.apk"] =>
         Completed "package: name='app.lawnchair.nightly'" EmptyString
     | "aapt" :: _ => Completed "no badging" EmptyString
     | "adb" :: "shell" :: "pm" :: "uninstall" :: _ =>
         CalledProcessError "returned non-zero exit status 1"
           EmptyString EmptyString
     | _ => Completed "Success" EmptyString
     end)
  (λ _ _, Body ["PK"] None)
  (λ _ _, "Y")
  remove_dups.

(** The connection breaks after the first chunk of every download. *)
Definition flaky : oracle := Oracle
  (λ _ _, Completed "Success" EmptyString)
  (λ _ _, Body ["PK"] (Some "Connection broken: IncompleteRead"))
  (λ _ _, "n")
  remove_dups.

(** The server refuses every request. *)
Definition offline : oracle := Oracle
  (λ _ _, Completed "Success" EmptyString)
  (λ _ _, RequestFailed "Max retries exceeded")
  (λ _ _, "n")
  remove_dups.

(** [adb] is installed, [aapt] is not. *)
Definition without_aapt : oracle := Oracle
  (λ _ argv,
     match argv with
     | "aapt" :: _ => FileNotFoundError
     | _ => Completed "Success" EmptyString
     end)
  (λ _ _, Body ["PK"; "data"] None)
  (λ _ _, "y")
  remove_dups.

(** Memory-info blobs. *)
Definition meminfo_sample : string := "Cached: 5 kB
MemTotal:    3858000 kB
SwapTotal: 0 kB".

Definition meminfo_unknown_first : string := "MemFree: 1 kB
MemTotal: unknown kB
MemTotal: 2048000 kB".

(** A fresh start: nothing cached, nothing logged. *)
Definition fresh (aapt : bool) : world := World ∅ aapt [].


Definition music_url : string := BASE_APK_RELEASE_URL +:+ "Music.apk".

(** A download whose connection breaks, and a second attempt over a
    working connection. *)
Definition broken_download : result (option string) * world :=
  download_file flaky music_url "Music.apk" "apks" (fresh true).

Definition retry_after_broken : result (option string) * world :=
  download_file friendly music_url "Music.apk" "apks" broken_download.2.

(** The device is unauthorized until the user has been prompted twice. *)
Definition patient : oracle := Oracle
  (λ h argv,
     match argv with
     | ["adb"; "devices"] =>
         if (2 <=? prompts h)%nat
         then Completed "List of devices attached
0123456789ABCDEF	device" EmptyString
         else Completed "List of devices attached
0123456789ABCDEF	unauthorized" EmptyString
     | _ => Completed "Success" EmptyString
     end)
  (λ _ _, Body ["PK"] None)
  (λ _ _, EmptyString)
  remove_dups.

(** No device is attached: [adb devices] prints its header only. *)
Definition unplugged : oracle := Oracle
  (λ _ _, Completed "List of devices attached
" EmptyString)
  (λ _ _, Body ["PK"] None)
  (λ _ _, EmptyString)
  remove_dups.

(** Every command fails and every download is refused. *)
Definition hostile : oracle := Oracle
  (λ _ _, CalledProcessError "returned non-zero exit status 1"
            EmptyString EmptyString)
  (λ _ _, BadStatus "404 Client Error")
  (λ _ _, "y")
  remove_dups.

(** [aapt] prints the package name without quotes. *)
Definition terse : oracle := Oracle
  (λ _ argv,
     if bool_decide (take 2 argv = ["aapt"; "dump"])
     then Completed "package: name=com.example.app versionCode=1" EmptyString
     else Completed "Success" EmptyString)
  (λ _ _, Body ["PK"] None)
  (λ _ _, "n")
  remove_dups.

(** As [friendly], but the launcher is already on the device and the user
    answers [Y]. *)
Definition settled : oracle := Oracle
  (λ h argv,
     if bool_decide (take 4 argv = ["adb"; "shell"; "pm"; "path"])
     then Completed "package:/data/app/launcher/base.apk" EmptyString
     else subprocess_run friendly h argv)
  (requests_get friendly)
  (λ _ _, "Y")
  remove_dups.

(** Every asset is in the cache, and the capability flag is set. *)
Definition stocked : world :=
  World
    (foldr (λ name m, <[path_join TEMP_DIR name := File "PK"]> m)
       (<[TEMP_DIR := Dir]> ∅)
       (LINEAGEOS_COMPONENTS.*1 ++ LAUNCHERS.*1 ++ [WALLPAPER_FILENAME]))
    true [].

End Fixtures.

(** * Properties *)

Module PyTextFacts.
Import PyText.

(** *** The string operations on sample inputs *)

Example splitlines_sample :
  splitlines "a

b
" = ["a"; EmptyString; "b"]
  ∧ splitlines EmptyString = [].
Proof. by vm_compute. Qed.

Example split_sample :
  split "  MemTotal:    3858000 kB " = ["MemTotal:"; "3858000"; "kB"].
Proof. by vm_compute. Qed.

Example strip_lower_sample :
  strip "  ab c  " = "ab c" ∧ lower "YeS" = "yes".
Proof. by vm_compute. Qed.

Example int_sample :
  int "1_000" = Some 1000 ∧ int "+0_7" = Some 7 ∧ int "-12" = Some (-12)
  ∧ int " 12 " = Some 12 ∧ int "1__0" = None ∧ int "_1" = None
  ∧ int "8.1.0" = None ∧ int EmptyString = None ∧ int "-" = None.
Proof. by vm_compute. Qed.

(** The superscript two is a digit for [isdigit] and no number for [int]. *)
Example isdigit_superscript :
  isdigit (String (ascii_of_N 178) EmptyString) = true
  ∧ int (String (ascii_of_N 178) EmptyString) = None.
Proof. by vm_compute. Qed.

Example cut_sample :
  cut "name='" "package: name='com.x.y' versionCode='1'"
  = Some ("package: ", "com.x.y' versionCode='1'")
  ∧ cut "name='" "package: name=com.x.y" = None.
Proof. by vm_compute. Qed.

Lemma append_nil_r s : s +:+ EmptyString = s.
Proof. induction s as [|c r IH]; [done|]. unfold String.app in *. simpl. by rewrite IH. Qed.

Lemma append_assoc s1 s2 s3 : (s1 +:+ s2) +:+ s3 = s1 +:+ (s2 +:+ s3).
Proof. induction s1 as [|c r IH]; [done|]. unfold String.app in *. simpl. by rewrite IH. Qed.

Lemma truthy_CStr s : truthy (CStr s) = true ↔ s ≠ EmptyString.
Proof. destruct s; simpl; split; congruence. Qed.

Lemma truthy_CStr_false s : truthy (CStr s) = false ↔ s = EmptyString.
Proof. destruct s; simpl; split; congruence. Qed.

Lemma lower_char_y c : PyText.lower_char c = "y"%char → c = "y"%char ∨ c = "Y"%char.
Proof.
  destruct c as [[] [] [] [] [] [] [] []]; vm_compute; intros H;
    first [ discriminate H | by left | by right ].
Qed.

Lemma lower_y s : PyText.lower s = "y" ↔ s = "y" ∨ s = "Y".
Proof.
  split.
  - destruct s as [|c [|c2 r]]; simpl; try done.
    intros [= H]. by destruct (lower_char_y c H) as [-> | ->]; [left|right].
  - by intros [-> | ->].
Qed.

(** *** [str] and [int] are inverse on integers *)

Lemma digit_val_pretty_N_char d :
  (d < 10)%N → digit_val (pretty_N_char d) = Some d.
Proof.
  intros H. destruct d as [|p]; [reflexivity|].
  do 4 (destruct p as [p|p|]; try reflexivity; try lia).
Qed.

Lemma int_digits_pretty_N_go x :
  (0 < x)%N →
  ∃ n : N, ∀ acc prev s,
    int_digits acc prev (pretty_N_go x s) = int_digits (acc * 10 ^ n + x)%N true s.
Proof.
  induction (N.lt_wf_0 x) as [x _ IH]. intros Hx.
  assert (Hd : (x `mod` 10 < 10)%N) by (apply N.mod_lt; lia).
  destruct (decide (x `div` 10 = 0)%N) as [E0|Hq].
  - exists 1%N. intros acc prev s. rewrite pretty_N_go_step by done.
    rewrite E0, pretty_N_go_0. simpl.
    rewrite (digit_val_pretty_N_char _ Hd). f_equal.
    rewrite N.pow_1_r. pose proof (N.Div0.div_mod x 10). lia.
  - destruct (IH (x `div` 10)%N) as [n Hn].
    + apply N.div_lt; lia.
    + by apply N.neq_0_lt_0.
    + exists (n + 1)%N. intros acc prev s. rewrite pretty_N_go_step by done.
      rewrite Hn. simpl. rewrite (digit_val_pretty_N_char _ Hd). f_equal.
      rewrite N.pow_add_r, N.pow_1_r. pose proof (N.Div0.div_mod x 10). lia.
Qed.

Lemma int_lstrip_id c s : is_int_space c = false → int_lstrip (String c s) = String c s.
Proof. intros H. simpl. by rewrite H. Qed.

Lemma int_rstrip_id s :
  Forall (λ c, is_int_space c = false) (String.list_ascii_of_string s) → int_rstrip s = s.
Proof.
  induction s as [|c r IH]; simpl; [done|].
  intros [Hc Hr]%Forall_cons. rewrite (IH Hr), Hc. by destruct r.
Qed.

Lemma pretty_N_char_is_digit d : is_Some (digit_val (pretty_N_char d)).
Proof.
  destruct d as [|p]; [by eexists|].
  do 4 (destruct p as [p|p|]; try by eexists).
Qed.

Lemma pretty_N_go_digits x s :
  Forall (λ c, is_Some (digit_val c)) (String.list_ascii_of_string s) →
  Forall (λ c, is_Some (digit_val c)) (String.list_ascii_of_string (pretty_N_go x s)).
Proof.
  revert s. induction (N.lt_wf_0 x) as [x _ IH]. intros s Hs.
  destruct (decide (x = 0)%N) as [->|Hx]; [by rewrite pretty_N_go_0|].
  rewrite pretty_N_go_step by lia. apply IH.
  - apply N.div_lt; lia.
  - simpl. constructor; [apply pretty_N_char_is_digit | done].
Qed.

Lemma digit_not_space c :
  is_Some (digit_val c) →
  is_int_space c = false ∧ (code c =? 43)%N = false ∧ (code c =? 45)%N = false.
Proof.
  unfold digit_val, is_int_space. intros [d Hd].
  destruct ((48 <=? code c)%N && (code c <=? 57)%N) eqn:E; [|done].
  apply andb_true_iff in E as [E1%N.leb_le E2%N.leb_le].
  repeat split.
  - repeat (apply orb_false_iff; split); try apply andb_false_iff;
      try (apply N.eqb_neq; lia). right. apply N.leb_gt. lia.
  - apply N.eqb_neq; lia.
  - apply N.eqb_neq; lia.
Qed.

Lemma int_pretty_pos p : PyText.int (pretty (N.pos p)) = Some (Z.pos p).
Proof.
  unfold pretty, pretty_N. rewrite decide_False by done.
  pose proof (pretty_N_go_digits (N.pos p) EmptyString (Forall_nil_2 _)) as HD.
  destruct (int_digits_pretty_N_go (N.pos p)) as [n Hn]; [lia|].
  specialize (Hn 0%N false EmptyString). simpl in Hn.
  destruct (pretty_N_go (N.pos p) EmptyString) as [|c r] eqn:E; [done|].
  pose proof HD as HD2. simpl in HD2. apply Forall_cons in HD2 as [Hc Hr].
  destruct (digit_not_space c Hc) as (Hs & H43 & H45).
  unfold PyText.int. rewrite int_lstrip_id by done.
  rewrite int_rstrip_id.
  2:{ eapply Forall_impl; [exact HD|]. intros ? ?. by apply digit_not_space. }
  rewrite H43, H45. rewrite Hn. done.
Qed.

Lemma int_str z : PyText.int (PyText.str z) = Some z.
Proof.
  destruct z as [|p|p]; [reflexivity | apply int_pretty_pos |].
  unfold PyText.str, pretty, pretty_Z.
  change (pretty p) with (pretty (N.pos p)).
  unfold pretty, pretty_N. rewrite decide_False by done.
  pose proof (pretty_N_go_digits (N.pos p) EmptyString (Forall_nil_2 _)) as HD.
  destruct (int_digits_pretty_N_go (N.pos p)) as [n Hn]; [lia|].
  specialize (Hn 0%N false EmptyString). simpl in Hn.
  unfold PyText.int.
  change ("-" +:+ pretty_N_go (N.pos p) EmptyString)
    with (String "-"%char (pretty_N_go (N.pos p) EmptyString)).
  rewrite int_lstrip_id by done.
  rewrite int_rstrip_id.
  2:{ constructor; [done|]. eapply Forall_impl; [exact HD|].
      intros ? ?. by apply digit_not_space. }
  change ((code "-" =? 43)%N) with false. change ((code "-" =? 45)%N) with true.
  cbv iota. rewrite Hn. done.
Qed.

End PyTextFacts.

Module ProfileFacts.
Import PyText Profile Fixtures PyTextFacts.

(** A memory figure too large for a [float] makes the division raise. *)
Example mem_gb_overflow : mem_gb_of_kb (10 ^ 400) = Raise OverflowError.
Proof. by vm_compute. Qed.

(** An API level that [isdigit] accepts and [int] rejects raises. *)
Example sdk_superscript_raises :
  get_android_os_version (CStr "8.1.0")
    (CStr (String (ascii_of_N 178) EmptyString))
  = Raise ValueError.
Proof. by vm_compute. Qed.

Lemma lt_100_spec r : lt_100 r = true ↔ (r < 100)%Q.
Proof.
  unfold lt_100. destruct (Qlt_le_dec r 100) as [H|H]; split; try done.
  intros H'. exfalso. by apply (Qlt_not_le _ _ H').
Qed.

(** C1. The version predictor is a total function of the OS version, the
    arm64 flag and the RAM: its result is the decimal string of
    [osVersion + 10] (the literal [???] when the version is unresolved),
    then [+] exactly when arm64 is supported, then [S] exactly when the RAM
    is resolved and strictly below 100 GB.  The decimal string reads back
    as [osVersion + 10].  The three sample predictions are [23+S], [???]
    and [18+]. *)
Theorem C1_version_predictor :
  (∀ (os : option Z) (arm64 : bool) (ram : option Q),
     ∃ plus mem,
       predict os arm64 ram
       = match os with Some v => PyText.str (v + 10) | None => "???" end
         +:+ plus +:+ mem
       ∧ (arm64 = true ∧ plus = "+" ∨ arm64 = false ∧ plus = EmptyString)
       ∧ ((∃ r, ram = Some r ∧ (r < 100)%Q) ∧ mem = "S"
          ∨ (¬ ∃ r, ram = Some r ∧ (r < 100)%Q) ∧ mem = EmptyString))
  ∧ (∀ v : Z, PyText.int (PyText.str (v + 10)) = Some (v + 10))
  ∧ predict (Some 13) true (Some 50%Q) = "23+S"
  ∧ predict None false (Some 200%Q) = "???"
  ∧ predict (Some 8) true None = "18+".
Proof.
  split; [|split; [intros; apply int_str | by vm_compute]].
  intros os arm64 ram.
  exists (if arm64 then "+" else EmptyString),
    (match ram with
     | Some r => if lt_100 r then "S" else EmptyString
     | None => EmptyString
     end).
  split; [|split].
  - unfold predict, calculate_liteageos_version.
    change (EmptyString +:+ ?s) with s.
    destruct os, arm64, ram as [r|]; try destruct (lt_100 r);
      by rewrite ?append_nil_r, ?append_assoc.
  - destruct arm64; auto.
  - destruct ram as [r|].
    + destruct (lt_100 r) eqn:E.
      * left. split; [|done]. exists r. split; [done|]. by apply lt_100_spec.
      * right. split; [|done]. intros (r' & [= <-] & H).
        apply lt_100_spec in H. congruence.
    + right. split; [|done]. by intros (r' & ? & _).
Qed.

(** C4, counterexample.  With no release version and the API level 35, a
    level above every one the table lists, the result is 14 and not the
    raw level 35. *)
Lemma C4_counterexample :
  get_android_os_version (CStr EmptyString) (CStr "35") = Ok (Some 14)
  ∧ PyText.int (PyText.strip "35") = Some 35
  ∧ get_android_os_version (CStr EmptyString) (CStr "35") ≠ Ok (Some 35).
Proof. by vm_compute. Qed.

(** C4, amended.  A release property that parses as an integer is the
    result.  When the release property fails, the API level decides: a
    level of 34 or more gives 14, the levels 26 to 33 give their table
    entry, a level below 26 gives the level itself, and a missing, empty or
    non-digit API level gives unresolved.  Unresolved is returned only when
    both properties fail. *)
Theorem C4_os_version (release sdk : cmd_val) :
  (∀ s v, release = CStr s → s ≠ EmptyString →
          PyText.int (PyText.strip s) = Some v →
          get_android_os_version release sdk = Ok (Some v))
  ∧ (release_fails release →
     (∀ s api, sdk = CStr s → s ≠ EmptyString →
               PyText.isdigit (PyText.strip s) = true →
               PyText.int (PyText.strip s) = Some api →
               ∃ v, get_android_os_version release sdk = Ok (Some v)
                    ∧ (34 ≤ api → v = 14)
                    ∧ (api = 33 → v = 13) ∧ (api = 32 → v = 12)
                    ∧ (api = 31 → v = 12) ∧ (api = 30 → v = 11)
                    ∧ (api = 29 → v = 10) ∧ (api = 28 → v = 9)
                    ∧ (api = 27 → v = 8) ∧ (api = 26 → v = 8)
                    ∧ (api < 26 → v = api))
     ∧ (sdk_fails sdk → get_android_os_version release sdk = Ok None))
  ∧ (get_android_os_version release sdk = Ok None →
     release_fails release ∧ sdk_fails sdk).
Proof.
  assert (Hfb : release_fails release →
                get_android_os_version release sdk = os_version_from_sdk sdk).
  { intros [-> | [-> | (s & -> & E)]]; try done.
    unfold get_android_os_version. rewrite E. by destruct (truthy _). }
  split; [|split].
  - intros s v -> Hs E. unfold get_android_os_version.
    apply truthy_CStr in Hs. by rewrite Hs, E.
  - intros Hrel. rewrite (Hfb Hrel). split.
    + intros s api -> Hs Hd E. exists (version_of_api_level api).
      unfold os_version_from_sdk. apply truthy_CStr in Hs.
      rewrite Hs, Hd, E. split; [done|].
      unfold version_of_api_level.
      repeat split; intros H;
        repeat (case_match; try lia).
    + intros [-> | (s & -> & [-> | Hd])]; try done.
      unfold os_version_from_sdk. rewrite Hd. by rewrite andb_false_r.
  - intros H.
    assert (Hrel : release_fails release).
    { unfold get_android_os_version in H. destruct release as [s|[]]; try done.
      - destruct (truthy (CStr s)) eqn:T.
        + destruct (PyText.int (PyText.strip s)) eqn:E; [done|].
          right; right. by exists s.
        + right; left. f_equal. by apply truthy_CStr_false.
      - by left. }
    split; [done|]. rewrite (Hfb Hrel) in H.
    unfold os_version_from_sdk in H. destruct sdk as [s|[]]; try done.
    + right. exists s. split; [done|].
      destruct (truthy (CStr s)) eqn:T; simpl in H.
      * destruct (PyText.isdigit (PyText.strip s)); [|by right].
        by destruct (PyText.int (PyText.strip s)).
      * left. by apply truthy_CStr_false.
    + by left.
Qed.

(** C4, witness: release [13]; release [8.1.0] with API level 36; release
    [8.1.0] with no usable API level. *)
Lemma C4_os_version_witness :
  get_android_os_version (CStr "13") (CBool false) = Ok (Some 13)
  ∧ (∃ v, get_android_os_version (CStr "8.1.0") (CStr "36") = Ok (Some v)
          ∧ v = 14)
  ∧ get_android_os_version (CStr "8.1.0") (CStr "n/a") = Ok None.
Proof.
  split; [|split].
  - apply (proj1 (C4_os_version (CStr "13") (CBool false)) "13" 13);
      [reflexivity | discriminate | reflexivity].
  - assert (Hrel : release_fails (CStr "8.1.0")).
    { right; right. exists "8.1.0". split; reflexivity. }
    destruct (proj1 (proj1 (proj2 (C4_os_version (CStr "8.1.0") (CStr "36")))
                       Hrel) "36" 36 eq_refl ltac:(discriminate) eq_refl eq_refl)
      as (v & E & H34 & _).
    exists v. split; [exact E | apply H34; lia].
  - apply (proj2 (proj1 (proj2 (C4_os_version (CStr "8.1.0") (CStr "n/a")))
                    ltac:(right; right; exists "8.1.0"; split; reflexivity))).
    right. exists "n/a". split; [reflexivity | right; reflexivity].
Defined.

Lemma round_half_even_near n d :
  0 < d → 2 * Z.abs (round_half_even n d * d - n) ≤ d.
Proof.
  intros Hd. unfold round_half_even.
  pose proof (Z.div_mod n d ltac:(lia)) as E.
  pose proof (Z.mod_pos_bound n d Hd) as B.
  destruct (Z.compare_spec (2 * (n `mod` d)) d) as [H|H|H];
    [destruct (Z.even _)|..]; nia.
Qed.

Lemma mem_gb_of_kb_near k :
  Z.abs k < 2 ^ 53 →
  ∃ h, mem_gb_of_kb k = Ok (h # 100)
       ∧ 2 * Z.abs (h * 2 ^ 20 - 100 * k) ≤ 2 ^ 20.
Proof.
  intros Hk. unfold mem_gb_of_kb, rn53.
  apply Z.ltb_lt in Hk as Hk'. rewrite Hk'.
  assert ((2 ^ 1044 <=? Z.abs k) = false) as ->.
  { apply Z.leb_gt. eapply Z.lt_trans; [exact Hk|]. by vm_compute. }
  eexists. split; [done|]. apply round_half_even_near. by vm_compute.
Qed.

Lemma scan_meminfo_skip before lines :
  Forall no_marker before → scan_meminfo (before ++ lines) = scan_meminfo lines.
Proof.
  induction 1 as [|l before Hl _ IH]; [done|]. simpl. by rewrite Hl.
Qed.

Lemma splitlines_nonempty s : PyText.splitlines s ≠ [] → truthy (CStr s) = true.
Proof. by destruct s. Qed.

(** C10. RAM resolution commits to the first line that contains
    [MemTotal:].  If that line has no second token, or one that is not an
    integer, the result is unresolved whatever the later lines hold; if the
    token is the integer [k] (below 2^53), the result is [k / 1024^2]
    rounded to the nearest hundredth, which is 3.68 for 3858000.  A blob
    with no such line is unresolved, and nothing is raised. *)
Theorem C10_ram_resolution :
  (∀ s before line rest,
     PyText.splitlines s = before ++ line :: rest →
     Forall no_marker before → PyText.contains "MemTotal:" line = true →
     (PyText.split line !! 1%nat = None → get_device_ram_gb (CStr s) = Ok None)
     ∧ (∀ tok, PyText.split line !! 1%nat = Some tok →
               PyText.int tok = None → get_device_ram_gb (CStr s) = Ok None)
     ∧ (∀ tok k, PyText.split line !! 1%nat = Some tok →
                 PyText.int tok = Some k → Z.abs k < 2 ^ 53 →
                 ∃ h, get_device_ram_gb (CStr s) = Ok (Some (h # 100))
                      ∧ 2 * Z.abs (h * 2 ^ 20 - 100 * k) ≤ 2 ^ 20
                      ∧ (k = 3858000 → h = 368)))
  ∧ (∀ s, Forall no_marker (PyText.splitlines s) →
          get_device_ram_gb (CStr s) = Ok None)
  ∧ get_device_ram_gb (CBool false) = Ok None
  ∧ get_device_ram_gb (CStr "MemFree: 100 kB
MemTotal:    3858000 kB
MemAvailable: 2000000 kB") = Ok (Some (368 # 100))
  ∧ get_device_ram_gb (CStr "MemTotal: n/a
MemTotal:    3858000 kB") = Ok None
  ∧ get_device_ram_gb (CStr "MemTotal:
MemTotal:    3858000 kB") = Ok None.
Proof.
  split; [|split; [|by vm_compute]].
  - intros s before line rest Hs Hb Hl.
    assert (E : get_device_ram_gb (CStr s) = scan_meminfo (line :: rest)).
    { unfold get_device_ram_gb. rewrite splitlines_nonempty.
      - by rewrite Hs, scan_meminfo_skip.
      - rewrite Hs. by destruct before. }
    rewrite E. simpl. rewrite Hl. split; [|split].
    + by intros ->.
    + by intros tok -> ->.
    + intros tok k -> -> Hk.
      destruct (mem_gb_of_kb_near k Hk) as (h & Eh & Hh).
      exists h. rewrite Eh. split; [done|]. split; [done|].
      intros ->. by vm_compute in Eh; injection Eh.
  - intros s Hs. unfold get_device_ram_gb. destruct (truthy _); [|done].
    rewrite <-(app_nil_r (PyText.splitlines s)). by rewrite scan_meminfo_skip.
Qed.

(** C10, witness: a blob whose first [MemTotal:] line is not numeric while
    the second is, and a blob with the sample line. *)
Lemma C10_ram_resolution_witness :
  get_device_ram_gb (CStr meminfo_unknown_first) = Ok None
  ∧ ∃ h, get_device_ram_gb (CStr meminfo_sample) = Ok (Some (h # 100))
         ∧ h = 368.
Proof.
  split.
  - apply (proj1 (proj2 (proj1 C10_ram_resolution meminfo_unknown_first
                           ["MemFree: 1 kB"] "MemTotal: unknown kB"
                           ["MemTotal: 2048000 kB"]
                           eq_refl ltac:(repeat constructor) eq_refl))
             "unknown"); reflexivity.
  - destruct (proj2 (proj2 (proj1 C10_ram_resolution meminfo_sample
                              ["Cached: 5 kB"] "MemTotal:    3858000 kB"
                              ["SwapTotal: 0 kB"]
                              eq_refl ltac:(repeat constructor) eq_refl))
                "3858000" 3858000 eq_refl eq_refl ltac:(reflexivity))
      as (h & E & _ & Hh).
    exists h. split; [exact E | by apply Hh].
Defined.

End ProfileFacts.

Module InstallerFacts.
Import Installer Fixtures PyTextFacts.

Section Generic.

Context {A B : Type}.

Lemma extends_refl φ w : extends φ w w.
Proof. exists []. by rewrite app_nil_r. Qed.

Lemma extends_trans φ w1 w2 w3 :
  extends φ w1 w2 → extends φ w2 w3 → extends φ w1 w3.
Proof.
  intros (d1 & E1 & F1) (d2 & E2 & F2). exists (d1 ++ d2).
  rewrite E2, E1, app_assoc. split; [done | by apply Forall_app].
Qed.

Lemma extends_weaken (φ ψ : event → Prop) w w' :
  (∀ e, φ e → ψ e) → extends φ w w' → extends ψ w w'.
Proof.
  intros H (d & E & F). exists d. split; [done|].
  eapply Forall_impl; eauto.
Qed.

Lemma footprint_weaken (φ ψ : event → Prop) (m : M A) :
  (∀ e, φ e → ψ e) → footprint φ m → footprint ψ m.
Proof. intros H F w. eapply extends_weaken; eauto. Qed.

Lemma footprint_ret φ (a : A) : footprint φ (mret a : M A).
Proof. intros w. apply extends_refl. Qed.

Lemma footprint_raise φ e : footprint φ (raise e : M A).
Proof. intros w. apply extends_refl. Qed.

Lemma footprint_bind φ (m : M A) (k : A → M B) :
  footprint φ m → (∀ a, footprint φ (k a)) → footprint φ (m ≫= k).
Proof.
  intros Hm Hk w. specialize (Hm w).
  unfold mbind, M_bind. destruct (m w) as [[a|e] w1]; simpl in *; [|done].
  eapply extends_trans; [exact Hm | apply Hk].
Qed.

(** The same, keeping what is known of the value [m] returns. *)
Lemma footprint_bind_post φ (P : A → Prop) (m : M A) (k : A → M B) :
  footprint φ m → (∀ w a, (m w).1 = Ok a → P a) →
  (∀ a, P a → footprint φ (k a)) → footprint φ (m ≫= k).
Proof.
  intros Hm HP Hk w. specialize (Hm w). specialize (HP w).
  unfold mbind, M_bind. destruct (m w) as [[a|e] w1]; simpl in *; [|done].
  eapply extends_trans; [exact Hm | apply Hk; by apply HP].
Qed.

Lemma footprint_try φ (m : M A) (h : pyexn → M A) :
  footprint φ m → (∀ e, footprint φ (h e)) →
  footprint φ (try_except_Exception m h).
Proof.
  intros Hm Hh w. specialize (Hm w). unfold try_except_Exception.
  destruct (m w) as [[a|e] w1]; simpl in *; [done|].
  destruct (is_Exception e); [|done].
  eapply extends_trans; [exact Hm | apply Hh].
Qed.

Lemma no_exit_ret (a : A) : no_exit (mret a : M A).
Proof. intros w e. discriminate. Qed.

Lemma no_exit_bind (m : M A) (k : A → M B) :
  no_exit m → (∀ a, no_exit (k a)) → no_exit (m ≫= k).
Proof.
  intros Hm Hk w e. specialize (Hm w). unfold mbind, M_bind.
  destruct (m w) as [[a|e'] w1]; simpl in *.
  - apply Hk.
  - intros [= <-]. by apply Hm.
Qed.

Lemma returns_no_exit (m : M A) : returns m → no_exit m.
Proof. intros H w e E. destruct (H w) as [a Ha]. congruence. Qed.

Lemma returns_ret (a : A) : returns (mret a : M A).
Proof. intros w. by exists a. Qed.

Lemma returns_bind (m : M A) (k : A → M B) :
  returns m → (∀ a, returns (k a)) → returns (m ≫= k).
Proof.
  intros Hm Hk w. destruct (Hm w) as [a Ha]. unfold mbind, M_bind.
  destruct (m w) as [[a'|e] w1]; simpl in *; [|done]. apply Hk.
Qed.

Lemma returns_try (m : M A) (h : pyexn → M A) :
  no_exit m → (∀ e, returns (h e)) → returns (try_except_Exception m h).
Proof.
  intros Hm Hh w. specialize (Hm w). unfold try_except_Exception.
  destruct (m w) as [[a|e] w1]; simpl in *; [by exists a|].
  rewrite (Hm e eq_refl). apply Hh.
Qed.

End Generic.

Lemma only_mono (l1 l2 : list event) e : l1 ⊆ l2 → only l1 e → only l2 e.
Proof. intros H [?|?]; [by left | right; auto]. Qed.

Lemma footprint_only {A} (l1 l2 : list event) (m : M A) :
  l1 ⊆ l2 → footprint (only l1) m → footprint (only l2) m.
Proof. intros H. apply footprint_weaken. intros e. by apply only_mono. Qed.

Lemma footprint_emit (φ : event → Prop) e : φ e → footprint φ (emit e).
Proof. intros H w. exists [e]. split; [done | by constructor]. Qed.

Lemma footprint_logging l lvl msg : footprint (only l) (logging lvl msg).
Proof. apply footprint_emit. by left. Qed.

Lemma footprint_print_step l msg : footprint (only l) (print_step msg).
Proof. apply footprint_logging. Qed.

Lemma footprint_silent {A} φ (m : M A) :
  (∀ w, trace (m w).2 = trace w) → footprint φ m.
Proof. intros H w. exists []. by rewrite H, app_nil_r. Qed.

Lemma footprint_write_chunks φ p chunks : footprint φ (write_chunks p chunks).
Proof.
  induction chunks as [|c r IH]; simpl.
  - apply footprint_ret.
  - apply footprint_bind; [by apply footprint_silent | intros _; exact IH].
Qed.

Lemma returns_logging lvl msg : returns (logging lvl msg).
Proof. intros w. by exists (). Qed.

Lemma returns_write_chunks p chunks : returns (write_chunks p chunks).
Proof.
  induction chunks as [|c r IH]; simpl.
  - apply returns_ret.
  - apply returns_bind; [intros w; by exists () | intros _; exact IH].
Qed.

Lemma returns_when b (m : M unit) : returns m → returns (when b m).
Proof. destruct b; simpl; [done | intros _; apply returns_ret]. Qed.

(** Proof steps shared by the footprint lemmas: peel one construct off the
    computation. *)
Ltac ev_mem :=
  solve [ repeat first [ apply list_elem_of_here | apply list_elem_of_further ] ].
Ltac ev_incl :=
  let e := fresh "e" in
  let He := fresh "He" in
  intros e He;
  repeat match type of He with
         | _ ∈ _ :: _ => apply elem_of_cons in He as [->|He]
         | _ ∈ [] => by apply elem_of_nil in He
         end;
  ev_mem.
Ltac fp_event := first [ by left | right; ev_mem ].

Ltac fp_step :=
  lazymatch goal with
  | |- footprint _ (mret _) => apply footprint_ret
  | |- footprint _ (raise _) => apply footprint_raise
  | |- footprint _ (_ ≫= _) => apply footprint_bind; [|intros ?]
  | |- footprint _ (try_except_Exception _ _) =>
      apply footprint_try; [|intros ?]
  | |- footprint _ (logging _ _) => apply footprint_logging
  | |- footprint _ (print_step _) => apply footprint_print_step
  | |- footprint _ (write_chunks _ _) => apply footprint_write_chunks
  | |- footprint _ (when ?b _) => destruct b; simpl
  | |- footprint _ (path_exists _) => by apply footprint_silent
  | |- footprint _ (makedirs _) => by apply footprint_silent
  | |- footprint _ (open_wb _) => by apply footprint_silent
  | |- footprint _ get_aapt_available => by apply footprint_silent
  | |- footprint _ (set_aapt_available _) => by apply footprint_silent
  | |- footprint _ (subprocess _ _) => apply footprint_emit; fp_event
  | |- footprint _ (http_get _ _) => apply footprint_emit; fp_event
  | |- footprint _ (input _ _) => apply footprint_emit; fp_event
  | |- footprint _ (if ?b then _ else _) => destruct b
  | |- footprint _ (match ?x with _ => _ end) => destruct x
  end.

Ltac fp_call lem := eapply footprint_only; [|apply lem]; ev_incl.

Section Footprints.

Variable O : oracle.

Lemma footprint_run_command command check_output suppress_error tool_name :
  footprint (only [Run command])
    (run_command O command check_output suppress_error tool_name).
Proof. unfold run_command. repeat fp_step. Qed.

Lemma footprint_scan_badging l apk_path lines :
  footprint (only l) (scan_badging apk_path lines).
Proof. induction lines as [|line rest IH]; simpl; repeat fp_step. exact IH. Qed.

Lemma footprint_get_package_name_from_apk apk_path :
  footprint (only [Run [AAPT_PATH; "dump"; "badging"; apk_path]])
    (get_package_name_from_apk O apk_path).
Proof.
  unfold get_package_name_from_apk. repeat fp_step.
  all: first [ apply footprint_run_command | apply footprint_scan_badging ].
Qed.

Lemma footprint_download_file url filename target_dir :
  footprint (only [Get url]) (download_file O url filename target_dir).
Proof. unfold download_file. repeat fp_step. Qed.

Lemma footprint_push_and_install_apk local_path :
  let remote := path_join "/data/local/tmp/" (basename local_path) in
  footprint
    (only [Run [ADB_PATH; "push"; local_path; remote];
           Run [ADB_PATH; "shell"; "pm"; "install"; "-r"; remote]])
    (push_and_install_apk O local_path).
Proof.
  intros remote. unfold push_and_install_apk. repeat fp_step.
  all: fp_call footprint_run_command.
Qed.

Lemma footprint_for_each {A} φ (l : list A) (body : A → M unit) :
  (∀ x, x ∈ l → footprint φ (body x)) → footprint φ (for_each l body).
Proof.
  induction l as [|x r IH]; intros H; simpl.
  - apply footprint_ret.
  - apply footprint_bind; [apply H; by left | intros _].
    apply IH. intros y Hy. apply H. by right.
Qed.

Lemma footprint_for_fold {A S} φ (l : list A) (s : S) (body : A → S → M S) :
  (∀ x s', x ∈ l → footprint φ (body x s')) → footprint φ (for_fold l s body).
Proof.
  revert s. induction l as [|x r IH]; intros s H; simpl.
  - apply footprint_ret.
  - apply footprint_bind; [apply H; by left | intros s'].
    apply IH. intros y s'' Hy. apply H. by right.
Qed.

Lemma footprint_collect_package apk_filename packages :
  footprint
    (only [Get (BASE_APK_RELEASE_URL +:+ apk_filename);
           Run [AAPT_PATH; "dump"; "badging"; path_join TEMP_DIR apk_filename]])
    (collect_package O apk_filename packages).
Proof.
  unfold collect_package. repeat fp_step.
  all: first [ fp_call footprint_download_file
             | fp_call footprint_get_package_name_from_apk ].
Qed.

(** [download_file] returns the cache path of the asset, or [None]. *)
Lemma download_file_value url filename target_dir w a :
  (download_file O url filename target_dir w).1 = Ok a →
  a = None ∨ a = Some (path_join target_dir filename).
Proof.
  unfold download_file, mbind, M_bind, when, mret, M_ret, path_exists,
    makedirs, logging, emit, http_get, open_wb.
  simpl. repeat case_match; simplify_eq/=; intros; simplify_eq/=; auto.
Qed.

(** Installing a component as an application only touches that
    component's asset. *)
Lemma footprint_install_component config apk description optional :
  footprint (only (component_events apk))
    (install_component O config (apk, (description, optional))).
Proof.
  unfold install_component, component_events.
  destruct (bool_decide _); [apply footprint_ret|].
  destruct (bool_decide _); [|apply footprint_logging].
  apply footprint_bind; [apply footprint_logging | intros _].
  eapply footprint_bind_post;
    [fp_call footprint_download_file | apply download_file_value |].
  intros local_path [-> | ->]; simpl; [apply footprint_logging|].
  destruct (nonempty _); [|apply footprint_logging].
  repeat fp_step.
  - fp_call footprint_get_package_name_from_apk.
  - fp_call footprint_push_and_install_apk.
Qed.

End Footprints.

Lemma no_exit_raise {A} e : is_Exception e = true → no_exit (raise e : M A).
Proof. intros H w e' [= <-]. exact H. Qed.

Lemma quoted_name_raises line e : quoted_name line = Raise e → e = IndexError.
Proof. unfold quoted_name. repeat case_match; congruence. Qed.

Lemma no_exit_scan_badging apk_path lines : no_exit (scan_badging apk_path lines).
Proof.
  induction lines as [|line rest IH]; simpl.
  - apply no_exit_ret.
  - destruct (PyText.contains _ _); [|exact IH].
    destruct (quoted_name line) as [name|e] eqn:E.
    + apply returns_no_exit, returns_bind;
        [apply returns_logging | intros _; apply returns_ret].
    + apply quoted_name_raises in E as ->. by apply no_exit_raise.
Qed.

Ltac rt_step :=
  lazymatch goal with
  | |- returns (mret _) => apply returns_ret
  | |- returns (_ ≫= _) => apply returns_bind; [|intros ?]
  | |- returns (logging _ _) => apply returns_logging
  | |- returns (print_step _) => apply returns_logging
  | |- returns (write_chunks _ _) => apply returns_write_chunks
  | |- returns (when _ _) => apply returns_when
  | |- returns (path_exists _) => by (intros ?; eexists)
  | |- returns (makedirs _) => by (intros ?; eexists)
  | |- returns (open_wb _) => by (intros ?; eexists)
  | |- returns get_aapt_available => by (intros ?; eexists)
  | |- returns (set_aapt_available _) => by (intros ?; eexists)
  | |- returns (http_get _ _) => by (intros ?; eexists)
  | |- returns (input _ _) => by (intros ?; eexists)
  | |- returns (if ?b then _ else _) => destruct b
  | |- returns (match ?x with _ => _ end) => destruct x
  end.

Section Returns.

Variable O : oracle.
Hypothesis present : binaries_present O.

Lemma returns_subprocess_bind {B} argv (k : proc_outcome → M B) :
  (∀ out, out ≠ FileNotFoundError → returns (k out)) →
  returns (subprocess O argv ≫= k).
Proof.
  intros H w. unfold mbind, M_bind, subprocess. simpl. apply H, present.
Qed.

Lemma returns_run_command command check_output suppress_error tool_name :
  returns (run_command O command check_output suppress_error tool_name).
Proof.
  unfold run_command.
  apply returns_bind; [apply returns_logging | intros _].
  apply returns_subprocess_bind. intros out Hout.
  destruct out; [..|done]; repeat rt_step.
Qed.

Lemma returns_download_file url filename target_dir :
  returns (download_file O url filename target_dir).
Proof. unfold download_file. repeat rt_step. Qed.

Lemma returns_get_package_name_from_apk apk_path :
  returns (get_package_name_from_apk O apk_path).
Proof.
  unfold get_package_name_from_apk.
  apply returns_bind; [by (intros ?; eexists) | intros available].
  destruct (negb available); [repeat rt_step|].
  apply returns_bind; [apply returns_logging | intros _].
  apply returns_try; [|intros e; repeat rt_step].
  apply no_exit_bind; [apply returns_no_exit, returns_run_command|].
  intros output. apply no_exit_bind.
  - destruct (truthy output); [|apply no_exit_ret].
    destruct output; [apply no_exit_scan_badging | by apply no_exit_raise].
  - intros [name|]; apply returns_no_exit; repeat rt_step.
Qed.

Lemma returns_push_and_install_apk local_path :
  returns (push_and_install_apk O local_path).
Proof.
  unfold push_and_install_apk. repeat rt_step.
  all: apply returns_run_command.
Qed.

Lemma returns_set_default_launcher package_name :
  returns (set_default_launcher O package_name).
Proof.
  unfold set_default_launcher. repeat rt_step.
  all: apply returns_run_command.
Qed.

Lemma returns_set_wallpaper local_image_path :
  returns (set_wallpaper O local_image_path).
Proof.
  unfold set_wallpaper. repeat rt_step.
  all: apply returns_run_command.
Qed.

Lemma returns_for_each {A} (l : list A) (body : A → M unit) :
  (∀ x, returns (body x)) → returns (for_each l body).
Proof.
  intros H. induction l as [|x r IH]; simpl; [apply returns_ret|].
  apply returns_bind; [apply H | intros _; exact IH].
Qed.

Lemma returns_for_fold {A S} (l : list A) (s : S) (body : A → S → M S) :
  (∀ x s', returns (body x s')) → returns (for_fold l s body).
Proof.
  intros H. revert s. induction l as [|x r IH]; intros s; simpl;
    [apply returns_ret|].
  apply returns_bind; [apply H | intros s'; apply IH].
Qed.

Lemma returns_collect_package apk_filename packages :
  returns (collect_package O apk_filename packages).
Proof.
  unfold collect_package. repeat rt_step.
  all: first [ apply returns_download_file
             | apply returns_get_package_name_from_apk ].
Qed.

Lemma returns_collect_packages : returns (collect_packages O).
Proof.
  unfold collect_packages.
  apply returns_bind; [|intros ?; apply returns_ret].
  apply returns_for_fold. intros. apply returns_collect_package.
Qed.

Lemma returns_install_component config item :
  returns (install_component O config item).
Proof.
  destruct item as [apk [description optional]].
  unfold install_component. repeat rt_step.
  all: first [ apply returns_download_file
             | apply returns_get_package_name_from_apk
             | apply returns_push_and_install_apk ].
Qed.

End Returns.

Ltac run_monad :=
  unfold mbind, M_bind, mret, M_ret, when, logging, print_step, emit,
    path_exists, makedirs, open_wb, http_get, input, subprocess, raise,
    get_aapt_available, set_aapt_available; simpl.

Ltac destruct_proc present :=
  match goal with
  | |- context [match subprocess_run ?O ?h ?a with _ => _ end] =>
      let E := fresh "E" in
      destruct (subprocess_run O h a) as [?out ?err|?msg ?out ?err|] eqn:E;
      [| |by apply present in E]; simpl
  end.


Section Claims.

Variable O : oracle.

(** C9. When the answer to the confirmation prompt is neither [y] nor [Y],
    the uninstall orchestrator returns at once: the file system and the
    capability flag are unchanged, and no command, no transfer and no
    uninstall attempt is issued. *)
Theorem C9_unconfirmed_wipe (w : world) :
  wipe_answer O w ≠ "y" → wipe_answer O w ≠ "Y" →
  ∃ w', wipe_liteageos_components O w = (Ok (), w')
        ∧ fs w' = fs w
        ∧ aapt_available w' = aapt_available w
        ∧ commands (trace w') = commands (trace w)
        ∧ transfers (trace w') = transfers (trace w)
        ∧ uninstalls (trace w') = uninstalls (trace w).
Proof.
  intros H1 H2.
  assert (H : PyText.lower (wipe_answer O w) ≠ "y").
  { rewrite lower_y. by intros [?|?]. }
  unfold wipe_liteageos_components, wipe_answer in *. revert H. run_monad.
  intros H. rewrite bool_decide_false by done. simpl.
  eexists. split; [done|]. simpl.
  unfold commands, transfers, uninstalls. by rewrite !omap_app, !app_nil_r.
Qed.

Lemma write_chunks_spec p chunks w c :
  fs w !! p = Some (File c) →
  ∃ m, write_chunks p chunks w = (Ok (), World m (aapt_available w) (trace w))
       ∧ m !! p = Some (File (c +:+ received chunks))
       ∧ ∀ q, q ≠ p → m !! q = fs w !! q.
Proof.
  revert w c. induction chunks as [|x r IH]; intros w c Hc; simpl.
  - exists (fs w). destruct w. simpl in *. by rewrite append_nil_r.
  - unfold mbind, M_bind, write at 1. simpl. rewrite Hc.
    edestruct (IH (World (<[p:=File (c +:+ x)]> (fs w)) (aapt_available w) (trace w)))
      as (m & E & Hm & Hq); [by simpl; rewrite lookup_insert_eq|].
    exists m. split; [exact E|]. split.
    + by rewrite Hm, append_assoc.
    + intros q Hne. rewrite Hq by done. simpl. by rewrite lookup_insert_ne.
Qed.

(** C8, amended.  For an asset that is not cached, a transport error makes
    [download_file] return [None].  When the request itself or its status
    fails, the asset is still absent from the cache afterwards.  When the
    connection breaks while the body is streamed, the chunks received so
    far stay in the cache under the asset's name.  No other cache entry
    changes. *)
Theorem C8_transport_error (url filename target_dir : string) (w : world) :
  let p := path_join target_dir filename in
  fs w !! p = None → p ≠ target_dir →
  ∃ r w', download_file O url filename target_dir w = (r, w')
    ∧ (∀ q, q ≠ p → q ≠ target_dir → fs w' !! q = fs w !! q)
    ∧ match download_response O url filename target_dir w with
      | RequestFailed _ | BadStatus _ => r = Ok None ∧ fs w' !! p = None
      | Body chunks (Some _) =>
          r = Ok None ∧ fs w' !! p = Some (File (received chunks))
      | Body chunks None =>
          r = Ok (Some p) ∧ fs w' !! p = Some (File (received chunks))
      end.
Proof.
  intros p Hp Hne. unfold download_file, download_response. fold p.
  run_monad.
  destruct (bool_decide (is_Some (fs w !! target_dir))) eqn:Ed; simpl.
  - rewrite Hp. rewrite bool_decide_false by (by intros [? ?]). simpl.
    destruct (requests_get O _ url) as [msg|msg|chunks broken]; simpl.
    + eexists _, _. split; [done|]. simpl. done.
    + eexists _, _. split; [done|]. simpl. done.
    + match goal with |- context [write_chunks p chunks ?w0] =>
        destruct (write_chunks_spec p chunks w0 EmptyString) as (m & E & Hm & Hq);
          [by simpl; rewrite lookup_insert_eq|]; rewrite E end.
      simpl in *. destruct broken; eexists _, _; (split; [done|]); simpl;
        (split; [intros q ? ?; rewrite Hq by done; by rewrite lookup_insert_ne|]);
        done.
  - rewrite lookup_insert_ne by done. rewrite Hp.
    rewrite bool_decide_false by (by intros [? ?]). simpl.
    destruct (requests_get O _ url) as [msg|msg|chunks broken]; simpl.
    + eexists _, _. split; [done|]. simpl.
      split; [intros q ? ?; by rewrite lookup_insert_ne|].
      by rewrite lookup_insert_ne.
    + eexists _, _. split; [done|]. simpl.
      split; [intros q ? ?; by rewrite lookup_insert_ne|].
      by rewrite lookup_insert_ne.
    + match goal with |- context [write_chunks p chunks ?w0] =>
        destruct (write_chunks_spec p chunks w0 EmptyString) as (m & E & Hm & Hq);
          [by simpl; rewrite lookup_insert_eq|]; rewrite E end.
      simpl in *. destruct broken; eexists _, _; (split; [done|]); simpl;
        (split; [intros q ? ?; rewrite Hq by done; by rewrite !lookup_insert_ne|]);
        done.
Qed.

Lemma download_file_cached url filename target_dir w :
  let p := path_join target_dir filename in
  is_Some (fs w !! p) →
  ∃ w', download_file O url filename target_dir w = (Ok (Some p), w')
        ∧ transfers (trace w') = transfers (trace w)
        ∧ commands (trace w') = commands (trace w)
        ∧ aapt_available w' = aapt_available w
        ∧ fs w' !! p = fs w !! p.
Proof.
  intros p Hp. unfold download_file. fold p. run_monad.
  destruct (bool_decide (is_Some (fs w !! target_dir))) eqn:Ed; simpl.
  - rewrite bool_decide_true by done. simpl. eexists. split; [done|]. simpl.
    unfold transfers, commands. by rewrite !omap_app, !app_nil_r.
  - assert (target_dir ≠ p).
    { intros Heq. rewrite Heq in Ed. by apply bool_decide_eq_false in Ed. }
    rewrite lookup_insert_ne by done. rewrite bool_decide_true by done.
    simpl. eexists. split; [done|]. simpl.
    unfold transfers, commands. rewrite !omap_app, !app_nil_r.
    by rewrite lookup_insert_ne.
Qed.

Lemma download_file_missing url filename target_dir w :
  let p := path_join target_dir filename in
  fs w !! p = None → p ≠ target_dir →
  ∃ r w', download_file O url filename target_dir w = (r, w')
          ∧ transfers (trace w') = transfers (trace w) ++ [url].
Proof.
  intros p Hp Hne. unfold download_file. fold p. run_monad.
  destruct (bool_decide (is_Some (fs w !! target_dir))) eqn:Ed; simpl;
    rewrite ?lookup_insert_ne by done; rewrite Hp;
    rewrite bool_decide_false by (by intros [? ?]); simpl.
  all: destruct (requests_get O _ url) as [msg|msg|chunks broken]; simpl.
  all: try (eexists _, _; split; [done|]; simpl; unfold transfers;
            by rewrite !omap_app, !app_nil_r).
  all: match goal with |- context [write_chunks ?p0 ?c0 ?w0] =>
         destruct (write_chunks_spec p0 c0 w0 EmptyString)
           as (m & E & Hm & Hq);
           [by simpl; rewrite lookup_insert_eq|]; rewrite E end.
  all: simpl; destruct broken; eexists _, _; (split; [done|]); simpl;
    unfold transfers; by rewrite !omap_app, !app_nil_r.
Qed.

(** C7. If the asset is cached, [download_file] returns its path without
    any transfer.  Hence, starting without the asset, two calls in a row
    with the asset present after the first perform exactly one transfer. *)
Theorem C7_idempotent_fetch (url filename target_dir : string) (w : world) :
  let p := path_join target_dir filename in
  (is_Some (fs w !! p) →
   ∃ w', download_file O url filename target_dir w = (Ok (Some p), w')
         ∧ transfers (trace w') = transfers (trace w)
         ∧ fs w' !! p = fs w !! p)
  ∧ (fs w !! p = None → p ≠ target_dir →
     ∃ r1 w1, download_file O url filename target_dir w = (r1, w1)
       ∧ transfers (trace w1) = transfers (trace w) ++ [url]
       ∧ (is_Some (fs w1 !! p) →
          ∃ w2, download_file O url filename target_dir w1 = (Ok (Some p), w2)
                ∧ transfers (trace w2) = transfers (trace w) ++ [url])).
Proof.
  intros p. split.
  - intros Hp. destruct (download_file_cached url filename target_dir w Hp)
      as (w' & E & T & _ & _ & F). by exists w'.
  - intros Hp Hne.
    destruct (download_file_missing url filename target_dir w Hp Hne)
      as (r1 & w1 & E1 & T1).
    exists r1, w1. split; [done|]. split; [done|]. intros Hp1.
    destruct (download_file_cached url filename target_dir w1 Hp1)
      as (w2 & E2 & T2 & _). exists w2. split; [done|]. by rewrite T2.
Qed.

Lemma post_ret {A} (a : A) (P : A → Prop) : P a → post (mret a : M A) P.
Proof. intros H w a' [= <-]. exact H. Qed.

Lemma post_bind {A B} (m : M A) (k : A → M B) (P : B → Prop) :
  (∀ a, post (k a) P) → post (m ≫= k) P.
Proof.
  intros H w b. unfold mbind, M_bind.
  destruct (m w) as [[a|e] w1]; simpl; [apply H | done].
Qed.

Lemma bind_ok {A B} (m : M A) (k : A → M B) w a w' :
  m w = (Ok a, w') → (m ≫= k) w = k a w'.
Proof. intros E. unfold mbind, M_bind. by rewrite E. Qed.

Lemma extends_uninstalls w w' :
  extends (λ e, uninstall_target e = None) w w' →
  uninstalls (trace w') = uninstalls (trace w).
Proof.
  intros (d & E & F). unfold uninstalls. rewrite E, omap_app.
  assert (omap uninstall_target d = []) as ->; [|by rewrite app_nil_r].
  clear E. induction F as [|e d He _ IH]; [done|].
  cbn [omap list_omap]. by rewrite He.
Qed.

Lemma collect_package_value apk packages :
  post (collect_package O apk packages)
    (λ l, ∃ found, l = packages ++ found).
Proof.
  unfold collect_package.
  repeat first
    [ apply post_bind; intros ?
    | apply post_ret
    | match goal with
      | |- post (if ?b then _ else _) _ => destruct b
      end ].
  - by eexists.
  - exists []. by rewrite app_nil_r.
  - exists []. by rewrite app_nil_r.
Qed.

Lemma for_fold_collect_value l packages :
  post (for_fold l packages (collect_package O))
    (λ r, ∃ found, r = packages ++ found).
Proof.
  revert packages. induction l as [|x r IH]; intros packages; simpl.
  - apply post_ret. exists []. by rewrite app_nil_r.
  - intros w a. unfold mbind, M_bind.
    destruct (collect_package O x packages w) as [[s'|e] w1] eqn:E; [|done].
    destruct (collect_package_value x packages w s') as [f1 ->];
      [by rewrite E|].
    simpl. intros H. destruct (IH _ _ _ H) as [f2 ->].
    exists (f1 ++ f2). by rewrite app_assoc.
Qed.

Lemma footprint_collect_packages :
  footprint (λ e, uninstall_target e = None) (collect_packages O).
Proof.
  unfold collect_packages.
  apply footprint_bind; [|intros ?; apply footprint_ret].
  apply footprint_for_fold. intros apk s' _.
  eapply footprint_weaken; [|apply footprint_collect_package].
  intros e [He | He].
  - by destruct e.
  - repeat (apply elem_of_cons in He as [-> | He]); try done.
    by apply elem_of_nil in He.
Qed.

Section Present.
Hypothesis present : binaries_present O.

Lemma uninstall_package_spec package w :
  ∃ w', uninstall_package O package w = (Ok (), w')
        ∧ uninstalls (trace w') = uninstalls (trace w) ++ [package]
        ∧ transfers (trace w') = transfers (trace w).
Proof.
  unfold uninstall_package, run_command. run_monad.
  destruct_proc present.
  - eexists. split; [done|]. simpl. unfold uninstalls, transfers.
    by rewrite !omap_app, !app_nil_r.
  - eexists. split; [done|]. simpl. unfold uninstalls, transfers.
    by rewrite !omap_app, !app_nil_r.
Qed.

Lemma uninstall_loop_spec packages w :
  ∃ w', for_each packages (uninstall_package O) w = (Ok (), w')
        ∧ uninstalls (trace w') = uninstalls (trace w) ++ packages
        ∧ transfers (trace w') = transfers (trace w).
Proof.
  revert w. induction packages as [|p r IH]; intros w; simpl.
  - exists w. by rewrite app_nil_r.
  - destruct (uninstall_package_spec p w) as (w1 & E1 & U1 & T1).
    destruct (IH w1) as (w2 & E2 & U2 & T2).
    exists w2. rewrite (bind_ok _ _ _ _ _ E1). split; [done|].
    rewrite U2, U1, T2, T1. by rewrite <-app_assoc.
Qed.

(** C5. In a confirmed run with the tool binaries present, the uninstall
    attempts are, in order, the iteration of [set] over the merged list
    that [collect_packages] builds: the two launcher identities, the
    identities resolved from the components, the three forced ones.  Each distinct identity is attempted
    exactly once, every identity of the list is attempted, and the run
    returns normally whether the attempts succeed or fail. *)
Theorem C5_uninstall_each_once (w : world) :
  set_order_ok O →
  wipe_answer O w = "y" ∨ wipe_answer O w = "Y" →
  ∃ found w',
    let merged :=
      ["app.lawnchair.nightly"; "ch.deletescape.lawnchair"] ++ found
      ++ ["org.lineageos.etar"; "org.lineageos.aperture.dev";
          "com.android.deskclock"] in
    (collect_packages O (after_prompt O w)).1 = Ok merged
    ∧ wipe_liteageos_components O w = (Ok (), w')
    ∧ uninstalls (trace w') = uninstalls (trace w) ++ set_order O merged
    ∧ NoDup (set_order O merged)
    ∧ ∀ p, p ∈ merged ↔ p ∈ set_order O merged.
Proof.
  intros Hset Hans. apply lower_y in Hans.
  unfold wipe_liteageos_components, wipe_answer, after_prompt in *.
  revert Hans. run_monad. intros Hans.
  rewrite bool_decide_true by done. simpl.
  match goal with |- context [collect_packages O ?w0] => set (w2 := w0) end.
  destruct (returns_collect_packages O present w2) as [pkgs Hp].
  destruct (collect_packages O w2) as [r w3] eqn:E3. simpl in Hp. subst r.
  pose proof (footprint_collect_packages w2) as F3. rewrite E3 in F3.
  apply extends_uninstalls in F3. simpl in F3.
  assert (∃ found, pkgs = ["app.lawnchair.nightly"; "ch.deletescape.lawnchair"]
            ++ found ++ ["org.lineageos.etar"; "org.lineageos.aperture.dev";
                         "com.android.deskclock"]) as [found ->].
  { revert E3. unfold collect_packages, mbind, M_bind.
    destruct (for_fold _ _ _ w2) as [[l|e] w3'] eqn:EF; [|done].
    destruct (for_fold_collect_value _ _ _ _ (f_equal fst EF)) as [found ->].
    intros [= <- _]. exists found. by rewrite <-!app_assoc. }
  match goal with |- context [for_each ?l _ ?w0] =>
    destruct (uninstall_loop_spec l w0) as (w5 & E5 & U5 & _) end.
  rewrite E5. simpl. exists found. eexists.
  split; [done|].
  split; [done|]. simpl. split; [|split].
  - unfold uninstalls in *. rewrite !omap_app, app_nil_r. simpl in U5.
    rewrite U5. rewrite !omap_app, app_nil_r. rewrite F3.
    by rewrite !omap_app, !app_nil_r.
  - apply Hset.
  - intros p. symmetry. apply Hset.
Qed.

Lemma nonempty_cache_path apk : nonempty (path_join TEMP_DIR apk) = true.
Proof.
  unfold path_join. destruct (PyText.prefix "/" apk) eqn:E.
  - destruct apk; [discriminate E | done].
  - done.
Qed.


End Present.




Lemma extends_commands l w w' :
  extends (only l) w w' → (∀ argv, Run argv ∉ l) →
  commands (trace w') = commands (trace w).
Proof.
  intros (d & E & F) Hl. unfold commands. rewrite E, omap_app.
  match goal with |- _ ++ ?x = _ => assert (x = []) as -> end;
    [|by rewrite app_nil_r].
  clear E. induction F as [|e d He _ IH]; [done|].
  cbn [omap list_omap]. destruct e as [lvl msg|prompt|argv|url]; try done.
  destruct He as [He | He]; [done | by apply Hl in He].
Qed.

Lemma write_chunks_frame p chunks w :
  ∃ m, write_chunks p chunks w = (Ok (), World m (aapt_available w) (trace w)).
Proof.
  revert w. induction chunks as [|x r IH]; intros w; simpl.
  - exists (fs w). by destruct w.
  - unfold mbind, M_bind, write at 1. simpl.
    match goal with |- context [write_chunks p r ?w0] =>
      destruct (IH w0) as [m E] end.
    exists m. by rewrite E.
Qed.

Lemma download_file_frame url filename target_dir w :
  ∃ r w', download_file O url filename target_dir w = (Ok r, w')
          ∧ aapt_available w' = aapt_available w
          ∧ commands (trace w') = commands (trace w).
Proof.
  destruct (returns_download_file O url filename target_dir w) as [r Hr].
  destruct (download_file O url filename target_dir w) as [r' w'] eqn:E.
  simpl in Hr. subst r'. exists r, w'. split; [done|]. split.
  - revert E. unfold download_file. run_monad.
    repeat case_match; simpl; intros; unfold mret, M_ret in *;
      simplify_eq/=; try done.
    all: match goal with H : write_chunks ?p ?c ?w0 = _ |- _ =>
           destruct (write_chunks_frame p c w0) as (m & Em);
             rewrite Em in H; by simplify_eq/= end.
  - pose proof (footprint_download_file O url filename target_dir w) as F.
    rewrite E in F. eapply extends_commands; [exact F|].
    intros argv Hin. apply list_elem_of_singleton in Hin. done.
Qed.

(** C2, what the code does.  With the identifier-tool capability false,
    [install_launcher] returns normally but issues no command at all: the
    launcher is neither pushed nor installed nor set as default.  It logs
    that the package name could not be determined, or that the launcher
    installation is skipped. *)
Theorem C2_degraded_launcher (apk : string) (w : world) :
  aapt_available w = false →
  ∃ w', install_launcher O (Some apk) w = (Ok (), w')
        ∧ commands (trace w') = commands (trace w)
        ∧ aapt_available w' = false
        ∧ (Log ERROR ("ERROR: Failed to determine package name for " +:+ apk
                      +:+ ". Setting default launcher might not work.")
             ∈ trace w'
           ∨ Log INFO "Skipping launcher installation." ∈ trace w').
Proof.
  intros Ha. unfold install_launcher.
  unfold mbind at 1, M_bind at 1. unfold logging at 1, emit at 1.
  match goal with |- context [(download_file O ?u ?f ?d ≫= _) ?w0] =>
    destruct (download_file_frame u f d w0) as (r & w2 & E2 & A2 & C2) end.
  rewrite (bind_ok _ _ _ _ _ E2). simpl in A2, C2.
  assert (C2' : commands (trace w2) = commands (trace w)).
  { rewrite C2. unfold commands. by rewrite omap_app, app_nil_r. }
  destruct r as [path|]; [destruct (nonempty path)|].
  - unfold get_package_name_from_apk. run_monad.
    rewrite A2, Ha. simpl. eexists. split; [done|]. simpl.
    split; [|split; [congruence|]].
    + unfold commands in *. by rewrite !omap_app, !app_nil_r.
    + left. rewrite !elem_of_app, !list_elem_of_singleton. naive_solver.
  - run_monad. eexists. split; [done|]. simpl.
    split; [|split; [congruence|]].
    + unfold commands in *. by rewrite !omap_app, !app_nil_r.
    + right. rewrite !elem_of_app, !list_elem_of_singleton. naive_solver.
  - run_monad. eexists. split; [done|]. simpl.
    split; [|split; [congruence|]].
    + unfold commands in *. by rewrite !omap_app, !app_nil_r.
    + right. rewrite !elem_of_app, !list_elem_of_singleton. naive_solver.
Qed.

(** C3, what the code does.  When the [aapt] executable is not on the
    execution path, the capability probe ends the process with
    [SystemExit(1)]: the availability flag is never written, and an
    enclosing [except Exception] does not intercept the exit. *)
Theorem C3_missing_aapt_is_fatal (w : world) :
  aapt_missing O →
  ∃ w', check_aapt_availability O w = (Raise (SystemExit 1), w')
        ∧ aapt_available w' = aapt_available w
        ∧ ∀ handler,
            try_except_Exception (check_aapt_availability O) handler w
            = (Raise (SystemExit 1), w').
Proof.
  intros Hm. unfold try_except_Exception, check_aapt_availability, run_command.
  run_monad. rewrite Hm. simpl. eexists. split; [done|]. split; [done|].
  intros handler. done.
Qed.

End Claims.


(** ** The sample oracles meet the assumptions *)

Lemma remove_dups_ok (O : oracle) : set_order O = remove_dups → set_order_ok O.
Proof.
  intros E l. rewrite E. split; [apply NoDup_remove_dups|].
  intros x. apply elem_of_remove_dups.
Qed.

Lemma clashing_present : binaries_present clashing.
Proof. intros h argv. simpl. repeat case_match; discriminate. Qed.

Lemma friendly_present : binaries_present friendly.
Proof. intros h argv. simpl. repeat case_match; discriminate. Qed.

Lemma without_aapt_missing : aapt_missing without_aapt.
Proof. intros h args. reflexivity. Qed.


(** ** The claims at the sample oracles *)

(** C9, witness: the user answers [n]. *)
Lemma C9_unconfirmed_wipe_witness :
  wipe_answer flaky (fresh true) = "n"
  ∧ ∃ w', wipe_liteageos_components flaky (fresh true) = (Ok (), w')
          ∧ fs w' = fs (fresh true)
          ∧ aapt_available w' = aapt_available (fresh true)
          ∧ commands (trace w') = commands (trace (fresh true))
          ∧ transfers (trace w') = transfers (trace (fresh true))
          ∧ uninstalls (trace w') = uninstalls (trace (fresh true)).
Proof.
  split; [reflexivity|].
  apply (C9_unconfirmed_wipe flaky (fresh true)); discriminate.
Defined.

(** C7, witness: a first download of [Music.apk] into an empty cache. *)
Lemma C7_idempotent_fetch_witness :
  fs (fresh true) !! "apks/Music.apk" = None
  ∧ ∃ r1 w1, download_file friendly music_url "Music.apk" "apks" (fresh true) = (r1, w1)
      ∧ transfers (trace w1) = [music_url]
      ∧ (is_Some (fs w1 !! "apks/Music.apk") →
         ∃ w2, download_file friendly music_url "Music.apk" "apks" w1
               = (Ok (Some "apks/Music.apk"), w2)
               ∧ transfers (trace w2) = [music_url]).
Proof.
  split; [reflexivity|].
  apply (proj2 (C7_idempotent_fetch friendly music_url "Music.apk" "apks" (fresh true)));
    [reflexivity | discriminate].
Defined.

(** C8, counterexample.  The connection breaks after the first chunk:
    [download_file] returns [None], yet the asset, absent before, now
    exists in the cache with the partial content; the next call returns
    it as cached, without a transfer. *)
Lemma C8_counterexample :
  download_response flaky music_url "Music.apk" "apks" (fresh true)
  = Body ["PK"] (Some "Connection broken: IncompleteRead")
  ∧ broken_download.1 = Ok None
  ∧ fs (fresh true) !! "apks/Music.apk" = None
  ∧ fs broken_download.2 !! "apks/Music.apk" = Some (File "PK")
  ∧ retry_after_broken.1 = Ok (Some "apks/Music.apk")
  ∧ transfers (trace retry_after_broken.2)
    = transfers (trace broken_download.2)
  ∧ fs retry_after_broken.2 !! "apks/Music.apk" = Some (File "PK").
Proof. by vm_compute. Qed.

(** C8, witness: a connection that breaks after one chunk, and a server
    that refuses the request. *)
Lemma C8_transport_error_witness :
  download_response flaky music_url "Music.apk" "apks" (fresh true)
  = Body ["PK"] (Some "Connection broken: IncompleteRead")
  ∧ download_response offline music_url "Music.apk" "apks" (fresh true)
    = RequestFailed "Max retries exceeded"
  ∧ (∃ r w', download_file flaky music_url "Music.apk" "apks" (fresh true) = (r, w')
             ∧ r = Ok None ∧ fs w' !! "apks/Music.apk" = Some (File "PK"))
  ∧ (∃ r w', download_file offline music_url "Music.apk" "apks" (fresh true) = (r, w')
             ∧ r = Ok None ∧ fs w' !! "apks/Music.apk" = None).
Proof.
  split; [reflexivity|]. split; [reflexivity|]. split.
  - destruct (C8_transport_error flaky music_url "Music.apk" "apks" (fresh true)
                eq_refl ltac:(discriminate)) as (r & w' & E & _ & Hr & Hf).
    by exists r, w'.
  - destruct (C8_transport_error offline music_url "Music.apk" "apks" (fresh true)
                eq_refl ltac:(discriminate)) as (r & w' & E & _ & Hr & Hf).
    by exists r, w'.
Defined.

(** C5, witness: two assets resolve to identities that the fixed lists
    already contain, and every uninstall fails. *)
Lemma C5_uninstall_each_once_witness :
  wipe_answer clashing (fresh true) = "Y"
  ∧ ∃ found w',
      let merged :=
        ["app.lawnchair.nightly"; "ch.deletescape.lawnchair"] ++ found
        ++ ["org.lineageos.etar"; "org.lineageos.aperture.dev";
            "com.android.deskclock"] in
      (collect_packages clashing (after_prompt clashing (fresh true))).1
      = Ok merged
      ∧ wipe_liteageos_components clashing (fresh true) = (Ok (), w')
      ∧ uninstalls (trace w')
        = uninstalls (trace (fresh true)) ++ set_order clashing merged
      ∧ NoDup (set_order clashing merged)
      ∧ ∀ p, p ∈ merged ↔ p ∈ set_order clashing merged.
Proof.
  split; [reflexivity|].
  apply (C5_uninstall_each_once clashing clashing_present (fresh true)).
  - by apply remove_dups_ok.
  - right. reflexivity.
Defined.

(** In that run the five distinct identities are each attempted once,
    although every attempt fails. *)
Example wipe_clashing_run :
  (wipe_liteageos_components clashing (fresh true)).1 = Ok ()
  ∧ uninstalls (trace (wipe_liteageos_components clashing (fresh true)).2)
    = ["ch.deletescape.lawnchair"; "app.lawnchair.nightly";
       "org.lineageos.etar"; "org.lineageos.aperture.dev";
       "com.android.deskclock"].
Proof. by vm_compute. Qed.

(** C2, witness: a working device and server, the capability flag false. *)
Lemma C2_degraded_launcher_witness :
  aapt_available (fresh false) = false
  ∧ ∃ w', install_launcher friendly (Some "Litechair.apk") (fresh false)
          = (Ok (), w')
      ∧ commands (trace w') = commands (trace (fresh false))
      ∧ aapt_available w' = false
      ∧ (Log ERROR ("ERROR: Failed to determine package name for "
                    +:+ "Litechair.apk"
                    +:+ ". Setting default launcher might not work.")
           ∈ trace w'
         ∨ Log INFO "Skipping launcher installation." ∈ trace w').
Proof.
  split; [reflexivity|].
  apply (C2_degraded_launcher friendly "Litechair.apk" (fresh false)).
  reflexivity.
Defined.

(** In that run the launcher asset is downloaded in full and no command
    follows. *)
Example degraded_launcher_run :
  (install_launcher friendly (Some "Litechair.apk") (fresh false)).1 = Ok ()
  ∧ fs (install_launcher friendly (Some "Litechair.apk") (fresh false)).2
      !! "apks/Litechair.apk" = Some (File "PKdata")
  ∧ commands
      (trace (install_launcher friendly (Some "Litechair.apk") (fresh false)).2)
    = [].
Proof. by vm_compute. Qed.

(** C3, witness: [adb] is installed, [aapt] is not. *)
Lemma C3_missing_aapt_is_fatal_witness :
  ∃ w', check_aapt_availability without_aapt (fresh false)
        = (Raise (SystemExit 1), w')
    ∧ aapt_available w' = aapt_available (fresh false)
    ∧ ∀ handler,
        try_except_Exception (check_aapt_availability without_aapt) handler
          (fresh false)
        = (Raise (SystemExit 1), w').
Proof.
  apply (C3_missing_aapt_is_fatal without_aapt (fresh false)).
  exact without_aapt_missing.
Defined.

End InstallerFacts.

(** * Further properties of the profiler *)

Module ProfileExtras.
Import PyText Profile Fixtures PyTextFacts ProfileFacts.

Lemma lower_app s1 s2 : lower (s1 +:+ s2) = lower s1 +:+ lower s2.
Proof.
  induction s1 as [|c r IH]; [done|]. unfold String.app in *. simpl.
  by rewrite IH.
Qed.

Lemma prefix_app p s : prefix p (p +:+ s) = true.
Proof.
  induction p as [|c r IH]; [done|]. unfold String.app in *. simpl.
  by destruct (ascii_dec c c).
Qed.

Lemma contains_here needle s : prefix needle s = true → contains needle s = true.
Proof. intros H. destruct s; simpl; by rewrite H. Qed.

Lemma contains_mid needle pre post :
  contains needle (pre +:+ needle +:+ post) = true.
Proof.
  induction pre as [|c r IH].
  - apply contains_here. change (EmptyString +:+ ?x) with x. apply prefix_app.
  - change (String c r +:+ ?x) with (String c (r +:+ x)).
    cbn [contains]. rewrite IH. apply orb_true_r.
Qed.

Lemma nonempty_contains needle s :
  needle ≠ EmptyString → contains needle s = true → s ≠ EmptyString.
Proof. intros Hn H ->. destruct needle; [done|]. discriminate H. Qed.

Lemma abi_has_arm64_marker pre marker post :
  lower marker = "arm64-v8a" →
  abi_has_arm64 (CStr (pre +:+ marker +:+ post)) = Ok true.
Proof.
  intros H. unfold abi_has_arm64.
  assert (C : contains "arm64-v8a" (lower (pre +:+ marker +:+ post)) = true).
  { rewrite !lower_app, H. apply contains_mid. }
  rewrite C, andb_true_r. f_equal. apply truthy_CStr.
  intros E. rewrite E in C. discriminate C.
Qed.

(** X1. [check_arm8_support_on_device] answers [True] as soon as one of the
    two ABI properties contains [arm64-v8a] in any letter case, the second
    being looked at only when the first gives nothing; a [True] always
    comes from such a property; and two queries that failed or printed
    nothing give [False]. *)
Theorem arm64_detection :
  (∀ pre marker post abi2,
     lower marker = "arm64-v8a" →
     check_arm8_support_on_device (CStr (pre +:+ marker +:+ post)) abi2
     = Ok true)
  ∧ (∀ abi pre marker post,
       abi_has_arm64 abi = Ok false → lower marker = "arm64-v8a" →
       check_arm8_support_on_device abi (CStr (pre +:+ marker +:+ post))
       = Ok true)
  ∧ (∀ abi abi2,
       check_arm8_support_on_device abi abi2 = Ok true →
       ∃ s, (abi = CStr s ∨ abi2 = CStr s)
            ∧ contains "arm64-v8a" (lower s) = true)
  ∧ (∀ abi abi2,
       (abi = CBool false ∨ abi = CStr EmptyString) →
       (abi2 = CBool false ∨ abi2 = CStr EmptyString) →
       check_arm8_support_on_device abi abi2 = Ok false).
Proof.
  split; [|split; [|split]].
  - intros pre marker post abi2 H. unfold check_arm8_support_on_device.
    by rewrite abi_has_arm64_marker.
  - intros abi pre marker post Ha H. unfold check_arm8_support_on_device.
    by rewrite Ha, abi_has_arm64_marker.
  - intros abi abi2. unfold check_arm8_support_on_device.
    assert (Hone : ∀ v, abi_has_arm64 v = Ok true →
                        ∃ s, v = CStr s ∧ contains "arm64-v8a" (lower s) = true).
    { intros [s|[]] H; simpl in H; try done. exists s. split; [done|].
      injection H as H. by apply andb_true_iff in H as [_ H]. }
    destruct (abi_has_arm64 abi) as [[]|] eqn:E1; [| |done].
    + intros _. destruct (Hone _ E1) as (s & -> & H). exists s. auto.
    + destruct (abi_has_arm64 abi2) as [[]|] eqn:E2; try done.
      intros _. destruct (Hone _ E2) as (s & -> & H). exists s. auto.
  - by intros abi abi2 [-> | ->] [-> | ->].
Qed.

(** X2. For a [MemTotal] figure that a double holds exactly, the rounded
    gigabytes fall below 100, and the label gets its [S], exactly when the
    figure is at most 104852357 kB: a device reporting 99.995 GB or more is
    not marked as small. *)
Theorem small_memory_threshold (k : Z) :
  Z.abs k < 2 ^ 53 →
  ∃ gb, mem_gb_of_kb k = Ok gb
        ∧ (k ≤ 104852357 →
           ∀ os arm, predict os arm (Some gb) = predict os arm None +:+ "S")
        ∧ (104852357 < k →
           ∀ os arm, predict os arm (Some gb) = predict os arm None).
Proof.
  intros Hk. destruct (mem_gb_of_kb_near k Hk) as (h & E & Hh).
  exists (h # 100). split; [done|].
  assert (Hlt : lt_100 (h # 100) = true ↔ h < 10000).
  { rewrite lt_100_spec. unfold Qlt. simpl. lia. }
  change (2 ^ 20) with 1048576 in Hh.
  split.
  - intros Hle os arm. unfold predict.
    assert (lt_100 (h # 100) = true) as -> by (apply Hlt; lia).
    unfold calculate_liteageos_version. by destruct os, arm.
  - intros Hgt os arm. unfold predict.
    assert (lt_100 (h # 100) = false) as ->.
    { apply not_true_is_false. intros E'. apply Hlt in E'. lia. }
    done.
Qed.

Lemma base_char_not_suffix c : base_char c → c ≠ "+"%char ∧ c ≠ "S"%char.
Proof.
  intros [[d H] | [-> | ->]]; [|done..].
  split; intros ->; discriminate H.
Qed.

Lemma str_chars n :
  Forall (λ c, is_Some (digit_val c) ∨ c = "-"%char) (chars (PyText.str n)).
Proof.
  assert (Hpos : ∀ p, Forall (λ c, is_Some (digit_val c) ∨ c = "-"%char)
                        (chars (pretty (N.pos p)))).
  { intros p. unfold pretty, pretty_N. rewrite decide_False by done.
    eapply Forall_impl; [apply (pretty_N_go_digits _ EmptyString); constructor|].
    intros c H. by left. }
  destruct n as [|p|p].
  - apply Forall_cons. split; [left; by eexists | constructor].
  - apply Hpos.
  - unfold PyText.str, pretty, pretty_Z.
    change ("-" +:+ pretty p) with (String "-"%char (pretty (N.pos p))).
    constructor; [by right | apply Hpos].
Qed.

Lemma str_not_unknown n : PyText.str n ≠ "???".
Proof.
  intros E. pose proof (str_chars n) as F. rewrite E in F.
  apply Forall_cons in F as [[[d H] | H] _]; discriminate H.
Qed.

Lemma str_base_chars n : Forall base_char (chars (PyText.str n)).
Proof.
  eapply Forall_impl; [apply str_chars|]. intros c [H | H]; [by left|].
  right. by left.
Qed.

Lemma base_suffix_unique b1 b2 s1 s2 :
  Forall base_char (chars b1) → Forall base_char (chars b2) →
  s1 ∈ [EmptyString; "+"; "S"; "+S"] → s2 ∈ [EmptyString; "+"; "S"; "+S"] →
  b1 +:+ s1 = b2 +:+ s2 → b1 = b2 ∧ s1 = s2.
Proof.
  assert (Hhead : ∀ c b s s', base_char c → s ∈ [EmptyString; "+"; "S"; "+S"] →
                              s ≠ String c b +:+ s').
  { intros c b s s' Hc Hs E. apply base_char_not_suffix in Hc as [H1 H2].
    repeat (apply elem_of_cons in Hs as [-> | Hs]); try discriminate E;
      [..| by apply elem_of_nil in Hs];
      injection E as E _; congruence. }
  revert b2. induction b1 as [|c1 r1 IH]; intros [|c2 r2] F1 F2 H1 H2 E.
  - done.
  - apply Forall_cons in F2 as [Hc _]. by apply Hhead in E.
  - apply Forall_cons in F1 as [Hc _]. symmetry in E. by apply Hhead in E.
  - apply Forall_cons in F1 as [_ F1]. apply Forall_cons in F2 as [_ F2].
    injection E as -> E. destruct (IH r2 F1 F2 H1 H2 E) as [-> ->]. done.
Qed.

(** X3. [calculate_liteageos_version] is injective: the label determines the
    version number (or its absence), the ARM flag and the memory flag. *)
Theorem label_determines_profile v a m v' a' m' :
  calculate_liteageos_version v a m = calculate_liteageos_version v' a' m' →
  v = v' ∧ a = a' ∧ m = m'.
Proof.
  set (base := λ o : option Z,
         match o with Some n => PyText.str (n + 10) | None => "???" end).
  set (suffix := λ (x y : bool),
         (if x then "+" else EmptyString) +:+ (if y then "S" else EmptyString)).
  assert (Hc : ∀ o x y, calculate_liteageos_version o x y = base o +:+ suffix x y).
  { intros o x y. unfold calculate_liteageos_version.
    change (EmptyString +:+ ?s) with s.
    destruct o, x, y; by rewrite ?append_nil_r, ?append_assoc. }
  assert (Hb : ∀ o, Forall base_char (chars (base o))).
  { intros [n|]; [apply str_base_chars|]. repeat constructor; right; by right. }
  assert (Hs : ∀ x y, suffix x y ∈ [EmptyString; "+"; "S"; "+S"]).
  { intros [] []; unfold suffix; simpl;
      repeat first [ apply list_elem_of_here
                   | apply list_elem_of_further ]. }
  rewrite !Hc. intros E.
  destruct (base_suffix_unique _ _ _ _ (Hb v) (Hb v') (Hs a m) (Hs a' m') E)
    as [E1 E2].
  split.
  - destruct v as [n|], v' as [n'|]; simpl in E1; try done.
    + apply (inj pretty) in E1. f_equal. lia.
    + by apply str_not_unknown in E1.
    + symmetry in E1. by apply str_not_unknown in E1.
  - by destruct a, m, a', m'.
Qed.

Lemma scan_meminfo_raises lines e :
  scan_meminfo lines = Raise e → e = OverflowError.
Proof.
  induction lines as [|line rest IH]; simpl; [done|].
  destruct (contains _ line); [|exact IH].
  destruct (split line !! 1%nat) as [tok|]; [|done].
  destruct (int tok) as [k|]; [|done].
  unfold mem_gb_of_kb. destruct (_ <=? _); [|done]. by intros [= <-].
Qed.

Lemma os_version_from_sdk_raises sdk e :
  captured sdk → os_version_from_sdk sdk = Raise e → e = ValueError.
Proof.
  intros [-> | [s ->]]; simpl; [done|].
  destruct (_ && _); [|done]. destruct (int _); [done|]. by intros [= <-].
Qed.

(** X4. On values that [run_command] returns when it captures the output, the
    prediction step of [main] can only fail with [ValueError] (an API level
    made of digits that [int] rejects) or [OverflowError] (a memory figure
    beyond the range of doubles); it never fails for want of a string. *)
Theorem predict_from_outputs_errors release sdk abi abi2 meminfo e :
  captured release → captured sdk → captured abi → captured abi2 →
  captured meminfo →
  predict_from_outputs release sdk abi abi2 meminfo = Raise e →
  e = ValueError ∨ e = OverflowError.
Proof.
  intros Hr Hs Ha Ha2 Hm. unfold predict_from_outputs.
  destruct (get_android_os_version release sdk) as [os|e1] eqn:E1.
  - assert (∃ arm, check_arm8_support_on_device abi abi2 = Ok arm) as [arm ->].
    { unfold check_arm8_support_on_device.
      destruct Ha as [-> | [s ->]], Ha2 as [-> | [s2 ->]]; simpl;
        repeat case_match; simplify_eq; eauto. }
    destruct (get_device_ram_gb meminfo) as [ram|e3] eqn:E3; [done|].
    intros [= <-]. right.
    destruct Hm as [-> | [s ->]]; simpl in E3; [done|].
    destruct s; [done|]. by apply scan_meminfo_raises in E3.
  - intros [= <-]. left. unfold get_android_os_version in E1.
    destruct Hr as [-> | [s ->]].
    + by apply os_version_from_sdk_raises in E1.
    + destruct (truthy (CStr s)); [destruct (int (strip s))|];
        try done; by apply os_version_from_sdk_raises in E1.
Qed.

Lemma arm64_detection_witness :
  check_arm8_support_on_device (CStr "armeabi-v7a,ARM64-v8a") (CBool false)
  = Ok true
  ∧ check_arm8_support_on_device (CStr "armeabi-v7a") (CStr "Arm64-V8A")
    = Ok true
  ∧ check_arm8_support_on_device (CBool false) (CStr EmptyString) = Ok false.
Proof.
  split; [|split].
  - apply (proj1 arm64_detection "armeabi-v7a," "ARM64-v8a" EmptyString
             (CBool false)).
    reflexivity.
  - apply (proj1 (proj2 arm64_detection) (CStr "armeabi-v7a") EmptyString
             "Arm64-V8A" EmptyString); reflexivity.
  - apply (proj2 (proj2 (proj2 arm64_detection)) (CBool false)
             (CStr EmptyString)); [by left | by right].
Defined.

Lemma small_memory_threshold_witness :
  Z.abs 3858000 < 2 ^ 53
  ∧ ∃ gb, mem_gb_of_kb 3858000 = Ok gb
          ∧ ∀ os arm, predict os arm (Some gb) = predict os arm None +:+ "S".
Proof.
  split; [reflexivity|].
  destruct (small_memory_threshold 3858000 eq_refl) as (gb & E & Hs & _).
  exists gb. split; [exact E|]. apply Hs. discriminate.
Defined.

Lemma label_determines_profile_witness :
  calculate_liteageos_version (Some 13) true false
  = calculate_liteageos_version (Some 13) true false
  ∧ Some 13 = Some 13 ∧ true = true ∧ false = false.
Proof.
  split; [reflexivity|].
  apply (label_determines_profile (Some 13) true false (Some 13) true false).
  reflexivity.
Defined.

Lemma predict_from_outputs_errors_witness :
  predict_from_outputs (CBool false) (CStr (String (ascii_of_N 178) EmptyString))
    (CBool false) (CBool false) (CBool false) = Raise ValueError
  ∧ (ValueError = ValueError ∨ ValueError = OverflowError).
Proof.
  split; [reflexivity|].
  apply (predict_from_outputs_errors (CBool false)
           (CStr (String (ascii_of_N 178) EmptyString))
           (CBool false) (CBool false) (CBool false) ValueError);
    first [ by left | by (right; eexists) | reflexivity ].
Defined.

End ProfileExtras.

(** * Further properties of the installer *)

Module InstallerExtras.
Import PyText Installer Fixtures PyTextFacts InstallerFacts.

(** ** Frames *)

Lemma quiet_step_refl w : quiet_step w w [].
Proof. unfold quiet_step. by rewrite app_nil_r. Qed.

Lemma quiet_step_trans w1 w2 w3 d1 d2 :
  quiet_step w1 w2 d1 → quiet_step w2 w3 d2 → quiet_step w1 w3 (d1 ++ d2).
Proof.
  intros (F1 & A1 & C1 & T1 & P1) (F2 & A2 & C2 & T2 & P2).
  unfold quiet_step. rewrite F2, A2, C2, T2, P2, C1. by rewrite app_assoc.
Qed.

Lemma commands_app t1 t2 : commands (t1 ++ t2) = commands t1 ++ commands t2.
Proof. apply omap_app. Qed.

Lemma transfers_app t1 t2 : transfers (t1 ++ t2) = transfers t1 ++ transfers t2.
Proof. apply omap_app. Qed.

Lemma prompts_app t1 t2 : prompts (t1 ++ t2) = (prompts t1 + prompts t2)%nat.
Proof. unfold prompts. by rewrite omap_app, length_app. Qed.

Lemma prompts_nil : prompts [] = 0%nat.
Proof. done. Qed.

Lemma prompts_cons e tr :
  prompts (e :: tr)
  = (match e with Input _ => 1 | _ => 0 end + prompts tr)%nat.
Proof. by destruct e. Qed.

Ltac trace_facts :=
  simpl;
  rewrite ?commands_app, ?transfers_app, ?prompts_app, ?prompts_cons,
    ?prompts_nil;
  simpl; rewrite ?app_nil_r, <-?app_assoc; simpl;
  repeat split; first [ done | lia ].

Ltac quiet := unfold quiet_step; trace_facts.

Lemma quiet_step_log_l w lvl msg w' d :
  quiet_step (World (fs w) (aapt_available w) (trace w ++ [Log lvl msg])) w' d →
  quiet_step w w' d.
Proof.
  intros (F & A & C & T & P). simpl in *. unfold quiet_step.
  rewrite F, A, C, T, P, commands_app, transfers_app, prompts_app, prompts_cons.
  simpl. rewrite !app_nil_r. repeat split; first [done | lia].
Qed.

Lemma quiet_step_log_r w w' lvl msg d :
  quiet_step w w' d →
  quiet_step w (World (fs w') (aapt_available w') (trace w' ++ [Log lvl msg])) d.
Proof.
  intros (F & A & C & T & P). unfold quiet_step. simpl.
  rewrite F, A, commands_app, transfers_app, prompts_app, prompts_cons, C, T, P.
  simpl. rewrite !app_nil_r. repeat split; first [done | lia].
Qed.

Section Commands.
Variable O : oracle.
Hypothesis present : binaries_present O.

Lemma run_command_spec command check_output suppress_error tool_name w :
  ∃ v w', run_command O command check_output suppress_error tool_name w
          = (Ok v, w')
    ∧ quiet_step w w' [command]
    ∧ (if check_output then v = CBool false ∨ ∃ s, v = CStr s
       else ∃ b, v = CBool b).
Proof.
  unfold run_command. run_monad. destruct_proc present.
  - destruct check_output; simpl.
    + destruct (nonempty out), (nonempty err), suppress_error; simpl;
        (eexists _, _; split; [done|]; split; [quiet | eauto]).
    + eexists _, _; split; [done|]; split; [quiet | eauto].
  - destruct check_output; simpl.
    + destruct (nonempty out), (nonempty err); simpl;
        (eexists _, _; split; [done|]; split; [quiet | eauto]).
    + eexists _, _; split; [done|]; split; [quiet | eauto].
Qed.

(** X6. [check_adb_connection] never returns [False]: it returns [True] or
    calls itself again. *)
Theorem check_adb_connection_only_true depth :
  post (check_adb_connection O depth) (λ r, r = None ∨ r = Some true).
Proof.
  induction depth as [|d IH]; simpl.
  - apply post_ret. by left.
  - apply post_bind; intros _. apply post_bind; intros output.
    apply post_bind; intros [].
    + repeat (apply post_bind; intros ?). exact IH.
    + apply post_bind; intros _. apply post_ret. by right.
Qed.
End Commands.

Section Adb.
Variable O : oracle.

Lemma check_adb_accepts depth w :
  device_accepted
    (subprocess_run O
       (trace w ++ [Log INFO "
--- Checking ADB Connection ---";
                    Log INFO "Executing ADB command: adb devices"])
       [ADB_PATH; "devices"]) = true →
  ∃ w', check_adb_connection O (S depth) w = (Ok (Some true), w')
        ∧ quiet_step w w' [[ADB_PATH; "devices"]].
Proof.
  intros H. cbn [check_adb_connection]. unfold run_command. run_monad.
  rewrite <-app_assoc. simpl.
  destruct (subprocess_run O _ _) as [so se| |]; try discriminate H.
  simpl in H. apply andb_true_iff in H as [Hd Hu].
  apply negb_true_iff in Hu.
  destruct (strip so) as [|c r] eqn:Es; [discriminate Hd|].
  destruct (nonempty so), (nonempty se); simpl in Hd, Hu |- *;
    rewrite Hd, Hu; simpl; (eexists; split; [done | quiet]).
Qed.

Lemma check_adb_refuses depth w :
  device_refused
    (subprocess_run O
       (trace w ++ [Log INFO "
--- Checking ADB Connection ---";
                    Log INFO "Executing ADB command: adb devices"])
       [ADB_PATH; "devices"]) = true →
  ∃ w1, check_adb_connection O (S depth) w = check_adb_connection O depth w1
        ∧ fs w1 = fs w ∧ aapt_available w1 = aapt_available w
        ∧ commands (trace w1) = commands (trace w) ++ [[ADB_PATH; "devices"]]
        ∧ transfers (trace w1) = transfers (trace w)
        ∧ prompts (trace w1) = S (prompts (trace w)).
Proof.
  intros H. cbn [check_adb_connection]. unfold run_command. run_monad.
  rewrite <-app_assoc. simpl.
  destruct (subprocess_run O _ _) as [so se|msg so se|]; try discriminate H.
  - simpl in H. apply negb_true_iff, andb_false_iff in H.
    destruct (strip so) as [|c r] eqn:Es.
    + destruct (nonempty so), (nonempty se); simpl;
        (eexists; split; [done|]; simpl;
         trace_facts).
    + assert (Hr : negb (contains "device" (String c r))
                   || contains "unauthorized" (String c r) = true).
      { destruct H as [-> | H]; [done|]. apply negb_false_iff in H.
        rewrite H. apply orb_true_r. }
      destruct (nonempty so), (nonempty se); simpl in Hr |- *;
        rewrite Hr; simpl;
        (eexists; split; [done|]; simpl;
         trace_facts).
  - destruct (nonempty so), (nonempty se); simpl;
      (eexists; split; [done|]; simpl;
       trace_facts).
Qed.

Lemma prompts_logs tr l1 m1 l2 m2 :
  prompts (tr ++ [Log l1 m1; Log l2 m2]) = prompts tr.
Proof. rewrite prompts_app, !prompts_cons, prompts_nil. lia. Qed.

(** X7. If the device is refused until the user has been prompted [k] times
    and accepted then, [check_adb_connection] returns [True] after exactly
    [k] prompts and [k+1] runs of [adb devices], without any transfer or
    change of state. *)
Theorem check_adb_connection_retries (k : nat) :
  (∀ h, (prompts h < k)%nat →
        device_refused (subprocess_run O h [ADB_PATH; "devices"]) = true) →
  (∀ h, prompts h = k →
        device_accepted (subprocess_run O h [ADB_PATH; "devices"]) = true) →
  ∀ w depth,
    prompts (trace w) = 0%nat → (k < depth)%nat →
    ∃ w', check_adb_connection O depth w = (Ok (Some true), w')
          ∧ prompts (trace w') = k
          ∧ commands (trace w')
            = commands (trace w) ++ replicate (S k) [ADB_PATH; "devices"]
          ∧ transfers (trace w') = transfers (trace w)
          ∧ fs w' = fs w ∧ aapt_available w' = aapt_available w.
Proof.
  intros Hrefuse Haccept.
  assert (G : ∀ n w depth,
            (prompts (trace w) + n = k)%nat → (n < depth)%nat →
            ∃ w', check_adb_connection O depth w = (Ok (Some true), w')
                  ∧ prompts (trace w') = k
                  ∧ commands (trace w')
                    = commands (trace w) ++ replicate (S n) [ADB_PATH; "devices"]
                  ∧ transfers (trace w') = transfers (trace w)
                  ∧ fs w' = fs w ∧ aapt_available w' = aapt_available w).
  { induction n as [|n IH]; intros w depth Hp Hd;
      (destruct depth as [|depth]; [lia|]).
    - destruct (check_adb_accepts depth w) as (w' & E & F & A & C & T & P).
      { apply Haccept. rewrite prompts_logs. lia. }
      exists w'. repeat split; try done. lia.
    - destruct (check_adb_refuses depth w) as (w1 & E & F & A & C & T & P).
      { apply Hrefuse. rewrite prompts_logs. lia. }
      destruct (IH w1 depth) as (w' & E' & P' & C' & T' & F' & A');
        [lia | lia |].
      exists w'. rewrite E. repeat split; try congruence.
      rewrite C', C, <-app_assoc. done. }
  intros w depth Hp Hd. apply G; lia.
Qed.
End Adb.

(** ** Remote paths and device commands *)

Lemma basename_no_slash p : contains "/" (basename p) = false.
Proof.
  induction p as [|c r IH]; [done|].
  cbn [basename]. destruct (contains "/" (String c r)) eqn:E; [exact IH | exact E].
Qed.

Lemma contains_false_prefix needle s :
  contains needle s = false → prefix needle s = false.
Proof. destruct s; simpl; intros H; by apply orb_false_iff in H as [H _]. Qed.

Lemma remote_path local_path :
  path_join "/data/local/tmp/" (basename local_path)
  = "/data/local/tmp/" +:+ basename local_path.
Proof.
  unfold path_join.
  by rewrite (contains_false_prefix _ _ (basename_no_slash local_path)).
Qed.

Section DeviceCommands.
Variable O : oracle.
Hypothesis present : binaries_present O.

(** X14. [push_and_install_apk] always pushes to [/data/local/tmp/] under the
    base name of the file, and runs [pm install] only after the push, on
    that remote path; when it stops after the push it returns [False]. *)
Theorem push_and_install_apk_order local_path w :
  let remote := "/data/local/tmp/" +:+ basename local_path in
  contains "/" (basename local_path) = false
  ∧ ∃ b w', push_and_install_apk O local_path w = (Ok b, w')
      ∧ (b = false ∧ quiet_step w w' [[ADB_PATH; "push"; local_path; remote]]
         ∨ quiet_step w w'
             [[ADB_PATH; "push"; local_path; remote];
              [ADB_PATH; "shell"; "pm"; "install"; "-r"; remote]]).
Proof.
  intros remote. split; [apply basename_no_slash|].
  unfold push_and_install_apk. rewrite remote_path. fold remote.
  unfold run_command. run_monad.
  destruct_proc present.
  - destruct_proc present.
    + eexists _, _. split; [done|]. right. quiet.
    + eexists _, _. split; [done|]. right. quiet.
  - eexists _, _. split; [done|]. left. split; [done|]. quiet.
Qed.

(** X15. [set_wallpaper] pushes the image to [/sdcard/Download/] and runs the
    wallpaper command only after the push, on that remote path; when it
    stops after the push it returns [False]. *)
Theorem set_wallpaper_order local_image_path w :
  let remote := "/sdcard/Download/" +:+ basename local_image_path in
  ∃ b w', set_wallpaper O local_image_path w = (Ok b, w')
    ∧ (b = false
       ∧ quiet_step w w' [[ADB_PATH; "push"; local_image_path; remote]]
       ∨ quiet_step w w'
           [[ADB_PATH; "push"; local_image_path; remote];
            [ADB_PATH; "shell"; "cmd"; "wallpaper"; "set"; remote]]).
Proof.
  intros remote. unfold set_wallpaper. fold remote.
  unfold run_command. run_monad.
  destruct_proc present.
  - destruct_proc present.
    + eexists _, _. split; [done|]. right. quiet.
    + eexists _, _. split; [done|]. right. quiet.
  - eexists _, _. split; [done|]. left. split; [done|]. quiet.
Qed.

(** X16. Without a package name, or with an empty one, [set_default_launcher]
    returns [False] and runs nothing; with a name it runs the one
    [set-home-activity] command. *)
Theorem set_default_launcher_guard package_name w :
  ∃ b w', set_default_launcher O package_name w = (Ok b, w')
    ∧ match package_name with
      | Some (String c r) =>
          quiet_step w w' [launcher_set_home (String c r)]
      | _ => b = false ∧ quiet_step w w' []
      end.
Proof.
  unfold set_default_launcher, launcher_set_home.
  destruct package_name as [[|c r]|]; simpl.
  - run_monad. eexists _, _. split; [done|]. split; [done|]. quiet.
  - unfold run_command. run_monad. destruct_proc present.
    + eexists _, _. split; [done|]. quiet.
    + eexists _, _. split; [done|]. quiet.
  - run_monad. eexists _, _. split; [done|]. split; [done|]. quiet.
Qed.
End DeviceCommands.

Lemma prefix_name_quote pkg tail :
  clean_name pkg → prefix "name='" (pkg +:+ String "'" tail) = false.
Proof.
  unfold clean_name. intros H.
  do 5 (destruct pkg as [|? pkg];
        [ done
        | let H' := fresh in
          destruct (proj1 (Forall_cons _ _ _) H) as [[? ?] H'];
          clear H; rename H' into H;
          change (String ?c ?r +:+ ?x) with (String c (r +:+ x));
          cbn [prefix]; destruct (ascii_dec _ _) as [<-|]; [|done] ]).
  all: try done.
Qed.

Lemma cut_name_quote pkg tail :
  clean_name pkg →
  ∃ z, match cut "name='" (pkg +:+ String "'" tail) with
       | Some (a, _) => a
       | None => pkg +:+ String "'" tail
       end = pkg +:+ String "'" z.
Proof.
  induction pkg as [|c r IH]; intros H.
  - change (EmptyString +:+ ?x) with x. cbn [cut prefix].
    destruct (ascii_dec _ _) as [E|_]; [discriminate E|].
    destruct (cut "name='" tail) as [[a b]|]; by eexists.
  - pose proof (prefix_name_quote _ tail H) as Hp.
    change (String c r +:+ ?x) with (String c (r +:+ x)) in *.
    cbn [cut]. rewrite Hp.
    destruct (proj1 (Forall_cons _ _ _) H) as [_ H']. destruct (IH H') as [z Hz].
    destruct (cut "name='" (r +:+ String "'" tail)) as [[a b]|].
    + exists z. by rewrite Hz.
    + by exists tail.
Qed.

Lemma cut_quote pkg z :
  clean_name pkg → cut "'" (pkg +:+ String "'" z) = Some (pkg, z).
Proof.
  induction pkg as [|c r IH]; intros H.
  - change (EmptyString +:+ ?x) with x. cbn [cut prefix].
    by destruct (ascii_dec _ _).
  - destruct (proj1 (Forall_cons _ _ _) H) as [[Hq _] H'].
    change (String c r +:+ ?x) with (String c (r +:+ x)).
    cbn [cut prefix]. destruct (ascii_dec _ _) as [E|_]; [by subst|].
    by rewrite (IH H').
Qed.

Lemma quoted_name_package pkg tail :
  clean_name pkg →
  quoted_name ("package: name='" +:+ pkg +:+ String "'" tail) = Ok pkg.
Proof.
  intros H. unfold quoted_name.
  assert (cut "name='" ("package: name='" +:+ pkg +:+ String "'" tail)
          = Some ("package: ", pkg +:+ String "'" tail)) as -> by reflexivity.
  destruct (cut_name_quote pkg tail H) as [z ->].
  by rewrite cut_quote.
Qed.

Lemma scan_badging_quiet apk_path lines w :
  ∃ r w', scan_badging apk_path lines w = (r, w')
          ∧ quiet_step w w' []
          ∧ (∀ e, r = Raise e → e = IndexError).
Proof.
  induction lines as [|line rest IH]; simpl.
  - eexists _, _. split; [done|]. split; [apply quiet_step_refl | done].
  - destruct (contains _ line); [|exact IH].
    destruct (quoted_name line) as [name|e] eqn:E.
    + run_monad. eexists _, _. split; [done|]. split; [quiet | done].
    + apply quoted_name_raises in E as ->. unfold raise.
      eexists _, _. split; [done|]. split; [apply quiet_step_refl|].
      by intros e [= <-].
Qed.

Lemma scan_badging_first apk_path before line rest name w :
  Forall no_package_marker before →
  contains "package: name=" line = true →
  quoted_name line = Ok name →
  ∃ w', scan_badging apk_path (before ++ line :: rest) w
        = (Ok (Some (Some name)), w')
        ∧ quiet_step w w' [].
Proof.
  intros Hb Hl Hq. induction Hb as [|l before Hn _ IH]; simpl.
  - rewrite Hl, Hq. run_monad. eexists. split; [done | quiet].
  - by rewrite Hn.
Qed.

Section Identify.
Variable O : oracle.
Hypothesis present : binaries_present O.

(** X11. With the binaries present, [get_package_name_from_apk] always
    returns: without the capability it returns [None] and runs nothing;
    with it, it runs the one [aapt dump badging] command and changes
    nothing else. *)
Theorem get_package_name_from_apk_safe apk_path w :
  ∃ r w', get_package_name_from_apk O apk_path w = (Ok r, w')
    ∧ (aapt_available w = false ∧ r = None ∧ quiet_step w w' []
       ∨ aapt_available w = true
         ∧ quiet_step w w' [[AAPT_PATH; "dump"; "badging"; apk_path]]).
Proof.
  unfold get_package_name_from_apk.
  unfold mbind at 1, M_bind at 1, get_aapt_available at 1.
  destruct (aapt_available w) eqn:Ea; simpl.
  - unfold mbind at 1, M_bind at 1, logging at 1, emit at 1.
    unfold try_except_Exception.
    match goal with |- context [(run_command O ?c ?a ?b ?t ≫= _) ?w0] =>
      destruct (run_command_spec O present c a b t w0)
        as (v & w1 & E1 & Q1 & Hv) end.
    rewrite (bind_ok _ _ _ _ _ E1). simpl in Hv.
    apply quiet_step_log_l in Q1. clear E1.
    destruct (truthy v) eqn:Tv.
    + destruct Hv as [-> | [s ->]]; [done|].
      destruct (scan_badging_quiet apk_path (splitlines s) w1)
        as (r & w2 & E2 & Q2 & Hr).
      pose proof (quiet_step_trans _ _ _ _ _ Q1 Q2) as Q12.
      rewrite app_nil_r in Q12.
      unfold mbind at 1, M_bind at 1. rewrite E2.
      destruct r as [[found|]|e].
      * simpl. eexists _, _. split; [done|]. right. done.
      * simpl. run_monad. eexists _, _. split; [done|]. right.
        split; [done|]. by apply quiet_step_log_r.
      * rewrite (Hr e eq_refl). simpl. run_monad.
        eexists _, _. split; [done|]. right.
        split; [done|]. by apply quiet_step_log_r.
    + run_monad. eexists _, _. split; [done|]. right.
      split; [done|]. by apply quiet_step_log_r.
  - run_monad. eexists _, _. split; [done|]. left.
    split; [done|]. split; [done|]. quiet.
Qed.
End Identify.

Lemma cut_none sep s : contains sep s = false → cut sep s = None.
Proof.
  induction s as [|c r IH]; simpl; intros H;
    apply orb_false_iff in H as [Hp Hr].
  - rewrite Hp. done.
  - rewrite Hp, (IH Hr). done.
Qed.

Section Badging.
Variable O : oracle.

Lemma run_command_completed command suppress_error tool_name stdout stderr w :
  (∀ h, subprocess_run O h command = Completed stdout stderr) →
  ∃ w', run_command O command true suppress_error tool_name w
        = (Ok (CStr (strip stdout)), w')
    ∧ quiet_step w w' [command].
Proof.
  intros H. unfold run_command. run_monad. rewrite H. simpl.
  destruct (nonempty stdout), (nonempty stderr), suppress_error; simpl;
    (eexists; split; [done | quiet]).
Qed.

Lemma get_package_name_first_line apk_path w stdout stderr before line rest :
  aapt_available w = true →
  (∀ h, subprocess_run O h [AAPT_PATH; "dump"; "badging"; apk_path]
        = Completed stdout stderr) →
  splitlines (strip stdout) = before ++ line :: rest →
  Forall no_package_marker before →
  contains "package: name=" line = true →
  ∃ w', get_package_name_from_apk O apk_path w
        = (Ok (match quoted_name line with
               | Ok name => Some name
               | Raise _ => None
               end), w')
        ∧ quiet_step w w' [[AAPT_PATH; "dump"; "badging"; apk_path]].
Proof.
  intros Ha Hout Hs Hb Hl.
  assert (Ht : truthy (CStr (strip stdout)) = true).
  { apply ProfileFacts.splitlines_nonempty. rewrite Hs. by destruct before. }
  unfold get_package_name_from_apk.
  unfold mbind at 1, M_bind at 1, get_aapt_available at 1.
  rewrite Ha. simpl.
  unfold mbind at 1, M_bind at 1, logging at 1, emit at 1.
  unfold try_except_Exception.
  match goal with |- context [(run_command O ?c true ?b ?t ≫= _) ?w0] =>
    destruct (run_command_completed c b t stdout stderr w0 Hout)
      as (w1 & E1 & Q1) end.
  rewrite (bind_ok _ _ _ _ _ E1). apply quiet_step_log_l in Q1. clear E1.
  rewrite Ht, Hs.
  destruct (quoted_name line) as [name|e] eqn:Hq.
  - destruct (scan_badging_first apk_path before line rest name w1 Hb Hl Hq)
      as (w2 & E2 & Q2).
    unfold mbind at 1, M_bind at 1. rewrite E2. simpl.
    eexists. split; [done|].
    pose proof (quiet_step_trans _ _ _ _ _ Q1 Q2) as Q12.
    by rewrite app_nil_r in Q12.
  - assert (E2 : scan_badging apk_path (before ++ line :: rest) w1
                 = (Raise IndexError, w1)).
    { clear -Hb Hl Hq. induction Hb as [|l before Hn _ IH]; simpl.
      - rewrite Hl, Hq. by apply quoted_name_raises in Hq as ->.
      - by rewrite Hn. }
    unfold mbind at 1, M_bind at 1. rewrite E2. simpl. run_monad.
    eexists. split; [done|]. by apply quiet_step_log_r.
Qed.

(** X12. When the first marker line of the [aapt] output is
    [package: name='pkg' ...], [get_package_name_from_apk] returns [pkg]. *)
Theorem get_package_name_from_apk_reads
    apk_path w stdout stderr before pkg tail rest :
  aapt_available w = true →
  (∀ h, subprocess_run O h [AAPT_PATH; "dump"; "badging"; apk_path]
        = Completed stdout stderr) →
  splitlines (strip stdout)
    = before ++ ("package: name='" +:+ pkg +:+ String "'" tail) :: rest →
  Forall no_package_marker before →
  clean_name pkg →
  ∃ w', get_package_name_from_apk O apk_path w = (Ok (Some pkg), w')
        ∧ quiet_step w w' [[AAPT_PATH; "dump"; "badging"; apk_path]].
Proof.
  intros Ha Hout Hs Hb Hc.
  destruct (get_package_name_first_line apk_path w stdout stderr before
              _ rest Ha Hout Hs Hb eq_refl) as (w' & E & Q).
  rewrite (quoted_name_package pkg tail Hc) in E. eauto.
Qed.

(** X13. When the first marker line carries no quoted name, the [IndexError] is
    caught and [get_package_name_from_apk] returns [None]; later lines are
    not looked at. *)
Theorem get_package_name_from_apk_unquoted
    apk_path w stdout stderr before line rest :
  aapt_available w = true →
  (∀ h, subprocess_run O h [AAPT_PATH; "dump"; "badging"; apk_path]
        = Completed stdout stderr) →
  splitlines (strip stdout) = before ++ line :: rest →
  Forall no_package_marker before →
  contains "package: name=" line = true →
  contains "name='" line = false →
  ∃ w', get_package_name_from_apk O apk_path w = (Ok None, w')
        ∧ quiet_step w w' [[AAPT_PATH; "dump"; "badging"; apk_path]].
Proof.
  intros Ha Hout Hs Hb Hl Hq.
  destruct (get_package_name_first_line apk_path w stdout stderr before
              line rest Ha Hout Hs Hb Hl) as (w' & E & Q).
  assert (quoted_name line = Raise IndexError) as Hr.
  { unfold quoted_name. by rewrite (cut_none _ _ Hq). }
  rewrite Hr in E. eauto.
Qed.
End Badging.

Section Aapt.
Variable O : oracle.
Hypothesis present : binaries_present O.

(** X10. With the binaries present, [check_aapt_availability] runs
    [aapt version] once, returns the flag it has just stored, and stores
    [True] exactly when the command succeeded and printed something other
    than white space. *)
Theorem check_aapt_availability_flag w :
  ∃ b w', check_aapt_availability O w = (Ok b, w')
    ∧ aapt_available w' = b
    ∧ fs w' = fs w
    ∧ commands (trace w') = commands (trace w) ++ [[AAPT_PATH; "version"]]
    ∧ transfers (trace w') = transfers (trace w)
    ∧ prompts (trace w') = prompts (trace w)
    ∧ (b = true ↔
       ∃ stdout stderr,
         subprocess_run O
           (trace w ++ [Log INFO "
--- Checking AAPT Availability ---";
                        Log INFO "Executing AAPT command: aapt version"])
           [AAPT_PATH; "version"] = Completed stdout stderr
         ∧ truthy (CStr (strip stdout)) = true).
Proof.
  unfold check_aapt_availability, run_command. run_monad.
  destruct_proc present; rewrite <-app_assoc in E.
  - destruct (nonempty out), (nonempty err); simpl;
      destruct (strip out) as [|c r] eqn:Es; simpl;
      (eexists _, _; split; [done|]; simpl;
       split; [done|]; split; [done|]; split; [trace_facts|];
       split; [trace_facts|]; split; [trace_facts|];
       split;
       [first [discriminate
              |intros _; eexists _, _; split; [exact E | by rewrite Es]]
       |first [done
              |intros (so & se & H1 & H2);
               pose proof (eq_trans (eq_sym E) H1) as [= <- <-];
               by rewrite Es in H2]]).
  - destruct (nonempty out), (nonempty err); simpl;
      (eexists _, _; split; [done|]; simpl;
       split; [done|]; split; [done|]; split; [trace_facts|];
       split; [trace_facts|]; split; [trace_facts|];
       split; [discriminate
              |intros (so & se & H1 & H2);
               by pose proof (eq_trans (eq_sym E) H1) as [=]]).
Qed.
End Aapt.

(** ** The cache never shrinks *)

Lemma keeps_refl m : keeps m m.
Proof. by intros p n. Qed.

Lemma keeps_trans m1 m2 m3 : keeps m1 m2 → keeps m2 m3 → keeps m1 m3.
Proof. intros H1 H2 p n H. by apply H2, H1. Qed.

Lemma keeps_insert m p n : m !! p = None → keeps m (<[p := n]> m).
Proof.
  intros Hp q n' Hq. rewrite lookup_insert_ne; [done|]. congruence.
Qed.

Section KeepsGeneric.
Context {A B : Type}.

Lemma keeps_files_same (m : M A) :
  (∀ w, fs (m w).2 = fs w) → keeps_files m.
Proof. intros H w. rewrite H. apply keeps_refl. Qed.

Lemma keeps_files_ret (a : A) : keeps_files (mret a : M A).
Proof. by apply keeps_files_same. Qed.

Lemma keeps_files_bind (m : M A) (k : A → M B) :
  keeps_files m → (∀ a, keeps_files (k a)) → keeps_files (m ≫= k).
Proof.
  intros Hm Hk w. specialize (Hm w). unfold mbind, M_bind.
  destruct (m w) as [[a|e] w1]; simpl in *; [|done].
  eapply keeps_trans; [exact Hm | apply Hk].
Qed.

Lemma keeps_files_try (m : M A) (h : pyexn → M A) :
  keeps_files m → (∀ e, keeps_files (h e)) →
  keeps_files (try_except_Exception m h).
Proof.
  intros Hm Hh w. specialize (Hm w). unfold try_except_Exception.
  destruct (m w) as [[a|e] w1]; simpl in *; [done|].
  destruct (is_Exception e); [|done].
  eapply keeps_trans; [exact Hm | apply Hh].
Qed.

Lemma keeps_state_ret (a : A) : keeps_state (mret a : M A).
Proof. done. Qed.

Lemma keeps_state_bind (m : M A) (k : A → M B) :
  keeps_state m → (∀ a, keeps_state (k a)) → keeps_state (m ≫= k).
Proof.
  intros Hm Hk w. specialize (Hm w). unfold mbind, M_bind.
  destruct (m w) as [[a|e] w1]; simpl in *; [|done].
  destruct (Hk a w1) as [F S]. destruct Hm as [F' S']. split; congruence.
Qed.

Lemma keeps_state_try (m : M A) (h : pyexn → M A) :
  keeps_state m → (∀ e, keeps_state (h e)) →
  keeps_state (try_except_Exception m h).
Proof.
  intros Hm Hh w. specialize (Hm w). unfold try_except_Exception.
  destruct (m w) as [[a|e] w1]; simpl in *; [done|].
  destruct (is_Exception e); [|done].
  destruct (Hh e w1) as [F S]. destruct Hm as [F' S']. split; congruence.
Qed.

Lemma keeps_state_files (m : M A) : keeps_state m → keeps_files m.
Proof. intros H. apply keeps_files_same. intros w. apply H. Qed.
End KeepsGeneric.

Ltac ks_step :=
  lazymatch goal with
  | |- keeps_state (mret _) => apply keeps_state_ret
  | |- keeps_state (raise _) => done
  | |- keeps_state (_ ≫= _) => apply keeps_state_bind; [|intros ?]
  | |- keeps_state (try_except_Exception _ _) =>
      apply keeps_state_try; [|intros ?]
  | |- keeps_state (logging _ _) => done
  | |- keeps_state (print_step _) => done
  | |- keeps_state (when ?b _) => destruct b; simpl
  | |- keeps_state (path_exists _) => done
  | |- keeps_state get_aapt_available => done
  | |- keeps_state (subprocess _ _) => done
  | |- keeps_state (http_get _ _) => done
  | |- keeps_state (input _ _) => done
  | |- keeps_state (if ?b then _ else _) => destruct b
  | |- keeps_state (match ?x with _ => _ end) => destruct x
  end.

Ltac kf_step :=
  lazymatch goal with
  | |- keeps_files (mret _) => apply keeps_files_ret
  | |- keeps_files (raise _) => by apply keeps_files_same
  | |- keeps_files (_ ≫= _) => apply keeps_files_bind; [|intros ?]
  | |- keeps_files (try_except_Exception _ _) =>
      apply keeps_files_try; [|intros ?]
  | |- keeps_files (logging _ _) => by apply keeps_files_same
  | |- keeps_files (print_step _) => by apply keeps_files_same
  | |- keeps_files (when ?b _) => destruct b; simpl
  | |- keeps_files (path_exists _) => by apply keeps_files_same
  | |- keeps_files get_aapt_available => by apply keeps_files_same
  | |- keeps_files (set_aapt_available _) => by apply keeps_files_same
  | |- keeps_files (subprocess _ _) => by apply keeps_files_same
  | |- keeps_files (http_get _ _) => by apply keeps_files_same
  | |- keeps_files (input _ _) => by apply keeps_files_same
  | |- keeps_files (if ?b then _ else _) => destruct b
  | |- keeps_files (match ?x with _ => _ end) => destruct x
  end.

Section KeepsState.
Variable O : oracle.

Lemma keeps_state_run_command command check_output suppress_error tool_name :
  keeps_state (run_command O command check_output suppress_error tool_name).
Proof. unfold run_command. repeat ks_step. Qed.

Lemma keeps_state_scan_badging apk_path lines :
  keeps_state (scan_badging apk_path lines).
Proof. induction lines as [|line rest IH]; simpl; repeat ks_step. exact IH. Qed.

Lemma keeps_state_get_package_name_from_apk apk_path :
  keeps_state (get_package_name_from_apk O apk_path).
Proof.
  unfold get_package_name_from_apk. repeat ks_step.
  all: first [ apply keeps_state_run_command | apply keeps_state_scan_badging ].
Qed.

Lemma keeps_state_push_and_install_apk local_path :
  keeps_state (push_and_install_apk O local_path).
Proof.
  unfold push_and_install_apk. repeat ks_step.
  all: apply keeps_state_run_command.
Qed.

Lemma keeps_state_set_default_launcher package_name :
  keeps_state (set_default_launcher O package_name).
Proof.
  unfold set_default_launcher. repeat ks_step.
  all: apply keeps_state_run_command.
Qed.

Lemma keeps_state_set_wallpaper local_image_path :
  keeps_state (set_wallpaper O local_image_path).
Proof.
  unfold set_wallpaper. repeat ks_step.
  all: apply keeps_state_run_command.
Qed.

Lemma keeps_state_for_each {A} (l : list A) (body : A → M unit) :
  (∀ x, keeps_state (body x)) → keeps_state (for_each l body).
Proof.
  intros H. induction l as [|x r IH]; simpl; [done|].
  apply keeps_state_bind; [apply H | intros _; exact IH].
Qed.

Lemma keeps_files_for_each {A} (l : list A) (body : A → M unit) :
  (∀ x, keeps_files (body x)) → keeps_files (for_each l body).
Proof.
  intros H. induction l as [|x r IH]; simpl; [apply keeps_files_ret|].
  apply keeps_files_bind; [apply H | intros _; exact IH].
Qed.

Lemma keeps_files_for_fold {A S} (l : list A) (s : S) (body : A → S → M S) :
  (∀ x s', keeps_files (body x s')) → keeps_files (for_fold l s body).
Proof.
  intros H. revert s. induction l as [|x r IH]; intros s; simpl;
    [apply keeps_files_ret|].
  apply keeps_files_bind; [apply H | intros s'; apply IH].
Qed.

Lemma keeps_write_chunks p chunks w :
  ∀ q, q ≠ p → fs (write_chunks p chunks w).2 !! q = fs w !! q.
Proof.
  revert w. induction chunks as [|c r IH]; intros w q Hq; simpl; [done|].
  unfold mbind, M_bind, write at 1. simpl.
  rewrite IH by done. simpl. by rewrite lookup_insert_ne.
Qed.

End KeepsState.

(** ** The command runner *)

Section Runner.
Variable O : oracle.

(** X5. [run_command] issues exactly its command and touches nothing else.  Its
    result follows the sub-process: the stripped output, or [True] without
    capture, when it succeeds; [False] when it exits with an error;
    [SystemExit(1)] when the executable is missing. *)
Theorem run_command_outcomes command check_output suppress_error tool_name w :
  ∃ r w',
    run_command O command check_output suppress_error tool_name w = (r, w')
    ∧ quiet_step w w' [command]
    ∧ r = match subprocess_run O
                  (trace w ++ [Log INFO ("Executing " +:+ tool_name
                                         +:+ " command: "
                                         +:+ PyText.join " " command)])
                  command with
          | Completed stdout _ =>
              Ok (if check_output then CStr (strip stdout) else CBool true)
          | CalledProcessError _ _ _ => Ok (CBool false)
          | FileNotFoundError => Raise (SystemExit 1)
          end.
Proof.
  unfold run_command. run_monad.
  destruct (subprocess_run O _ command) as [so se|msg so se|]; simpl.
  - destruct check_output; simpl.
    + destruct (nonempty so), (nonempty se), suppress_error; simpl;
        (eexists _, _; split; [done|]; split; [quiet | done]).
    + eexists _, _; split; [done|]; split; [quiet | done].
  - destruct check_output; simpl.
    + destruct (nonempty so), (nonempty se); simpl;
        (eexists _, _; split; [done|]; split; [quiet | done]).
    + eexists _, _; split; [done|]; split; [quiet | done].
  - destruct (bool_decide _); simpl;
      (eexists _, _; split; [done|]; split; [quiet | done]).
Qed.
End Runner.

Section CacheInvariant.
Variable O : oracle.

Lemma keeps_files_download_file url filename target_dir :
  keeps_files (download_file O url filename target_dir).
Proof.
  intros w p n Hp. unfold download_file. run_monad.
  assert (Hd : ∀ b, fs w !! target_dir = None →
               <[target_dir := b]> (fs w) !! p = Some n).
  { intros b Hn. by apply keeps_insert. }
  destruct (bool_decide (is_Some (fs w !! target_dir))) eqn:Ed; simpl.
  - destruct (bool_decide (is_Some (fs w !! path_join target_dir filename)))
      eqn:Ef; simpl; [done|].
    apply bool_decide_eq_false in Ef.
    assert (Hne : p ≠ path_join target_dir filename).
    { intros ->. apply Ef. by eexists. }
    destruct (requests_get O _ url) as [msg|msg|chunks broken]; simpl;
      [done | done |].
    match goal with |- context [write_chunks ?p0 ?c0 ?w0] =>
      pose proof (keeps_write_chunks p0 c0 w0 p Hne) as Hw;
      destruct (write_chunks_frame p0 c0 w0) as (m & Em);
      rewrite Em in Hw |- *; simpl in Hw end.
    rewrite lookup_insert_ne in Hw by done.
    destruct broken; simpl; congruence.
  - apply bool_decide_eq_false in Ed.
    assert (Hn : fs w !! target_dir = None).
    { destruct (fs w !! target_dir) eqn:E; [|done]. destruct Ed. by eexists. }
    specialize (Hd Dir Hn).
    destruct (bool_decide (is_Some (<[target_dir:=Dir]> (fs w)
                                     !! path_join target_dir filename))) eqn:Ef;
      simpl; [done|].
    apply bool_decide_eq_false in Ef.
    assert (Hne : p ≠ path_join target_dir filename).
    { intros ->. apply Ef. by eexists. }
    destruct (requests_get O _ url) as [msg|msg|chunks broken]; simpl;
      [done | done |].
    match goal with |- context [write_chunks ?p0 ?c0 ?w0] =>
      pose proof (keeps_write_chunks p0 c0 w0 p Hne) as Hw;
      destruct (write_chunks_frame p0 c0 w0) as (m & Em);
      rewrite Em in Hw |- *; simpl in Hw end.
    rewrite lookup_insert_ne in Hw by done.
    destruct broken; simpl; congruence.
Qed.

Lemma keeps_files_install_launcher chosen :
  keeps_files (install_launcher O chosen).
Proof.
  unfold install_launcher. repeat kf_step.
  all: first [ apply keeps_files_download_file
             | apply keeps_state_files;
               first [ apply keeps_state_get_package_name_from_apk
                     | apply keeps_state_run_command
                     | apply keeps_state_set_default_launcher
                     | apply keeps_state_push_and_install_apk ] ].
Qed.

Lemma keeps_files_install_component config item :
  keeps_files (install_component O config item).
Proof.
  destruct item as [apk [description optional]].
  unfold install_component. repeat kf_step.
  all: first [ apply keeps_files_download_file
             | apply keeps_state_files;
               first [ apply keeps_state_get_package_name_from_apk
                     | apply keeps_state_push_and_install_apk ] ].
Qed.

Lemma keeps_files_collect_package apk packages :
  keeps_files (collect_package O apk packages).
Proof.
  unfold collect_package. repeat kf_step.
  all: first [ apply keeps_files_download_file
             | apply keeps_state_files,
                 keeps_state_get_package_name_from_apk ].
Qed.

Lemma keeps_state_uninstall_package package :
  keeps_state (uninstall_package O package).
Proof.
  unfold uninstall_package. repeat ks_step.
  all: apply keeps_state_run_command.
Qed.

Lemma keeps_state_check_adb_connection depth :
  keeps_state (check_adb_connection O depth).
Proof.
  induction depth as [|d IH]; simpl; [done|].
  repeat ks_step.
  all: first [ apply keeps_state_run_command | exact IH ].
Qed.

(** X17. No run of the installation, of the uninstallation, of
    [setup_temp_dir] or of [download_file] removes or alters an entry that
    is already in the file system: [open(..., 'wb')] is only reached for a
    path that does not exist. *)
Theorem cache_never_shrinks :
  (∀ action chosen config,
     keeps_files (install_liteageos_components O action chosen config))
  ∧ keeps_files (wipe_liteageos_components O)
  ∧ keeps_files setup_temp_dir
  ∧ (∀ url filename target_dir,
       keeps_files (download_file O url filename target_dir)).
Proof.
  split; [|split; [|split]].
  - intros action chosen config.
    unfold install_liteageos_components, install_applications,
      install_wallpaper.
    repeat kf_step.
    all: first [ apply keeps_files_install_launcher
               | apply keeps_files_for_each, keeps_files_install_component
               | apply keeps_files_download_file
               | apply keeps_state_files, keeps_state_set_wallpaper ].
  - unfold wipe_liteageos_components, collect_packages. repeat kf_step.
    + apply keeps_files_for_fold. intros. apply keeps_files_collect_package.
    + apply keeps_state_files, keeps_state_for_each.
      apply keeps_state_uninstall_package.
  - unfold setup_temp_dir. intros w. run_monad.
    destruct (bool_decide _) eqn:E; simpl; [apply keeps_refl|].
    apply keeps_insert. apply bool_decide_eq_false in E.
    destruct (fs w !! TEMP_DIR) eqn:E'; [|done]. destruct E. by eexists.
  - apply keeps_files_download_file.
Qed.
End CacheInvariant.

(** ** What the two procedures may do to the device *)

Lemma footprint_from_only {A} (φ : event → Prop) l (m : M A) :
  (∀ lvl msg, φ (Log lvl msg)) → Forall φ l →
  footprint (only l) m → footprint φ m.
Proof.
  intros Hlog Hl. apply footprint_weaken. intros e [He | He].
  - destruct e; first [done | apply Hlog].
  - by apply (proj1 (Forall_forall φ l) Hl).
Qed.

Ltac fp_weak lem :=
  eapply footprint_from_only; [done | | apply lem];
  repeat (apply Forall_cons; split; [try done|]); try by apply Forall_nil.

Section Device.
Variable O : oracle.

Lemma footprint_set_default_launcher name :
  footprint (only [Run (launcher_set_home name)])
    (set_default_launcher O (Some name)).
Proof.
  unfold set_default_launcher, launcher_set_home. repeat fp_step.
  all: fp_call footprint_run_command.
Qed.

Lemma footprint_set_wallpaper local_image_path :
  let remote := "/sdcard/Download/" +:+ basename local_image_path in
  footprint
    (only [Run [ADB_PATH; "push"; local_image_path; remote];
           Run [ADB_PATH; "shell"; "cmd"; "wallpaper"; "set"; remote]])
    (set_wallpaper O local_image_path).
Proof.
  intros remote. unfold set_wallpaper. fold remote. repeat fp_step.
  all: fp_call footprint_run_command.
Qed.

Lemma footprint_install_launcher_tail path name :
  let remote := path_join "/data/local/tmp/" (basename path) in
  footprint
    (only [Run (launcher_query name); Input launcher_prompt;
           Run (launcher_set_home name);
           Run [ADB_PATH; "push"; path; remote];
           Run [ADB_PATH; "shell"; "pm"; "install"; "-r"; remote]])
    (is_installed_on_device ←
       run_command O (launcher_query name) true true "ADB" ;
     present ← (if truthy is_installed_on_device then
                  match is_installed_on_device with
                  | CStr s => mret (PyText.contains "package:" s)
                  | CBool _ => raise TypeError
                  end
                else mret false) ;
     if (present : bool) then
       logging INFO ("
Detected already installed launcher with package name '" +:+ name +:+ "'.") ;;
       answer ← input O launcher_prompt ;
       let make_default := PyText.lower answer in
       if bool_decide (make_default = "y") then
         set_default_launcher O (Some name) ;; mret ()
       else
         logging INFO
           "Skipping setting default launcher as it's already installed and you chose not to make it primary."
     else
       logging INFO ("Launcher '" +:+ name
         +:+ "' not found on device. Proceeding with installation.") ;;
       installed ← push_and_install_apk O path ;
       if (installed : bool) then
         logging INFO
           "Launcher installed. Now attempting to set it as the default launcher." ;;
         set_default_launcher O (Some name) ;; mret ()
       else
         logging ERROR
           "Failed to install launcher. Check messages above. It might be a split-APK requiring full build, or a signature conflict." ;;
         logging INFO
           "Try to find a 'universal' APK for this launcher or install it manually.").
Proof.
  intros remote. repeat first [fp_step | progress cbv zeta].
  all: first [ fp_call footprint_run_command
             | fp_call footprint_set_default_launcher
             | fp_call footprint_push_and_install_apk ].
Qed.

Lemma footprint_install_launcher chosen :
  footprint install_event (install_launcher O chosen).
Proof.
  unfold install_launcher.
  apply footprint_bind; [by apply footprint_emit | intros _].
  destruct chosen as [apk|]; [|apply footprint_raise].
  apply footprint_bind; [fp_weak footprint_download_file | intros [path|]].
  - destruct (nonempty path).
    + apply footprint_bind;
        [fp_weak footprint_get_package_name_from_apk | intros [name|]].
      * unfold str_truthy. destruct (nonempty name) eqn:En.
        -- fp_weak (footprint_install_launcher_tail path name).
        -- apply footprint_bind; intros; by apply footprint_emit.
      * apply footprint_bind; intros; by apply footprint_emit.
    + apply footprint_bind; intros; by apply footprint_emit.
  - apply footprint_bind; intros; by apply footprint_emit.
Qed.

Lemma install_event_uninstall e : install_event e → uninstall_target e = None.
Proof. by destruct e. Qed.

Lemma footprint_install_component_event config item :
  footprint install_event (install_component O config item).
Proof.
  destruct item as [apk [description optional]].
  fp_weak (footprint_install_component O config apk description optional).
Qed.

(** X18. An installation run never issues an uninstall command, and the only
    question it asks is the one about a launcher already installed. *)
Theorem install_never_uninstalls action chosen config :
  footprint install_event
    (install_liteageos_components O action chosen config)
  ∧ ∀ w, uninstalls
           (trace (install_liteageos_components O action chosen config w).2)
         = uninstalls (trace w).
Proof.
  assert (F : footprint install_event
                (install_liteageos_components O action chosen config)).
  { unfold install_liteageos_components, install_applications,
      install_wallpaper.
    apply footprint_bind; [by apply footprint_emit | intros _].
    apply footprint_bind; [|intros _].
    { destruct action; [apply footprint_install_launcher
                       | by apply footprint_emit]. }
    apply footprint_bind; [|intros _].
    { apply footprint_bind; [by apply footprint_emit | intros _].
      apply footprint_for_each. intros item _.
      apply footprint_install_component_event. }
    apply footprint_bind; [|intros _].
    { apply footprint_bind; [by apply footprint_emit | intros _].
      apply footprint_bind; [fp_weak footprint_download_file | intros p].
      destruct (str_truthy p); [|by apply footprint_emit].
      apply footprint_bind; [|intros _; apply footprint_ret].
      fp_weak footprint_set_wallpaper. }
    apply footprint_bind; intros; by apply footprint_emit. }
  split; [exact F|]. intros w. apply extends_uninstalls.
  eapply extends_weaken; [apply install_event_uninstall | apply F].
Qed.

Lemma footprint_collect_package_event apk packages :
  apk ∈ LINEAGEOS_COMPONENTS.*1 →
  footprint wipe_event (collect_package O apk packages).
Proof.
  intros Hin. fp_weak (footprint_collect_package O apk packages).
  - by exists apk.
  - left. by exists apk.
Qed.

Lemma footprint_uninstall_package package :
  footprint wipe_event (uninstall_package O package).
Proof.
  eapply (footprint_from_only _ [Run (uninstall_command package)]);
    [done | |].
  - apply Forall_cons. split; [|by apply Forall_nil]. right. by exists package.
  - unfold uninstall_package. repeat fp_step.
    all: fp_call footprint_run_command.
Qed.

(** X19. An uninstallation run only asks its confirmation, transfers and
    identifies components of [LINEAGEOS_COMPONENTS], and runs uninstall
    commands: it never pushes, installs or sets anything. *)
Theorem wipe_only_identifies_and_uninstalls :
  footprint wipe_event (wipe_liteageos_components O).
Proof.
  unfold wipe_liteageos_components, collect_packages.
  apply footprint_bind; [by apply footprint_emit | intros _].
  apply footprint_bind; [by apply footprint_emit | intros answer].
  cbv zeta. destruct (negb _); [by apply footprint_emit|].
  apply footprint_bind; [|intros packages].
  { apply footprint_bind; [|intros ?; apply footprint_ret].
    apply footprint_for_fold. intros apk s' Hin.
    by apply footprint_collect_package_event. }
  apply footprint_bind; [by apply footprint_emit | intros _].
  apply footprint_bind; [|intros _; by apply footprint_emit].
  apply footprint_for_each. intros package _.
  apply footprint_uninstall_package.
Qed.
End Device.

Lemma returns_bind_post {A B} (P : A → Prop) (m : M A) (k : A → M B) :
  returns m → post m P → (∀ a, P a → returns (k a)) → returns (m ≫= k).
Proof.
  intros Hm HP Hk w. destruct (Hm w) as [a Ha]. specialize (HP w a Ha).
  unfold mbind, M_bind.
  destruct (m w) as [[a'|e] w1]; simpl in *; [|done].
  simplify_eq. by apply Hk.
Qed.

Lemma run_command_captured (O : oracle) command suppress_error tool_name :
  post (run_command O command true suppress_error tool_name)
    (λ v, v = CBool false ∨ ∃ s, v = CStr s).
Proof.
  intros w v. unfold run_command. run_monad.
  destruct (subprocess_run O _ command) as [so se|msg so se|]; simpl.
  - destruct (nonempty so), (nonempty se), suppress_error; simpl;
      intros [= <-]; eauto.
  - destruct (nonempty so), (nonempty se); simpl; intros [= <-]; eauto.
  - destruct (bool_decide _); simpl; discriminate.
Qed.

Section InstallOutcome.
Variable O : oracle.
Hypothesis present : binaries_present O.

Lemma returns_install_launcher apk : returns (install_launcher O (Some apk)).
Proof.
  unfold install_launcher.
  do 2 (apply returns_bind; [first [apply returns_logging
                                   | by apply returns_download_file]
                            | intros ?]).
  match goal with |- returns (match ?x with _ => _ end) =>
    destruct x as [path|] end; [|repeat rt_step].
  destruct (nonempty path); [|repeat rt_step].
  apply returns_bind;
    [by apply returns_get_package_name_from_apk | intros name].
  destruct (str_truthy name); [|repeat rt_step].
  apply (returns_bind_post _ _ _ (returns_run_command O present _ _ _ _)
           (run_command_captured O _ _ _)).
  intros v [-> | [s ->]]; cbn [truthy]; cbv iota beta;
    repeat first [rt_step | progress cbv zeta].
  all: first [ by apply returns_set_default_launcher
             | by apply returns_push_and_install_apk ].
Qed.

Lemma returns_install_tail config :
  returns (install_applications O config ;;
           install_wallpaper O ;;
           logging INFO "
--- LiteageOS Installation Complete! ---" ;;
           logging INFO
             "Please check your phone. Additional manual launcher setup might be required.").
Proof.
  unfold install_applications, install_wallpaper.
  repeat rt_step.
  all: first [ apply returns_for_each; intros; by apply returns_install_component
             | by apply returns_download_file
             | by apply returns_set_wallpaper ].
Qed.

(** X20. With the binaries present, [install_liteageos_components] returns
    normally whatever the device and the server answer, except when the
    launcher is requested without a launcher name: then it raises
    [TypeError] before any command or transfer. *)
Theorem install_liteageos_components_outcome action chosen config w :
  match action, chosen with
  | true, None =>
      ∃ w', install_liteageos_components O action chosen config w
            = (Raise TypeError, w')
            ∧ quiet_step w w' []
  | _, _ =>
      ∃ w', install_liteageos_components O action chosen config w
            = (Ok (), w')
  end.
Proof.
  assert (G : ∀ m : M unit, returns m →
            ∃ w', (print_step "Installing Launcher" ;; m ;;
                   install_applications O config ;;
                   install_wallpaper O ;;
                   logging INFO "
--- LiteageOS Installation Complete! ---" ;;
                   logging INFO
                     "Please check your phone. Additional manual launcher setup might be required.") w
                  = (Ok (), w')).
  { intros m Hm.
    assert (R : returns (print_step "Installing Launcher" ;; m ;;
                   install_applications O config ;;
                   install_wallpaper O ;;
                   logging INFO "
--- LiteageOS Installation Complete! ---" ;;
                   logging INFO
                     "Please check your phone. Additional manual launcher setup might be required.")).
    { apply returns_bind; [apply returns_logging | intros _].
      apply returns_bind; [exact Hm | intros _].
      apply returns_install_tail. }
    destruct (R w) as [[] E].
    match type of E with (?x).1 = _ => destruct x as [r w'] end.
    simpl in E. subst r. by exists w'. }
  destruct action, chosen as [apk|].
  - apply G, returns_install_launcher.
  - unfold install_liteageos_components, install_launcher. run_monad.
    eexists. split; [done | quiet].
  - apply G, returns_logging.
  - apply G, returns_logging.
Qed.
End InstallOutcome.

Lemma device_step_quiet w w' d : quiet_step w w' d → device_step w w' d 0.
Proof.
  intros (F & A & C & T & P). unfold device_step.
  rewrite A, C, T, P. repeat split; lia.
Qed.

Lemma device_step_trans w1 w2 w3 d1 d2 n1 n2 :
  device_step w1 w2 d1 n1 → device_step w2 w3 d2 n2 →
  device_step w1 w3 (d1 ++ d2) (n1 + n2).
Proof.
  intros (A1 & C1 & T1 & P1) (A2 & C2 & T2 & P2). unfold device_step.
  rewrite A2, C2, T2, P2, C1, A1, T1, P1, app_assoc. repeat split; lia.
Qed.

Ltac device := unfold device_step; trace_facts.

Section Launcher.
Variable O : oracle.
Hypothesis present : binaries_present O.

Lemma download_file_cached_step url filename target_dir w :
  is_Some (fs w !! path_join target_dir filename) →
  ∃ w', download_file O url filename target_dir w
        = (Ok (Some (path_join target_dir filename)), w')
        ∧ device_step w w' [] 0.
Proof.
  intros Hp. unfold download_file. run_monad.
  destruct (bool_decide (is_Some (fs w !! target_dir))) eqn:Ed; simpl.
  - rewrite bool_decide_true by done. simpl. eexists. split; [done | device].
  - assert (target_dir ≠ path_join target_dir filename).
    { intros Heq. rewrite <-Heq in Hp. by apply bool_decide_eq_false in Ed. }
    rewrite lookup_insert_ne by done. rewrite bool_decide_true by done.
    simpl. eexists. split; [done | device].
Qed.

Lemma run_command_accepted command suppress_error tool_name w :
  (∀ h, accepted (subprocess_run O h command) = true) →
  ∃ w', run_command O command false suppress_error tool_name w
        = (Ok (CBool true), w')
        ∧ quiet_step w w' [command].
Proof.
  intros H. unfold run_command. run_monad.
  match goal with |- context [subprocess_run O ?h command] =>
    specialize (H h); destruct (subprocess_run O h command) end;
    try discriminate H.
  simpl. eexists. split; [done | quiet].
Qed.

Lemma run_command_query name w :
  ∃ v w', run_command O (launcher_query name) true true "ADB" w = (Ok v, w')
    ∧ quiet_step w w' [launcher_query name]
    ∧ ∃ h, (if truthy v
            then match v with
                 | CStr s => mret (contains "package:" s)
                 | CBool _ => raise TypeError
                 end
            else mret false)
           = (mret (launcher_found
                      (subprocess_run O h (launcher_query name))) : M bool).
Proof.
  unfold run_command. run_monad. destruct_proc present.
  - destruct (nonempty out), (nonempty err); simpl;
      (eexists _, _; split; [done|]; split; [quiet|];
       eexists; rewrite E; simpl;
       destruct (strip out) eqn:Es; [done|]; by rewrite <-Es).
  - destruct (nonempty out), (nonempty err); simpl;
      (eexists _, _; split; [done|]; split; [quiet|];
       eexists; by rewrite E).
Qed.

Lemma push_and_install_apk_accepted local_path w :
  let remote := "/data/local/tmp/" +:+ basename local_path in
  (∀ h, accepted (subprocess_run O h [ADB_PATH; "push"; local_path; remote])
        = true) →
  (∀ h, accepted (subprocess_run O h
                    [ADB_PATH; "shell"; "pm"; "install"; "-r"; remote])
        = true) →
  ∃ w', push_and_install_apk O local_path w = (Ok true, w')
        ∧ quiet_step w w'
            [[ADB_PATH; "push"; local_path; remote];
             [ADB_PATH; "shell"; "pm"; "install"; "-r"; remote]].
Proof.
  intros remote Hpush Hinst. unfold push_and_install_apk.
  rewrite remote_path. fold remote. cbv zeta.
  unfold mbind at 1, M_bind at 1, logging at 1, emit at 1.
  match goal with |- context [(run_command O ?c false ?b ?t ≫= _) ?w0] =>
    destruct (run_command_accepted c b t w0 Hpush) as (w1 & E1 & Q1) end.
  rewrite (bind_ok _ _ _ _ _ E1). apply quiet_step_log_l in Q1. clear E1.
  cbn [truthy negb].
  unfold mbind at 1, M_bind at 1, logging at 1, emit at 1.
  match goal with |- context [(run_command O ?c false ?b ?t ≫= _) ?w0] =>
    destruct (run_command_accepted c b t w0 Hinst) as (w2 & E2 & Q2) end.
  rewrite (bind_ok _ _ _ _ _ E2). apply quiet_step_log_l in Q2. clear E2.
  cbn [truthy negb]. run_monad. eexists. split; [done|].
  apply quiet_step_log_r. apply (quiet_step_trans _ _ _ _ _ Q1 Q2).
Qed.

Lemma set_default_launcher_named name w :
  nonempty name = true →
  ∃ b w', set_default_launcher O (Some name) w = (Ok b, w')
          ∧ quiet_step w w' [launcher_set_home name].
Proof.
  intros Hn. unfold set_default_launcher, launcher_set_home. rewrite Hn.
  unfold run_command. run_monad. destruct_proc present.
  - eexists _, _. split; [done | quiet].
  - eexists _, _. split; [done | quiet].
Qed.

Section Identified.
Variables (apk stdout stderr pkg tail : string) (before rest : list string).
Hypothesis identify :
  ∀ h, subprocess_run O h (launcher_identify apk) = Completed stdout stderr.
Hypothesis badging :
  splitlines (strip stdout)
  = before ++ ("package: name='" +:+ pkg +:+ String "'" tail) :: rest.
Hypothesis first : Forall no_package_marker before.
Hypothesis clean : clean_name pkg.
Hypothesis named : pkg ≠ EmptyString.

(** X21. Launcher path, launcher not on the device: with the asset cached and
    identified as [pkg], and the push and the installation accepted, the
    commands are, in order, identify, query, push, install, set as home;
    there is no transfer and no question. *)
Theorem install_launcher_fresh w :
  aapt_available w = true →
  is_Some (fs w !! path_join TEMP_DIR apk) →
  (∀ h, launcher_absent (subprocess_run O h (launcher_query pkg)) = true) →
  (∀ h, accepted (subprocess_run O h (launcher_push apk)) = true) →
  (∀ h, accepted (subprocess_run O h (launcher_install apk)) = true) →
  ∃ w', install_launcher O (Some apk) w = (Ok (), w')
        ∧ device_step w w'
            [launcher_identify apk; launcher_query pkg; launcher_push apk;
             launcher_install apk; launcher_set_home pkg] 0.
Proof.
  intros Ha Hc Habs Hpush Hinst.
  unfold install_launcher.
  unfold mbind at 1, M_bind at 1, logging at 1, emit at 1. cbv zeta.
  match goal with |- context [(download_file O ?u ?f ?d ≫= _) ?w0] =>
    destruct (download_file_cached_step u f d w0 Hc) as (w1 & E1 & D1) end.
  rewrite (bind_ok _ _ _ _ _ E1). clear E1.
  rewrite nonempty_cache_path.
  destruct (get_package_name_first_line O (path_join TEMP_DIR apk) w1
              stdout stderr before
              ("package: name='" +:+ pkg +:+ String "'" tail) rest)
    as (w2 & E2 & Q2);
    [destruct D1 as [-> _]; exact Ha | exact identify | exact badging
    | exact first | reflexivity |].
  rewrite (quoted_name_package pkg tail clean) in E2.
  rewrite (bind_ok _ _ _ _ _ E2). clear E2.
  assert (Hn : nonempty pkg = true) by (by destruct pkg).
  cbn [str_truthy default from_option id]. rewrite Hn.
  destruct (run_command_query pkg w2) as (v & w3 & E3 & Q3 & h & Hv).
  rewrite (bind_ok _ _ _ _ _ E3). clear E3. rewrite Hv.
  assert (launcher_found (subprocess_run O h (launcher_query pkg)) = false)
    as ->.
  { specialize (Habs h).
    destruct (subprocess_run O h (launcher_query pkg)); simpl in *;
      [by apply negb_true_iff in Habs | done | done]. }
  unfold mbind at 1, M_bind at 1, mret at 1, M_ret at 1.
  unfold mbind at 1, M_bind at 1, logging at 1, emit at 1.
  match goal with |- context [(push_and_install_apk O ?p ≫= _) ?w0] =>
    destruct (push_and_install_apk_accepted p w0 Hpush Hinst)
      as (w4 & E4 & Q4) end.
  rewrite (bind_ok _ _ _ _ _ E4). clear E4.
  unfold mbind at 1, M_bind at 1, logging at 1, emit at 1.
  match goal with |- context [(set_default_launcher O ?n ≫= _) ?w0] =>
    destruct (set_default_launcher_named pkg w0 Hn) as (b & w5 & E5 & Q5)
  end.
  rewrite (bind_ok _ _ _ _ _ E5). clear E5.
  exists w5. split; [done|].
  apply quiet_step_log_l in Q4, Q5.
  pose proof (quiet_step_trans _ _ _ _ _ Q2
                (quiet_step_trans _ _ _ _ _ Q3
                   (quiet_step_trans _ _ _ _ _ Q4 Q5))) as Q.
  apply device_step_quiet in Q.
  assert (D0 : device_step w w1 [] 0).
  { destruct D1 as (A & C & T & P). simpl in *. unfold device_step.
    rewrite A, C, T, P, commands_app, transfers_app, prompts_app,
      prompts_cons, prompts_nil.
    simpl. rewrite !app_nil_r. repeat split; lia. }
  exact (device_step_trans _ _ _ _ _ _ _ D0 Q).
Qed.

(** X22. Launcher path, launcher already on the device: the user is asked once;
    the launcher is never pushed nor installed again, and it is set as
    home exactly when the answer is [y] or [Y]. *)
Theorem install_launcher_present answer w :
  aapt_available w = true →
  is_Some (fs w !! path_join TEMP_DIR apk) →
  (∀ h, launcher_found (subprocess_run O h (launcher_query pkg)) = true) →
  (∀ h, console_input O h launcher_prompt = answer) →
  ∃ w', install_launcher O (Some apk) w = (Ok (), w')
        ∧ device_step w w'
            ([launcher_identify apk; launcher_query pkg]
             ++ if bool_decide (lower answer = "y")
                then [launcher_set_home pkg] else [])
            1.
Proof.
  intros Ha Hc Hfound Hans.
  unfold install_launcher.
  unfold mbind at 1, M_bind at 1, logging at 1, emit at 1. cbv zeta.
  match goal with |- context [(download_file O ?u ?f ?d ≫= _) ?w0] =>
    destruct (download_file_cached_step u f d w0 Hc) as (w1 & E1 & D1) end.
  rewrite (bind_ok _ _ _ _ _ E1). clear E1.
  rewrite nonempty_cache_path.
  destruct (get_package_name_first_line O (path_join TEMP_DIR apk) w1
              stdout stderr before
              ("package: name='" +:+ pkg +:+ String "'" tail) rest)
    as (w2 & E2 & Q2);
    [destruct D1 as [-> _]; exact Ha | exact identify | exact badging
    | exact first | reflexivity |].
  rewrite (quoted_name_package pkg tail clean) in E2.
  rewrite (bind_ok _ _ _ _ _ E2). clear E2.
  assert (Hn : nonempty pkg = true) by (by destruct pkg).
  cbn [str_truthy default from_option id]. rewrite Hn.
  destruct (run_command_query pkg w2) as (v & w3 & E3 & Q3 & h & Hv).
  rewrite (bind_ok _ _ _ _ _ E3). clear E3. rewrite Hv, Hfound.
  unfold mbind at 1, M_bind at 1, mret at 1, M_ret at 1.
  unfold mbind at 1, M_bind at 1, logging at 1, emit at 1.
  unfold mbind at 1, M_bind at 1, input at 1.
  change "It is already installed. Do you want to set it as the default launcher (y/n)? "
    with launcher_prompt.
  rewrite Hans. cbn [fst snd].
  pose proof (quiet_step_trans _ _ _ _ _ Q2 Q3) as Q.
  apply device_step_quiet in Q.
  assert (D0 : device_step w w1 [] 0).
  { destruct D1 as (A & C & T & P). simpl in *. unfold device_step.
    rewrite A, C, T, P, commands_app, transfers_app, prompts_app,
      prompts_cons, prompts_nil.
    simpl. rewrite !app_nil_r. repeat split; lia. }
  pose proof (device_step_trans _ _ _ _ _ _ _ D0 Q) as D. clear D0 Q.
  simpl in D.
  destruct (bool_decide (lower answer = "y")).
  - match goal with |- context [(set_default_launcher O ?n ≫= _) ?w0] =>
      destruct (set_default_launcher_named pkg w0 Hn) as (b & w5 & E5 & Q5)
    end.
    rewrite (bind_ok _ _ _ _ _ E5). clear E5.
    exists w5. split; [done|].
    destruct D as (A & C & T & P), Q5 as (F5 & A5 & C5 & T5 & P5).
    simpl in *. unfold device_step.
    rewrite A5, C5, T5, P5, A, !commands_app, !transfers_app, !prompts_app,
      !prompts_cons, !prompts_nil, C, T, P.
    simpl. rewrite !app_nil_r, <-!app_assoc. simpl. repeat split; lia.
  - run_monad. eexists. split; [done|].
    destruct D as (A & C & T & P). unfold device_step. simpl.
    rewrite A, !commands_app, !transfers_app, !prompts_app,
      !prompts_cons, !prompts_nil, C, T, P.
    simpl. rewrite !app_nil_r. repeat split; lia.
Qed.
End Identified.
End Launcher.

Lemma extends_transfers w w' :
  extends no_transfer w w' → transfers (trace w') = transfers (trace w).
Proof.
  intros (d & E & F). rewrite E, transfers_app.
  assert (transfers d = []) as ->; [|by rewrite app_nil_r].
  clear E. induction F as [|e d He _ IH]; [done|]. by destruct e.
Qed.

(** A computation that returns, keeps the state and performs no transfer. *)
Lemma device_only {A} (m : M A) w :
  returns m → keeps_state m → footprint no_transfer m →
  ∃ a w', m w = (Ok a, w') ∧ fs w' = fs w
          ∧ aapt_available w' = aapt_available w
          ∧ transfers (trace w') = transfers (trace w).
Proof.
  intros R K F. destruct (R w) as [a E]. specialize (K w).
  specialize (F w). destruct (m w) as [r w']. simpl in *. subst r.
  exists a, w'. destruct K as [K1 K2]. repeat split; try done.
  by apply extends_transfers.
Qed.

Section Fetch.
Variable O : oracle.
Hypothesis present : binaries_present O.

Lemma download_file_fetch url filename target_dir w :
  let p := path_join target_dir filename in
  fs w !! p = None → p ≠ target_dir →
  ∃ r w', download_file O url filename target_dir w = (Ok r, w')
          ∧ (r = None ∨ r = Some p)
          ∧ transfers (trace w') = transfers (trace w) ++ [url]
          ∧ ∀ q, q ≠ p → q ≠ target_dir → fs w' !! q = fs w !! q.
Proof.
  intros p Hp Hne. unfold download_file. fold p. run_monad.
  destruct (bool_decide (is_Some (fs w !! target_dir))) eqn:Ed; simpl;
    rewrite ?lookup_insert_ne by done; rewrite Hp;
    rewrite bool_decide_false by (by intros [? ?]); simpl.
  all: destruct (requests_get O _ url) as [msg|msg|chunks broken]; simpl.
  all: try (eexists _, _; split; [done|]; simpl; split; [by left|];
            split; [trace_facts|]; intros q ? ?;
            by rewrite ?lookup_insert_ne).
  all: match goal with |- context [write_chunks ?p0 ?c0 ?w0] =>
         pose proof (keeps_write_chunks p0 c0 w0) as Hw;
         destruct (write_chunks_frame p0 c0 w0) as (m & Em);
         rewrite Em in Hw |- *; simpl in Hw end.
  all: destruct broken; simpl; eexists _, _; (split; [done|]); simpl;
    (split; [auto|]); (split; [trace_facts|]); intros q ? ?;
    rewrite Hw by done; by rewrite ?lookup_insert_ne.
Qed.

Lemma install_component_fetch config apk description optional w :
  apk ∉ LAUNCHERS.*1 →
  install_app_of optional config = "y" →
  fs w !! path_join TEMP_DIR apk = None →
  path_join TEMP_DIR apk ≠ TEMP_DIR →
  ∃ w', install_component O config (apk, (description, optional)) w
        = (Ok (), w')
        ∧ transfers (trace w') = transfers (trace w) ++ [asset_url apk]
        ∧ ∀ q, q ≠ path_join TEMP_DIR apk → q ≠ TEMP_DIR →
               fs w' !! q = fs w !! q.
Proof.
  intros Hl Hy Hp Hne. unfold install_component, asset_url.
  rewrite bool_decide_false by done. rewrite Hy.
  rewrite bool_decide_true by done.
  unfold mbind at 1, M_bind at 1. unfold logging at 1, emit at 1.
  match goal with |- context [(download_file O ?u ?f ?d ≫= _) ?w0] =>
    destruct (download_file_fetch u f d w0 Hp Hne)
      as (r & w1 & E1 & Hr & T1 & F1) end.
  rewrite (bind_ok _ _ _ _ _ E1). clear E1. simpl in T1, F1.
  rewrite transfers_app, app_nil_r in T1.
  destruct Hr as [-> | ->]; simpl.
  - run_monad. eexists. split; [done|]. simpl.
    rewrite transfers_app, app_nil_r. done.
  - rewrite nonempty_cache_path.
    set (path := path_join TEMP_DIR apk) in *.
    set (m := (get_package_name_from_apk O path ≫= λ _,
               push_and_install_apk O path ≫= λ installed,
               when installed
                 (logging INFO (description +:+ " successfully installed.")))).
    assert (R : returns m).
    { unfold m. repeat rt_step.
      all: first [ by apply returns_get_package_name_from_apk
                 | by apply returns_push_and_install_apk ]. }
    assert (K : keeps_state m).
    { unfold m. repeat ks_step.
      all: first [ apply keeps_state_get_package_name_from_apk
                 | apply keeps_state_push_and_install_apk ]. }
    assert (F : footprint
                  (only [Run [AAPT_PATH; "dump"; "badging"; path];
                         Run [ADB_PATH; "push"; path;
                              path_join "/data/local/tmp/" (basename path)];
                         Run [ADB_PATH; "shell"; "pm"; "install"; "-r";
                              path_join "/data/local/tmp/" (basename path)]])
                  m).
    { unfold m. repeat fp_step.
      all: first [ fp_call footprint_get_package_name_from_apk
                 | fp_call footprint_push_and_install_apk ]. }
    destruct (device_only m w1 R K) as ([] & w2 & E & F2 & _ & T2).
    { eapply footprint_from_only; [done | | exact F].
      repeat (apply Forall_cons; split; [done|]). by apply Forall_nil. }
    exists w2. split; [done|]. split; [congruence|].
    intros q ? ?. rewrite F2. by apply F1.
Qed.

Lemma install_component_skip config apk description optional w :
  selects config (apk, (description, optional)) = false →
  ∃ w', install_component O config (apk, (description, optional)) w
        = (Ok (), w')
        ∧ transfers (trace w') = transfers (trace w)
        ∧ fs w' = fs w.
Proof.
  unfold selects, install_component. cbn [fst snd].
  destruct (bool_decide (apk ∈ LAUNCHERS.*1)); cbn [negb andb].
  - intros _. by exists w.
  - intros ->. run_monad. eexists. split; [done|]. simpl.
    by rewrite transfers_app, app_nil_r.
Qed.

Lemma install_loop_fetch config l w :
  uncached l (fs w) →
  ∃ w', for_each l (install_component O config) w = (Ok (), w')
        ∧ transfers (trace w')
          = transfers (trace w)
            ++ map asset_url (List.filter (selects config) l).*1.
Proof.
  revert w. induction l as [|[apk [description optional]] l IH];
    intros w [Hnd Hall]; simpl.
  - exists w. by rewrite app_nil_r.
  - apply NoDup_cons in Hnd as [Hnotin Hnd]. cbn [fst] in Hnotin.
    apply Forall_cons in Hall as [[Hne Hp] Hall]. simpl in Hne, Hp.
    destruct (selects config (apk, (description, optional))) eqn:Es.
    + unfold selects in Es. simpl in Es.
      apply andb_true_iff in Es as [Hl Hy].
      apply negb_true_iff, bool_decide_eq_false in Hl.
      apply bool_decide_eq_true in Hy.
      destruct (install_component_fetch config apk description optional w
                  Hl Hy Hp Hne) as (w1 & E1 & T1 & F1).
      rewrite (bind_ok _ _ _ _ _ E1).
      destruct (IH w1) as (w2 & E2 & T2).
      { split; [done|]. apply Forall_forall. intros item Hin.
        pose proof (proj1 (Forall_forall _ _) Hall item Hin) as [Hne' Hp'].
        split; [done|]. rewrite F1; [done | | done].
        intros Heq. apply Hnotin. rewrite <-Heq.
        apply (list_elem_of_fmap_2 (λ item, path_join TEMP_DIR item.1)).
        exact Hin. }
      exists w2. split; [done|]. rewrite T2, T1. simpl.
      by rewrite <-app_assoc.
    + destruct (install_component_skip config apk description optional w Es)
        as (w1 & E1 & T1 & F1).
      rewrite (bind_ok _ _ _ _ _ E1).
      destruct (IH w1) as (w2 & E2 & T2).
      { split; [done|]. by rewrite F1. }
      exists w2. split; [done|]. by rewrite T2, T1.
Qed.

(** X23. Starting without any component in the cache, the application loop
    requests every selected component exactly once, in the order of
    [LINEAGEOS_COMPONENTS], whatever fails on the way; every mandatory
    component is selected under every flag. *)
Theorem install_applications_fetches config w :
  uncached LINEAGEOS_COMPONENTS (fs w) →
  ∃ w', install_applications O config w = (Ok (), w')
        ∧ transfers (trace w')
          = transfers (trace w) ++ map asset_url (selected config)
        ∧ ∀ apk description,
            (apk, (description, false)) ∈ LINEAGEOS_COMPONENTS →
            apk ∈ selected config.
Proof.
  intros Hu. unfold install_applications.
  unfold mbind at 1, M_bind at 1, print_step at 1, logging at 1, emit at 1.
  match goal with |- context [for_each _ _ ?w0] =>
    destruct (install_loop_fetch config LINEAGEOS_COMPONENTS w0 Hu)
      as (w' & E & T) end.
  exists w'. split; [done|]. split.
  - rewrite T. simpl. by rewrite transfers_app, app_nil_r.
  - intros apk description Hin. unfold selected.
    apply (list_elem_of_fmap_2 fst _ (apk, (description, false))).
    apply list_elem_of_In, filter_In. split; [by apply list_elem_of_In|].
    unfold LINEAGEOS_COMPONENTS in Hin.
    repeat (apply elem_of_cons in Hin as [Heq | Hin];
            [simplify_eq; by vm_compute|]).
    by apply elem_of_nil in Hin.
Qed.
End Fetch.

Section Wipe.
Variable O : oracle.
Hypothesis present : binaries_present O.

Lemma collect_package_cached apk packages w :
  is_Some (fs w !! path_join TEMP_DIR apk) →
  ∃ l w', collect_package O apk packages w = (Ok l, w')
          ∧ fs w' = fs w
          ∧ transfers (trace w') = transfers (trace w).
Proof.
  intros Hc. unfold collect_package.
  unfold mbind at 1, M_bind at 1, path_exists at 1.
  rewrite bool_decide_true by done. cbn [negb when].
  unfold mbind at 1, M_bind at 1, mret at 1, M_ret at 1.
  unfold mbind at 1, M_bind at 1, path_exists at 1.
  rewrite bool_decide_true by done.
  match goal with |- ∃ l w', ?m w = _ ∧ _ =>
    destruct (device_only m w) as (l & w' & E & F & _ & T) end.
  - repeat rt_step. by apply returns_get_package_name_from_apk.
  - repeat ks_step. apply keeps_state_get_package_name_from_apk.
  - apply (footprint_from_only _
             [Run [AAPT_PATH; "dump"; "badging"; path_join TEMP_DIR apk]]);
      [done | by repeat constructor |].
    repeat fp_step. fp_call footprint_get_package_name_from_apk.
  - by exists l, w'.
Qed.

Lemma collect_loop_cached l packages w :
  (∀ apk, apk ∈ l → is_Some (fs w !! path_join TEMP_DIR apk)) →
  ∃ r w', for_fold l packages (collect_package O) w = (Ok r, w')
          ∧ fs w' = fs w
          ∧ transfers (trace w') = transfers (trace w).
Proof.
  revert packages w. induction l as [|apk l IH]; intros packages w Hc; simpl.
  - by exists packages, w.
  - destruct (collect_package_cached apk packages w) as (s & w1 & E1 & F1 & T1).
    { apply Hc. by left. }
    rewrite (bind_ok _ _ _ _ _ E1).
    destruct (IH s w1) as (r & w2 & E2 & F2 & T2).
    { intros a Ha. rewrite F1. apply Hc. by right. }
    exists r, w2. split; [done|]. split; congruence.
Qed.

(** X24. When every component is cached, an uninstallation run performs no
    transfer and leaves the file system as it is. *)
Theorem wipe_uses_cache w :
  (∀ apk, apk ∈ LINEAGEOS_COMPONENTS.*1 →
          is_Some (fs w !! path_join TEMP_DIR apk)) →
  ∃ w', wipe_liteageos_components O w = (Ok (), w')
        ∧ fs w' = fs w
        ∧ transfers (trace w') = transfers (trace w).
Proof.
  intros Hc. unfold wipe_liteageos_components.
  unfold mbind at 1, M_bind at 1, print_step at 1, logging at 1, emit at 1.
  unfold mbind at 1, M_bind at 1, input at 1. cbv zeta.
  destruct (negb _).
  - run_monad. eexists. split; [done|]. simpl. split; [done|].
    by rewrite !transfers_app, !app_nil_r.
  - unfold collect_packages. cbv zeta.
    match goal with |- context [for_fold ?l ?s _ ≫= _] =>
      match goal with |- context [(_ ≫= _) ?w0] =>
        destruct (collect_loop_cached l s w0 Hc) as (r & w1 & E1 & F1 & T1)
      end end.
    rewrite (bind_ok _ _ _ _ _ (bind_ok _ _ _ _ _ E1)).
    simpl in F1, T1. rewrite transfers_app, transfers_app, !app_nil_r in T1.
    unfold mbind at 1, M_bind at 1, print_step at 1, logging at 1, emit at 1.
    match goal with |- context [(for_each ?l ?b ≫= _) ?w0] =>
      destruct (device_only (for_each l b) w0)
        as ([] & w2 & E2 & F2 & _ & T2) end.
    + apply returns_for_each. intros p. unfold uninstall_package.
      repeat rt_step. by apply returns_run_command.
    + apply keeps_state_for_each, keeps_state_uninstall_package.
    + apply footprint_for_each. intros p _.
      apply (footprint_from_only _ [Run (uninstall_command p)]);
        [done | by repeat constructor |].
      unfold uninstall_package. repeat fp_step.
      all: fp_call footprint_run_command.
    + rewrite (bind_ok _ _ _ _ _ E2). run_monad. eexists.
      split; [done|]. simpl in *. split; [congruence|].
      rewrite transfers_app, app_nil_r, T2, transfers_app, app_nil_r.
      done.
Qed.

Lemma collect_package_fetch apk packages w :
  fs w !! path_join TEMP_DIR apk = None →
  path_join TEMP_DIR apk ≠ TEMP_DIR →
  ∃ l w', collect_package O apk packages w = (Ok l, w')
          ∧ transfers (trace w') = transfers (trace w) ++ [asset_url apk]
          ∧ ∀ q, q ≠ path_join TEMP_DIR apk → q ≠ TEMP_DIR →
                 fs w' !! q = fs w !! q.
Proof.
  intros Hp Hne. unfold collect_package, asset_url.
  unfold mbind at 1, M_bind at 1, path_exists at 1.
  rewrite bool_decide_false by (rewrite Hp; by intros [? ?]).
  cbn [negb when].
  destruct (download_file_fetch O (BASE_APK_RELEASE_URL +:+ apk) apk TEMP_DIR
              w Hp Hne) as (r & w1 & E1 & _ & T1 & F1).
  rewrite (bind_ok _ _ _ _ _ (bind_ok _ _ _ _ _ E1)).
  match goal with |- ∃ l w', ?m w1 = _ ∧ _ =>
    destruct (device_only m w1) as (l & w' & E & F & _ & T) end.
  - repeat rt_step. by apply returns_get_package_name_from_apk.
  - repeat ks_step. apply keeps_state_get_package_name_from_apk.
  - apply (footprint_from_only _
             [Run [AAPT_PATH; "dump"; "badging"; path_join TEMP_DIR apk]]);
      [done | by repeat constructor |].
    repeat fp_step. fp_call footprint_get_package_name_from_apk.
  - exists l, w'. split; [done|]. split; [congruence|].
    intros q ? ?. rewrite F. by apply F1.
Qed.

Lemma collect_loop_fetch l packages w :
  uncached l (fs w) →
  ∃ r w', for_fold l.*1 packages (collect_package O) w = (Ok r, w')
          ∧ transfers (trace w')
            = transfers (trace w) ++ map asset_url l.*1.
Proof.
  revert packages w.
  induction l as [|[apk [description optional]] l IH];
    intros packages w [Hnd Hall]; simpl.
  - exists packages, w. by rewrite app_nil_r.
  - apply NoDup_cons in Hnd as [Hnotin Hnd]. cbn [fst] in Hnotin.
    apply Forall_cons in Hall as [[Hne Hp] Hall]. simpl in Hne, Hp.
    destruct (collect_package_fetch apk packages w Hp Hne)
      as (s & w1 & E1 & T1 & F1).
    rewrite (bind_ok _ _ _ _ _ E1).
    destruct (IH s w1) as (r & w2 & E2 & T2).
    { split; [done|]. apply Forall_forall. intros item Hin.
      pose proof (proj1 (Forall_forall _ _) Hall item Hin) as [Hne' Hp'].
      split; [done|]. rewrite F1; [done | | done].
      intros Heq. apply Hnotin. rewrite <-Heq.
      apply (list_elem_of_fmap_2 (λ item, path_join TEMP_DIR item.1)).
      exact Hin. }
    exists r, w2. split; [done|]. rewrite T2, T1. by rewrite <-app_assoc.
Qed.

Lemma collect_packages_fetch w :
  uncached LINEAGEOS_COMPONENTS (fs w) →
  ∃ r w', collect_packages O w = (Ok r, w')
          ∧ transfers (trace w')
            = transfers (trace w) ++ map asset_url LINEAGEOS_COMPONENTS.*1.
Proof.
  intros Hu. unfold collect_packages. cbv zeta.
  match goal with |- context [for_fold _ ?s _ ≫= _] =>
    destruct (collect_loop_fetch LINEAGEOS_COMPONENTS s w Hu)
      as (r & w1 & E1 & T1) end.
  rewrite (bind_ok _ _ _ _ _ E1). by eexists _, _.
Qed.

Lemma uninstall_loop_only l w :
  ∃ w', for_each l (uninstall_package O) w = (Ok (), w')
        ∧ fs w' = fs w
        ∧ transfers (trace w') = transfers (trace w).
Proof.
  destruct (device_only (for_each l (uninstall_package O)) w)
    as ([] & w2 & E2 & F2 & _ & T2).
  - apply returns_for_each. intros p. unfold uninstall_package.
    repeat rt_step. by apply returns_run_command.
  - apply keeps_state_for_each, keeps_state_uninstall_package.
  - apply footprint_for_each. intros p _.
    apply (footprint_from_only _ [Run (uninstall_command p)]);
      [done | by repeat constructor |].
    unfold uninstall_package. repeat fp_step.
    all: fp_call footprint_run_command.
  - by exists w2.
Qed.

(** X25. A confirmed uninstallation run that finds no component in the cache
    downloads every component, optional one included, to learn its package
    name. *)
Theorem wipe_fetches_missing w :
  wipe_answer O w = "y" ∨ wipe_answer O w = "Y" →
  uncached LINEAGEOS_COMPONENTS (fs w) →
  ∃ w', wipe_liteageos_components O w = (Ok (), w')
        ∧ transfers (trace w')
          = transfers (trace w) ++ map asset_url LINEAGEOS_COMPONENTS.*1.
Proof.
  intros Hans Hu. apply lower_y in Hans.
  unfold wipe_liteageos_components, wipe_answer in *. revert Hans.
  run_monad. intros Hans.
  rewrite bool_decide_true by done. simpl.
  match goal with |- context [collect_packages O ?w0] =>
    destruct (collect_packages_fetch w0 Hu) as (r & w1 & E1 & T1) end.
  rewrite E1. simpl in T1.
  rewrite transfers_app, transfers_app, !app_nil_r in T1.
  match goal with |- context [for_each ?l _ ?w0] =>
    destruct (uninstall_loop_only l w0) as (w2 & E2 & F2 & T2) end.
  rewrite E2. eexists. split; [done|]. simpl in *.
  rewrite transfers_app, app_nil_r, T2, transfers_app, app_nil_r.
  done.
Qed.
End Wipe.

(** X26. [setup_temp_dir] creates the cache directory when it is missing and
    leaves the file system alone otherwise; a second call changes nothing;
    neither call runs a command, transfers or asks anything. *)
Theorem setup_temp_dir_idempotent w :
  ∃ w1 w2,
    setup_temp_dir w = (Ok (), w1)
    ∧ fs w1 = (if bool_decide (is_Some (fs w !! TEMP_DIR)) then fs w
               else <[TEMP_DIR := Dir]> (fs w))
    ∧ is_Some (fs w1 !! TEMP_DIR)
    ∧ setup_temp_dir w1 = (Ok (), w2)
    ∧ fs w2 = fs w1
    ∧ aapt_available w2 = aapt_available w
    ∧ commands (trace w2) = commands (trace w)
    ∧ transfers (trace w2) = transfers (trace w)
    ∧ prompts (trace w2) = prompts (trace w).
Proof.
  unfold setup_temp_dir. run_monad.
  destruct (bool_decide (is_Some (fs w !! TEMP_DIR))) eqn:E; simpl.
  - eexists _, _. split; [done|]. simpl. rewrite E. simpl.
    split; [done|]. split; [by apply bool_decide_eq_true in E|].
    split; [done|]. trace_facts.
  - eexists _, _. split; [done|]. simpl. rewrite lookup_insert_eq.
    rewrite bool_decide_true by by eexists. simpl.
    split; [done|]. split; [by eexists|]. split; [done|]. trace_facts.
Qed.

Ltac trace_norm :=
  simpl;
  rewrite ?commands_app, ?transfers_app, ?prompts_app, ?prompts_cons,
    ?prompts_nil;
  simpl; rewrite ?app_nil_r, <-?app_assoc; simpl.

Section Wallpaper.
Variable O : oracle.
Hypothesis present : binaries_present O.

Let url := BASE_APK_RELEASE_URL +:+ WALLPAPER_FILENAME.
Let path := path_join TEMP_DIR WALLPAPER_FILENAME.
Let remote := "/sdcard/Download/" +:+ basename path.

(** X27. When the wallpaper is not cached and its download fails, the wallpaper
    step runs no command at all. *)
Theorem install_wallpaper_needs_file w :
  fs w !! path = None →
  (∀ h, download_failed (requests_get O h url) = true) →
  ∃ w', install_wallpaper O w = (Ok (), w')
        ∧ commands (trace w') = commands (trace w)
        ∧ transfers (trace w') = transfers (trace w) ++ [url].
Proof.
  intros Hp Hfail. unfold install_wallpaper.
  unfold mbind at 1, M_bind at 1, print_step at 1, logging at 1, emit at 1.
  cbv zeta. fold url.
  unfold download_file. fold path. run_monad.
  assert (Hne : path ≠ TEMP_DIR) by done.
  destruct (bool_decide (is_Some (fs w !! TEMP_DIR))) eqn:Ed; simpl;
    rewrite ?lookup_insert_ne by done; rewrite Hp;
    rewrite bool_decide_false by (by intros [? ?]); simpl.
  all: match goal with |- context [requests_get O ?h url] =>
         specialize (Hfail h);
         destruct (requests_get O h url) as [msg|msg|chunks [msg|]] end;
    try discriminate Hfail; simpl.
  all: try (eexists; split; [done|]; simpl; split; trace_facts).
  all: match goal with |- context [write_chunks ?p0 ?c0 ?w0] =>
         destruct (write_chunks_frame p0 c0 w0) as (m & Em);
         rewrite Em end.
  all: simpl; eexists; split; [done|]; simpl; split; trace_facts.
Qed.

(** X28. When the wallpaper is cached, the wallpaper step makes no transfer,
    pushes the cached file, and sets it only after the push. *)
Theorem install_wallpaper_cached w :
  is_Some (fs w !! path) →
  ∃ w', install_wallpaper O w = (Ok (), w')
        ∧ transfers (trace w') = transfers (trace w)
        ∧ (commands (trace w')
           = commands (trace w) ++ [[ADB_PATH; "push"; path; remote]]
           ∨ commands (trace w')
             = commands (trace w)
               ++ [[ADB_PATH; "push"; path; remote];
                   [ADB_PATH; "shell"; "cmd"; "wallpaper"; "set"; remote]]).
Proof.
  intros Hc. unfold install_wallpaper.
  unfold mbind at 1, M_bind at 1, print_step at 1, logging at 1, emit at 1.
  cbv zeta.
  match goal with |- context [(download_file O ?u ?f ?d ≫= _) ?w0] =>
    destruct (download_file_cached_step O u f d w0 Hc) as (w1 & E1 & D1) end.
  rewrite (bind_ok _ _ _ _ _ E1). clear E1.
  cbn [str_truthy default from_option id].
  rewrite nonempty_cache_path. fold path.
  unfold set_wallpaper. fold remote. unfold run_command. run_monad.
  destruct D1 as (A & C & T & P). simpl in C, T.
  rewrite commands_app in C. simpl in C. rewrite app_nil_r in C.
  rewrite transfers_app, app_nil_r in T.
  destruct_proc present.
  - destruct_proc present.
    + eexists. split; [done|]. simpl. split; [trace_norm; exact T|].
      right. trace_norm. rewrite C. simpl. by rewrite <-?app_assoc.
    + eexists. split; [done|]. simpl. split; [trace_norm; exact T|].
      right. trace_norm. rewrite C. simpl. by rewrite <-?app_assoc.
  - eexists. split; [done|]. simpl. split; [trace_norm; exact T|].
    left. trace_norm. rewrite C. simpl. by rewrite <-?app_assoc.
Qed.
End Wallpaper.

Section Waits.
Variable O : oracle.

(** X8. While [adb devices] keeps being refused, [check_adb_connection] never
    returns by itself: every nested call costs one run of the command and
    one prompt, until the calls are used up. *)
Theorem check_adb_connection_waits :
  (∀ h, device_refused (subprocess_run O h [ADB_PATH; "devices"]) = true) →
  ∀ depth w,
    ∃ w', check_adb_connection O depth w = (Ok None, w')
          ∧ prompts (trace w') = (prompts (trace w) + depth)%nat
          ∧ commands (trace w')
            = commands (trace w) ++ replicate depth [ADB_PATH; "devices"]
          ∧ transfers (trace w') = transfers (trace w)
          ∧ fs w' = fs w ∧ aapt_available w' = aapt_available w.
Proof.
  intros Hrefuse. induction depth as [|depth IH]; intros w.
  - exists w. simpl. rewrite app_nil_r. repeat split; lia.
  - destruct (check_adb_refuses O depth w (Hrefuse _))
      as (w1 & E & F & A & C & T & P).
    destruct (IH w1) as (w' & E' & P' & C' & T' & F' & A').
    exists w'. rewrite E. split; [done|].
    rewrite P', P, C', C, T', T, F', F, A', A, <-app_assoc.
    repeat split; lia.
Qed.

(** X9. The test of [check_adb_connection] looks for [device] anywhere in the
    output: the header [List of devices attached] alone passes it, so a
    listing without any device, and without [unauthorized], is accepted at
    the first attempt. *)
Theorem check_adb_connection_header stdout stderr listing depth w :
  (∀ h, subprocess_run O h [ADB_PATH; "devices"] = Completed stdout stderr) →
  strip stdout = "List of devices attached" +:+ listing →
  contains "unauthorized" listing = false →
  ∃ w', check_adb_connection O (S depth) w = (Ok (Some true), w')
        ∧ quiet_step w w' [[ADB_PATH; "devices"]].
Proof.
  intros Hout Hs Hu. apply check_adb_accepts. rewrite Hout. simpl.
  rewrite Hs. apply andb_true_iff. split; [reflexivity|].
  apply negb_true_iff. exact Hu.
Qed.
End Waits.

(** ** The properties at the sample oracles *)

Lemma settled_present : binaries_present settled.
Proof.
  intros h argv. unfold settled. cbn [subprocess_run].
  destruct (bool_decide _); [discriminate | apply friendly_present].
Qed.

Lemma terse_present : binaries_present terse.
Proof. intros h argv. simpl. by destruct (bool_decide _). Qed.

Lemma hostile_present : binaries_present hostile.
Proof. done. Qed.

Lemma check_adb_connection_retries_witness :
  ∃ w', check_adb_connection patient 3 (fresh true) = (Ok (Some true), w')
        ∧ prompts (trace w') = 2%nat
        ∧ commands (trace w')
          = commands (trace (fresh true))
            ++ replicate 3 [ADB_PATH; "devices"]
        ∧ transfers (trace w') = transfers (trace (fresh true))
        ∧ fs w' = fs (fresh true)
        ∧ aapt_available w' = aapt_available (fresh true).
Proof.
  apply (check_adb_connection_retries patient 2).
  - intros h Hh. simpl.
    destruct (prompts h) as [|[|n]]; [reflexivity | reflexivity | lia].
  - intros h Hh. simpl. rewrite Hh. reflexivity.
  - vm_compute; reflexivity.
  - lia.
Defined.

Lemma check_aapt_availability_flag_witness :
  ∃ b w', check_aapt_availability friendly (fresh false) = (Ok b, w')
    ∧ aapt_available w' = b.
Proof.
  destruct (check_aapt_availability_flag friendly friendly_present (fresh false))
    as (b & w' & E & A & _).
  exists b, w'. split; [exact E | exact A].
Defined.

Lemma get_package_name_from_apk_safe_witness :
  ∃ r w', get_package_name_from_apk hostile "apks/Music.apk" (fresh true)
          = (Ok r, w').
Proof.
  destruct (get_package_name_from_apk_safe hostile hostile_present
              "apks/Music.apk" (fresh true)) as (r & w' & E & _).
  exists r, w'. exact E.
Defined.

Lemma clean_name_sample : clean_name "com.example.Music.apk".
Proof. unfold clean_name. simpl. repeat constructor; discriminate. Qed.

Lemma get_package_name_from_apk_reads_witness :
  ∃ w', get_package_name_from_apk friendly "apks/Music.apk" (fresh true)
        = (Ok (Some "com.example.Music.apk"), w')
        ∧ quiet_step (fresh true) w'
            [[AAPT_PATH; "dump"; "badging"; "apks/Music.apk"]].
Proof.
  apply (get_package_name_from_apk_reads friendly "apks/Music.apk" (fresh true)
           "package: name='com.example.Music.apk' versionCode='1'" EmptyString
           [] "com.example.Music.apk" " versionCode='1'" []).
  - vm_compute; reflexivity.
  - intros h. reflexivity.
  - vm_compute; reflexivity.
  - constructor.
  - exact clean_name_sample.
Defined.

Lemma get_package_name_from_apk_unquoted_witness :
  ∃ w', get_package_name_from_apk terse "apks/Music.apk" (fresh true)
        = (Ok None, w')
        ∧ quiet_step (fresh true) w'
            [[AAPT_PATH; "dump"; "badging"; "apks/Music.apk"]].
Proof.
  apply (get_package_name_from_apk_unquoted terse "apks/Music.apk" (fresh true)
           "package: name=com.example.app versionCode=1" EmptyString
           [] "package: name=com.example.app versionCode=1" []).
  - vm_compute; reflexivity.
  - intros h. reflexivity.
  - vm_compute; reflexivity.
  - constructor.
  - vm_compute; reflexivity.
  - vm_compute; reflexivity.
Defined.

Lemma push_and_install_apk_order_witness :
  ∃ b w', push_and_install_apk hostile "apks/Music.apk" (fresh true) = (Ok b, w')
    ∧ (b = false
       ∧ quiet_step (fresh true) w'
           [[ADB_PATH; "push"; "apks/Music.apk"; "/data/local/tmp/Music.apk"]]
       ∨ quiet_step (fresh true) w'
           [[ADB_PATH; "push"; "apks/Music.apk"; "/data/local/tmp/Music.apk"];
            [ADB_PATH; "shell"; "pm"; "install"; "-r";
             "/data/local/tmp/Music.apk"]]).
Proof.
  apply (proj2 (push_and_install_apk_order hostile hostile_present
                  "apks/Music.apk" (fresh true))).
Defined.

Lemma set_wallpaper_order_witness :
  ∃ b w', set_wallpaper friendly "apks/wallpaper.jpg" (fresh true) = (Ok b, w')
    ∧ (b = false
       ∧ quiet_step (fresh true) w'
           [[ADB_PATH; "push"; "apks/wallpaper.jpg";
             "/sdcard/Download/wallpaper.jpg"]]
       ∨ quiet_step (fresh true) w'
           [[ADB_PATH; "push"; "apks/wallpaper.jpg";
             "/sdcard/Download/wallpaper.jpg"];
            [ADB_PATH; "shell"; "cmd"; "wallpaper"; "set";
             "/sdcard/Download/wallpaper.jpg"]]).
Proof.
  apply (set_wallpaper_order friendly friendly_present
           "apks/wallpaper.jpg" (fresh true)).
Defined.

Lemma set_default_launcher_guard_witness :
  ∃ b w', set_default_launcher friendly (Some EmptyString) (fresh true)
          = (Ok b, w')
    ∧ b = false ∧ quiet_step (fresh true) w' [].
Proof.
  apply (set_default_launcher_guard friendly friendly_present
           (Some EmptyString) (fresh true)).
Defined.

Lemma install_liteageos_components_outcome_witness :
  (∃ w', install_liteageos_components hostile true None "n" (fresh true)
         = (Raise TypeError, w')
         ∧ quiet_step (fresh true) w' [])
  ∧ ∃ w', install_liteageos_components hostile true (Some "Litechair.apk") "n"
            (fresh true) = (Ok (), w').
Proof.
  split.
  - apply (install_liteageos_components_outcome hostile hostile_present
             true None "n" (fresh true)).
  - apply (install_liteageos_components_outcome hostile hostile_present
             true (Some "Litechair.apk") "n" (fresh true)).
Defined.

Lemma clean_name_launcher : clean_name "com.example.Litechair.apk".
Proof. unfold clean_name. simpl. repeat constructor; discriminate. Qed.

Lemma install_launcher_fresh_witness :
  ∃ w', install_launcher friendly (Some "Litechair.apk") stocked = (Ok (), w')
        ∧ device_step stocked w'
            [launcher_identify "Litechair.apk";
             launcher_query "com.example.Litechair.apk";
             launcher_push "Litechair.apk";
             launcher_install "Litechair.apk";
             launcher_set_home "com.example.Litechair.apk"] 0.
Proof.
  apply (install_launcher_fresh friendly friendly_present "Litechair.apk"
           "package: name='com.example.Litechair.apk' versionCode='1'"
           EmptyString "com.example.Litechair.apk" " versionCode='1'" [] []).
  - intros h. reflexivity.
  - vm_compute; reflexivity.
  - constructor.
  - exact clean_name_launcher.
  - discriminate.
  - vm_compute; reflexivity.
  - eexists; vm_compute; reflexivity.
  - intros h. reflexivity.
  - intros h. reflexivity.
  - intros h. reflexivity.
Defined.

Lemma install_launcher_present_witness :
  ∃ w', install_launcher settled (Some "Litechair.apk") stocked = (Ok (), w')
        ∧ device_step stocked w'
            [launcher_identify "Litechair.apk";
             launcher_query "com.example.Litechair.apk";
             launcher_set_home "com.example.Litechair.apk"] 1.
Proof.
  apply (install_launcher_present settled settled_present "Litechair.apk"
           "package: name='com.example.Litechair.apk' versionCode='1'"
           EmptyString "com.example.Litechair.apk" " versionCode='1'" [] []
           (λ h, eq_refl) ltac:(vm_compute; reflexivity) (Forall_nil_2 _) clean_name_launcher
           ltac:(discriminate) "Y" stocked).
  - vm_compute; reflexivity.
  - eexists; vm_compute; reflexivity.
  - intros h. reflexivity.
  - intros h. reflexivity.
Defined.

Lemma fresh_uncached b : uncached LINEAGEOS_COMPONENTS (fs (fresh b)).
Proof.
  split.
  - apply (bool_decide_unpack _). by vm_compute.
  - repeat (apply Forall_cons; split; [split; [discriminate | reflexivity]|]).
    by apply Forall_nil.
Qed.

Lemma stocked_components apk :
  apk ∈ LINEAGEOS_COMPONENTS.*1 → is_Some (fs stocked !! path_join TEMP_DIR apk).
Proof.
  intros H. simpl in H.
  repeat (apply elem_of_cons in H as [-> | H]; [eexists; vm_compute; reflexivity|]).
  by apply elem_of_nil in H.
Qed.

Lemma install_applications_fetches_witness :
  ∃ w', install_applications hostile "n" (fresh true) = (Ok (), w')
        ∧ transfers (trace w')
          = transfers (trace (fresh true)) ++ map asset_url (selected "n").
Proof.
  destruct (install_applications_fetches hostile hostile_present "n" (fresh true)
              (fresh_uncached true)) as (w' & E & T & _).
  exists w'. split; [exact E | exact T].
Defined.

Lemma wipe_uses_cache_witness :
  ∃ w', wipe_liteageos_components friendly stocked = (Ok (), w')
        ∧ fs w' = fs stocked
        ∧ transfers (trace w') = transfers (trace stocked).
Proof.
  apply (wipe_uses_cache friendly friendly_present stocked stocked_components).
Defined.

Lemma wipe_fetches_missing_witness :
  ∃ w', wipe_liteageos_components friendly (fresh true) = (Ok (), w')
        ∧ transfers (trace w')
          = transfers (trace (fresh true))
            ++ map asset_url LINEAGEOS_COMPONENTS.*1.
Proof.
  apply (wipe_fetches_missing friendly friendly_present (fresh true)).
  - left. reflexivity.
  - exact (fresh_uncached true).
Defined.

Lemma install_wallpaper_needs_file_witness :
  ∃ w', install_wallpaper hostile (fresh true) = (Ok (), w')
        ∧ commands (trace w') = commands (trace (fresh true))
        ∧ transfers (trace w')
          = transfers (trace (fresh true))
            ++ [BASE_APK_RELEASE_URL +:+ WALLPAPER_FILENAME].
Proof.
  apply (install_wallpaper_needs_file hostile (fresh true)).
  - reflexivity.
  - intros h. reflexivity.
Defined.

Lemma install_wallpaper_cached_witness :
  ∃ w', install_wallpaper friendly stocked = (Ok (), w')
        ∧ transfers (trace w') = transfers (trace stocked)
        ∧ (commands (trace w')
           = commands (trace stocked)
             ++ [[ADB_PATH; "push"; "apks/wallpaper.jpg";
                  "/sdcard/Download/wallpaper.jpg"]]
           ∨ commands (trace w')
             = commands (trace stocked)
               ++ [[ADB_PATH; "push"; "apks/wallpaper.jpg";
                    "/sdcard/Download/wallpaper.jpg"];
                   [ADB_PATH; "shell"; "cmd"; "wallpaper"; "set";
                    "/sdcard/Download/wallpaper.jpg"]]).
Proof.
  apply (install_wallpaper_cached friendly friendly_present stocked).
  (eexists; vm_compute; reflexivity).
Defined.

Lemma check_adb_connection_waits_witness :
  ∃ w', check_adb_connection hostile 5 (fresh true) = (Ok None, w')
        ∧ prompts (trace w') = 5%nat
        ∧ commands (trace w') = replicate 5 [ADB_PATH; "devices"]
        ∧ transfers (trace w') = []
        ∧ fs w' = ∅ ∧ aapt_available w' = true.
Proof.
  apply (check_adb_connection_waits hostile (λ h, eq_refl) 5%nat (fresh true)).
Defined.

Lemma check_adb_connection_header_witness :
  ∃ w', check_adb_connection unplugged 1 (fresh true) = (Ok (Some true), w')
        ∧ quiet_step (fresh true) w' [[ADB_PATH; "devices"]].
Proof.
  apply (check_adb_connection_header unplugged "List of devices attached
" EmptyString EmptyString 0%nat (fresh true)).
  - intros h. reflexivity.
  - reflexivity.
  - reflexivity.
Defined.

End InstallerExtras.

(** * The gating of optional components *)

Module InstallerGating.
Import PyText Installer Fixtures PyTextFacts InstallerFacts InstallerExtras.



Section Installs.
Variable O : oracle.
Hypothesis present : binaries_present O.


End Installs.

Section Claim.
Variable O : oracle.

End Claim.


End InstallerGating.
